(** * terraform-provider-azurestack: network interface and
      load-balancer backend address pool association resources

    A shallow embedding of

      - internal/services/network/network_interface_resource.go
      - internal/services/network/loadbalancer_backend_address_pool_association_resource.go

    The SDK structs are records, a Go pointer field is an [option], a handler
    is a program in a small monad of remote calls ([Prog]): the calls to the
    Azure client, to the [locks] package and to the resource data are the
    nodes of the program, [defer] is [defer_], a run-time panic is [Panic].
    The contexts with their timeouts and the log lines are left out: no
    handler branches on them. *)

From Stdlib Require Import String Ascii List Bool Arith Lia.
From stdpp Require Import base option list relations strings gmap.
Import ListNotations.

Local Open Scope string_scope.
Local Open Scope list_scope.

(** ** Go values *)

(** What a Go function call ends in: it returns, or it panics (a failed type
    assertion, an index out of range, a nil pointer dereference). *)
Inductive outcome (A : Type) : Type :=
| Returned (a : A)
| Panicked (msg : string).
Arguments Returned {A} a.
Arguments Panicked {A} msg.

(** Go's [error] values, as far as these files build them. [Errorf] keeps the
    format string of [fmt.Errorf]. *)
Inductive error : Type :=
| Errorf (format : string)
| ImportAsExistsError (resourceName id : string).

(** A [(T, error)] pair of results. *)
Inductive result (A : Type) : Type :=
| Ok (a : A)
| Err (e : error).
Arguments Ok {A} a.
Arguments Err {A} e.

(** [interface{}] values as the plugin SDK hands them to a resource. *)
#[warnings="-register-all"]
Inductive TfValue : Type :=
| VString (s : string)
| VBool (b : bool)
| VList (l : list TfValue)
| VMap (m : list (string * TfValue))
| VNil.

(** [data[k]] on a [map[string]interface{}]. *)
Fixpoint map_index (m : list (string * TfValue)) (k : string) : option TfValue :=
  match m with
  | [] => None
  | (k', v) :: r => if String.eqb k k' then Some v else map_index r k
  end.

(** [v.(string)], [v.(bool)], [v.(map[string]interface{})]: the one-result
    form of the type assertion panics on any other dynamic type, and on the
    nil interface a missing key gives. *)
Definition assert_string (v : option TfValue) : outcome string :=
  match v with
  | Some (VString s) => Returned s
  | _ => Panicked "interface conversion: interface {} is not string"
  end.

Definition assert_bool (v : option TfValue) : outcome bool :=
  match v with
  | Some (VBool b) => Returned b
  | _ => Panicked "interface conversion: interface {} is not bool"
  end.

Definition assert_map (v : TfValue) : outcome (list (string * TfValue)) :=
  match v with
  | VMap m => Returned m
  | _ => Panicked "interface conversion: interface {} is not map[string]interface {}"
  end.

Definition obind {A B} (o : outcome A) (f : A -> outcome B) : outcome B :=
  match o with
  | Returned a => f a
  | Panicked msg => Panicked msg
  end.

Declare Scope outcome_scope.
Delimit Scope outcome_scope with outcome.
Notation "'let!' x ':=' c 'in' k" := (obind c (fun x => k))
  (at level 10, x name, c at level 100, k at level 200) : outcome_scope.

(** ** [strings.Split(s, "|")] *)

(** [strings.Split] with a one-byte separator: the pieces between the
    separators, one more than there are separators. *)
Fixpoint Split (s : string) (sep : ascii) : list string :=
  match s with
  | EmptyString => [""]
  | String c r =>
      if Ascii.eqb c sep then "" :: Split r sep
      else match Split r sep with
           | h :: t => String c h :: t
           | [] => [String c ""]
           end
  end.

Definition pipe : ascii := "|"%char.

Fixpoint contains_byte (s : string) (b : ascii) : bool :=
  match s with
  | EmptyString => false
  | String c r => Ascii.eqb c b || contains_byte r b
  end.

(** ** The SDK's network types (profile 2020-09-01)

    The fields the two files read or write, and next to them fields that
    other resources own, which a frame property has to speak about. *)

Record BackendAddressPool : Type := {
  bap_ID : option string;
  bap_Name : option string;
  bap_Etag : option string
}.

Record Subnet : Type := { subnet_ID : option string }.
Record PublicIPAddress : Type := { pip_ID : option string }.
Record SecurityGroup : Type := { nsg_ID : option string }.
Record SubResource : Type := { sub_ID : option string }.
Record InboundNatRule : Type := { natrule_ID : option string }.

Record InterfaceIPConfigurationPropertiesFormat : Type := {
  LoadBalancerBackendAddressPools : option (list BackendAddressPool);
  LoadBalancerInboundNatRules : option (list InboundNatRule);
  PrivateIPAddress : option string;
  PrivateIPAllocationMethod : string;
  PrivateIPAddressVersion : string;
  ipc_Subnet : option Subnet;
  Primary : option bool;
  ipc_PublicIPAddress : option PublicIPAddress;
  ipc_ProvisioningState : option string
}.

(** [P] is what the embedded [*InterfaceIPConfigurationPropertiesFormat]
    field holds: the properties themselves on the wire, an address in the
    Go heap once the SDK has decoded the response (see [Heap]). *)
Record InterfaceIPConfiguration (P : Type) : Type := {
  ipc_Properties : option P;
  ipc_Name : option string;
  ipc_Etag : option string;
  ipc_ID : option string
}.
Arguments ipc_Properties {P} _.
Arguments ipc_Name {P} _.
Arguments ipc_Etag {P} _.
Arguments ipc_ID {P} _.

Record InterfaceDNSSettings : Type := {
  DNSServers : option (list string);
  AppliedDNSServers : option (list string);
  InternalDNSNameLabel : option string;
  InternalDomainNameSuffix : option string
}.

Record InterfacePropertiesFormat (P : Type) : Type := {
  VirtualMachine : option SubResource;
  NetworkSecurityGroup : option SecurityGroup;
  IPConfigurations : option (list (InterfaceIPConfiguration P));
  DNSSettings : option InterfaceDNSSettings;
  MacAddress : option string;
  EnableIPForwarding : option bool;
  nic_ProvisioningState : option string
}.
Arguments VirtualMachine {P} _.
Arguments NetworkSecurityGroup {P} _.
Arguments IPConfigurations {P} _.
Arguments DNSSettings {P} _.
Arguments MacAddress {P} _.
Arguments EnableIPForwarding {P} _.
Arguments nic_ProvisioningState {P} _.

Record Interface (P : Type) : Type := {
  nic_Properties : option (InterfacePropertiesFormat P);
  nic_Etag : option string;
  nic_ID : option string;
  nic_Name : option string;
  nic_Type : option string;
  nic_Location : option string;
  nic_Tags : option (list (string * option string))
}.
Arguments nic_Properties {P} _.
Arguments nic_Etag {P} _.
Arguments nic_ID {P} _.
Arguments nic_Name {P} _.
Arguments nic_Type {P} _.
Arguments nic_Location {P} _.
Arguments nic_Tags {P} _.

(** The values on the wire: what the service stores, what [Get] answers and
    what [CreateOrUpdate] sends. *)
Abbreviation IPConfigW := (InterfaceIPConfiguration InterfaceIPConfigurationPropertiesFormat).
Abbreviation PropertiesW := (InterfacePropertiesFormat InterfaceIPConfigurationPropertiesFormat).
Abbreviation InterfaceW := (Interface InterfaceIPConfigurationPropertiesFormat).

(** [network.IPv4], [network.Dynamic], [network.Static]. *)
Definition IPv4 : string := "IPv4".
Definition Dynamic : string := "Dynamic".
Definition Static : string := "Static".

(** ** network_interface_resource.go: expand and flatten *)

(** The body of the first loop of [expandNetworkInterfaceIPConfigurations]
    for one [configRaw]; [Returned (Err _)] is its [return nil, err]. *)
Definition expandNetworkInterfaceIPConfiguration (configRaw : TfValue)
  : outcome (result IPConfigW) :=
  (let! data := assert_map configRaw in
   let! subnetId := assert_string (map_index data "subnet_id") in
   let! privateIpAllocationMethod :=
     assert_string (map_index data "private_ip_address_allocation") in
   let! privateIpAddressVersion :=
     assert_string (map_index data "private_ip_address_version") in
   if String.eqb privateIpAddressVersion IPv4 && String.eqb subnetId ""
   then Returned (Err (Errorf "A Subnet ID must be specified for an IPv4 Network Interface."))
   else
     let subnet :=
       if negb (String.eqb subnetId "") then Some {| subnet_ID := Some subnetId |} else None in
     let! v := assert_string (map_index data "private_ip_address") in
     let privateIPAddress := if negb (String.eqb v "") then Some v else None in
     let! v := assert_string (map_index data "public_ip_address_id") in
     let publicIPAddress :=
       if negb (String.eqb v "") then Some {| pip_ID := Some v |} else None in
     let! primary :=
       match map_index data "primary" with
       | Some v => let! b := assert_bool (Some v) in Returned (Some b)
       | None => Returned None
       end in
     let! name := assert_string (map_index data "name") in
     Returned (Ok
       {| ipc_Name := Some name;
          ipc_Etag := None;
          ipc_ID := None;
          ipc_Properties := Some
            {| LoadBalancerBackendAddressPools := None;
               LoadBalancerInboundNatRules := None;
               PrivateIPAddress := privateIPAddress;
               PrivateIPAllocationMethod := privateIpAllocationMethod;
               PrivateIPAddressVersion := privateIpAddressVersion;
               ipc_Subnet := subnet;
               Primary := primary;
               ipc_PublicIPAddress := publicIPAddress;
               ipc_ProvisioningState := None |} |}))%outcome.

(** The first loop: [ipConfigs] is the slice built so far. *)
Fixpoint expand_loop (input : list TfValue) (ipConfigs : list IPConfigW)
  : outcome (result (list IPConfigW)) :=
  match input with
  | [] => Returned (Ok ipConfigs)
  | configRaw :: rest =>
      (let! r := expandNetworkInterfaceIPConfiguration configRaw in
       match r with
       | Err e => Returned (Err e)
       | Ok c => expand_loop rest (ipConfigs ++ [c])
       end)%outcome
  end.

(** [config.Primary != nil && *config.Primary]; the embedded properties are
    dereferenced without a nil check. *)
Definition is_primary (config : IPConfigW) : outcome bool :=
  match ipc_Properties config with
  | None => Panicked "invalid memory address or nil pointer dereference"
  | Some p => Returned (match Primary p with Some b => b | None => false end)
  end.

(** The second loop, with its [break]. *)
Fixpoint hasPrimary_loop (ipConfigs : list IPConfigW) : outcome bool :=
  match ipConfigs with
  | [] => Returned false
  | config :: rest =>
      (let! b := is_primary config in
       if b then Returned true else hasPrimary_loop rest)%outcome
  end.

Definition expandNetworkInterfaceIPConfigurations (input : list TfValue)
  : outcome (result (list IPConfigW)) :=
  (let! r := expand_loop input [] in
   match r with
   | Err e => Returned (Err e)
   | Ok ipConfigs =>
       if Nat.ltb 1 (length ipConfigs) then
         let! hasPrimary := hasPrimary_loop ipConfigs in
         if negb hasPrimary
         then Returned (Err (Errorf
           "If multiple `ip_configurations` are specified - one must be designated as `primary`."))
         else Returned (Ok ipConfigs)
       else Returned (Ok ipConfigs)
   end)%outcome.

(** [expandNetworkInterfaceDnsServers]: one [v.(string)] per element. *)
Fixpoint expandNetworkInterfaceDnsServers_loop (input : list TfValue) (dnsServers : list string)
  : outcome (list string) :=
  match input with
  | [] => Returned dnsServers
  | v :: rest =>
      (let! s := assert_string (Some v) in
       expandNetworkInterfaceDnsServers_loop rest (dnsServers ++ [s]))%outcome
  end.

Definition expandNetworkInterfaceDnsServers (input : list TfValue) : outcome (list string) :=
  expandNetworkInterfaceDnsServers_loop input [].

Definition flattenNetworkInterfaceDnsServers (input : option (list string)) : list string :=
  match input with
  | None => []
  | Some l => l
  end.

(** ** What the two files use and the sources do not hold *)

(** [parse.NetworkInterfaceId] and [parse.NetworkInterfaceIpConfigurationId],
    with the fields the handlers read. *)
Record NetworkInterfaceId : Type := {
  nicid_SubscriptionId : string;
  nicid_ResourceGroup : string;
  nicid_Name : string
}.

Record NetworkInterfaceIpConfigurationId : Type := {
  ipcid_SubscriptionId : string;
  ipcid_ResourceGroup : string;
  ipcid_NetworkInterfaceName : string;
  ipcid_IpConfigurationName : string
}.

(** [lockingDetails]: the names [lockingDetails.lock()] takes. *)
Record lockingDetails : Type := {
  subnetNamesToLock : list string;
  virtualNetworkNamesToLock : list string
}.

(** [pluginsdk.Schema], with the attributes the two resources set apart from
    validation, defaults and diff suppression. *)
Inductive ValueType : Type := TypeString | TypeBool | TypeList | TypeMap.

#[warnings="-register-all"]
Inductive Schema : Type :=
| MkSchema (type : ValueType) (required optional computed forceNew : bool)
    (elem : option SchemaElem)
with SchemaElem : Type :=
| ElemSchema (s : Schema)
| ElemResource (fields : list (string * Schema)).

Definition ForceNew (s : Schema) : bool :=
  match s with MkSchema _ _ _ _ forceNew _ => forceNew end.

(** The constants and helpers of other packages and files of the repository
    that the two files use: ID parsers and formatters, [location.Normalize],
    [tags.Expand] and [tags.Flatten], three schemas, and the three helpers that decide which
    subnets to lock and which fields of an IP configuration other resources
    own. Nothing is assumed about them. *)
Class Deps : Type := {
  networkInterfaceResourceName : string;
  parse_NetworkInterfaceID : string -> result NetworkInterfaceId;
  parse_NewNetworkInterfaceID : string -> string -> string -> NetworkInterfaceId;
  NetworkInterfaceId_ID : NetworkInterfaceId -> string;
  parse_NetworkInterfaceIpConfigurationID : string -> result NetworkInterfaceIpConfigurationId;
  lbparse_LoadBalancerBackendAddressPoolID : string -> option error;
  location_Normalize : string -> string;
  location_NormalizeNilable : option string -> string;
  tags_Expand : TfValue -> option (list (string * option string));
  tags_Flatten : option (list (string * option string)) -> TfValue;
  tags_Schema : Schema;
  commonschema_Location : Schema;
  commonschema_ResourceGroupName : Schema;
  networkInterfaceUpdateInformation : Type;
  parseFieldsFromNetworkInterface : PropertiesW -> networkInterfaceUpdateInformation;
  mapFieldsToNetworkInterface :
    list IPConfigW -> networkInterfaceUpdateInformation -> list IPConfigW;
  determineResourcesToLockFromIPConfiguration : option (list IPConfigW) -> result lockingDetails
}.

(** ** Programs of remote calls *)

(** What [client.Get] answers: the interface (status 200, [err == nil]), or
    an error whose response [utils.ResponseWasNotFound] accepts, or any other
    error. *)
Inductive GetResponse : Type :=
| GetOk (read : InterfaceW)
| GetNotFound (err : error)
| GetFailed (err : error).

(** A handler, as the tree of the calls it makes on the world outside: the
    [locks] package, the interfaces client and its future, and the resource
    data [d]. Each node carries the arguments of the call and, where the
    call has a result that the handler looks at, a continuation from it. *)
Inductive Prog (A : Type) : Type :=
| Ret (a : A)
| Panic (msg : string)
| LocksByName (name resourceType : string) (k : Prog A)
| LocksUnlockByName (name resourceType : string) (k : Prog A)
| LockingDetailsLock (l : lockingDetails) (k : Prog A)
| LockingDetailsUnlock (l : lockingDetails) (k : Prog A)
| ClientGet (resourceGroup name : string) (k : GetResponse -> Prog A)
| ClientCreateOrUpdate (resourceGroup name : string) (parameters : InterfaceW)
    (k : option error -> Prog A)
| ClientDelete (resourceGroup name : string) (k : option error -> Prog A)
| FutureWaitForCompletionRef (k : option error -> Prog A)
| DSetId (id : string) (k : Prog A)
| DSet (key : string) (value : TfValue) (k : option error -> Prog A).
Arguments Ret {A} a.
Arguments Panic {A} msg.
Arguments LocksByName {A} name resourceType k.
Arguments LocksUnlockByName {A} name resourceType k.
Arguments LockingDetailsLock {A} l k.
Arguments LockingDetailsUnlock {A} l k.
Arguments ClientGet {A} resourceGroup name k.
Arguments ClientCreateOrUpdate {A} resourceGroup name parameters k.
Arguments ClientDelete {A} resourceGroup name k.
Arguments FutureWaitForCompletionRef {A} k.
Arguments DSetId {A} id k.
Arguments DSet {A} key value k.

Fixpoint bind {A B} (p : Prog A) (f : A -> Prog B) : Prog B :=
  match p with
  | Ret a => f a
  | Panic msg => Panic msg
  | LocksByName n t k => LocksByName n t (bind k f)
  | LocksUnlockByName n t k => LocksUnlockByName n t (bind k f)
  | LockingDetailsLock l k => LockingDetailsLock l (bind k f)
  | LockingDetailsUnlock l k => LockingDetailsUnlock l (bind k f)
  | ClientGet rg n k => ClientGet rg n (fun r => bind (k r) f)
  | ClientCreateOrUpdate rg n b k => ClientCreateOrUpdate rg n b (fun r => bind (k r) f)
  | ClientDelete rg n k => ClientDelete rg n (fun r => bind (k r) f)
  | FutureWaitForCompletionRef k => FutureWaitForCompletionRef (fun r => bind (k r) f)
  | DSetId id k => DSetId id (bind k f)
  | DSet key v k => DSet key v (fun r => bind (k r) f)
  end.

(** [defer cleanup; body]: the deferred call runs when the rest of the
    function is over, whether it returned or panicked. *)
Fixpoint defer_ {A} (cleanup : Prog unit) (body : Prog A) : Prog A :=
  match body with
  | Ret a => bind cleanup (fun _ => Ret a)
  | Panic msg => bind cleanup (fun _ => Panic msg)
  | LocksByName n t k => LocksByName n t (defer_ cleanup k)
  | LocksUnlockByName n t k => LocksUnlockByName n t (defer_ cleanup k)
  | LockingDetailsLock l k => LockingDetailsLock l (defer_ cleanup k)
  | LockingDetailsUnlock l k => LockingDetailsUnlock l (defer_ cleanup k)
  | ClientGet rg n k => ClientGet rg n (fun r => defer_ cleanup (k r))
  | ClientCreateOrUpdate rg n b k => ClientCreateOrUpdate rg n b (fun r => defer_ cleanup (k r))
  | ClientDelete rg n k => ClientDelete rg n (fun r => defer_ cleanup (k r))
  | FutureWaitForCompletionRef k => FutureWaitForCompletionRef (fun r => defer_ cleanup (k r))
  | DSetId id k => DSetId id (defer_ cleanup k)
  | DSet key v k => DSet key v (fun r => defer_ cleanup (k r))
  end.

(** A pure Go call inside a handler: its panic is the handler's. *)
Definition lift {A} (o : outcome A) : Prog A :=
  match o with
  | Returned a => Ret a
  | Panicked msg => Panic msg
  end.

Declare Scope prog_scope.
Delimit Scope prog_scope with prog.
Notation "x <- c ;; k" := (bind c (fun x => k))
  (at level 100, c at next level, right associativity) : prog_scope.

(** The calls of a run, in order, each with the answer it got. *)
Inductive Event : Type :=
| EvLock (name resourceType : string)
| EvUnlock (name resourceType : string)
| EvLockDetails (l : lockingDetails)
| EvUnlockDetails (l : lockingDetails)
| EvGet (resourceGroup name : string) (answer : GetResponse)
| EvCreateOrUpdate (resourceGroup name : string) (parameters : InterfaceW)
    (answer : option error)
| EvDelete (resourceGroup name : string) (answer : option error)
| EvWait (answer : option error)
| EvSetId (id : string)
| EvSet (key : string) (value : TfValue) (answer : option error).

(** The world outside a handler: what each call answers, given the calls
    made so far. An arbitrary [World] is an arbitrary service, network and
    schema. *)
Record World : Type := {
  onGet : list Event -> string -> string -> GetResponse;
  onCreateOrUpdate : list Event -> string -> string -> InterfaceW -> option error;
  onDelete : list Event -> string -> string -> option error;
  onWait : list Event -> option error;
  onSet : list Event -> string -> TfValue -> option error
}.

(** One run of a program: the calls made after [past], and how it ends. *)
Fixpoint exec {A} (w : World) (past : list Event) (p : Prog A) : list Event * outcome A :=
  match p with
  | Ret a => (past, Returned a)
  | Panic msg => (past, Panicked msg)
  | LocksByName n t k => exec w (past ++ [EvLock n t]) k
  | LocksUnlockByName n t k => exec w (past ++ [EvUnlock n t]) k
  | LockingDetailsLock l k => exec w (past ++ [EvLockDetails l]) k
  | LockingDetailsUnlock l k => exec w (past ++ [EvUnlockDetails l]) k
  | ClientGet rg n k =>
      let r := onGet w past rg n in exec w (past ++ [EvGet rg n r]) (k r)
  | ClientCreateOrUpdate rg n b k =>
      let r := onCreateOrUpdate w past rg n b in
      exec w (past ++ [EvCreateOrUpdate rg n b r]) (k r)
  | ClientDelete rg n k =>
      let r := onDelete w past rg n in exec w (past ++ [EvDelete rg n r]) (k r)
  | FutureWaitForCompletionRef k =>
      let r := onWait w past in exec w (past ++ [EvWait r]) (k r)
  | DSetId id k => exec w (past ++ [EvSetId id]) k
  | DSet key v k =>
      let r := onSet w past key v in exec w (past ++ [EvSet key v r]) (k r)
  end.

Definition run {A} (w : World) (p : Prog A) : list Event * outcome A := exec w [] p.

(** ** The Go heap under a decoded interface

    [client.Get] hands the handler the object graph that the SDK decodes from
    the response: every pointer field is an object of its own. The
    association handlers copy an IP configuration out of the slice
    ([config := *c]) and then write through the properties pointer that the
    copy shares with the slice element, so the properties objects live in a
    heap and an IP configuration holds an address. The other pointer the
    handlers write through, [props := read.InterfacePropertiesFormat], has
    [read] as its only holder: that write is a field update of [read]. *)

Abbreviation addr := nat (only parsing).
Abbreviation Heap := (list InterfaceIPConfigurationPropertiesFormat).
Abbreviation IPConfigM := (InterfaceIPConfiguration addr).
Abbreviation PropertiesM := (InterfacePropertiesFormat addr).
Abbreviation InterfaceM := (Interface addr).

Definition with_Properties {P Q} (c : InterfaceIPConfiguration P) (q : option Q)
  : InterfaceIPConfiguration Q :=
  {| ipc_Properties := q; ipc_Name := ipc_Name c; ipc_Etag := ipc_Etag c; ipc_ID := ipc_ID c |}.

Definition with_IPConfigurations {P Q} (props : InterfacePropertiesFormat P)
    (l : option (list (InterfaceIPConfiguration Q))) : InterfacePropertiesFormat Q :=
  {| VirtualMachine := VirtualMachine props;
     NetworkSecurityGroup := NetworkSecurityGroup props;
     IPConfigurations := l;
     DNSSettings := DNSSettings props;
     MacAddress := MacAddress props;
     EnableIPForwarding := EnableIPForwarding props;
     nic_ProvisioningState := nic_ProvisioningState props |}.

Definition with_InterfacePropertiesFormat {P Q} (i : Interface P)
    (props : option (InterfacePropertiesFormat Q)) : Interface Q :=
  {| nic_Properties := props; nic_Etag := nic_Etag i; nic_ID := nic_ID i;
     nic_Name := nic_Name i; nic_Type := nic_Type i; nic_Location := nic_Location i;
     nic_Tags := nic_Tags i |}.

Definition with_LoadBalancerBackendAddressPools
    (p : InterfaceIPConfigurationPropertiesFormat) (pools : option (list BackendAddressPool))
  : InterfaceIPConfigurationPropertiesFormat :=
  {| LoadBalancerBackendAddressPools := pools;
     LoadBalancerInboundNatRules := LoadBalancerInboundNatRules p;
     PrivateIPAddress := PrivateIPAddress p;
     PrivateIPAllocationMethod := PrivateIPAllocationMethod p;
     PrivateIPAddressVersion := PrivateIPAddressVersion p;
     ipc_Subnet := ipc_Subnet p;
     Primary := Primary p;
     ipc_PublicIPAddress := ipc_PublicIPAddress p;
     ipc_ProvisioningState := ipc_ProvisioningState p |}.

(** Decoding allocates: the properties of each IP configuration that has
    them go to the next free address. *)
Fixpoint decode_IPConfigurations (heap : Heap) (l : list IPConfigW) : Heap * list IPConfigM :=
  match l with
  | [] => (heap, [])
  | c :: r =>
      match ipc_Properties c with
      | None =>
          let '(heap', r') := decode_IPConfigurations heap r in
          (heap', with_Properties c None :: r')
      | Some p =>
          let '(heap', r') := decode_IPConfigurations (heap ++ [p]) r in
          (heap', with_Properties c (Some (length heap)) :: r')
      end
  end.

Definition decode_Interface (w : InterfaceW) : Heap * InterfaceM :=
  match nic_Properties w with
  | None => ([], with_InterfacePropertiesFormat w None)
  | Some props =>
      match IPConfigurations props with
      | None => ([], with_InterfacePropertiesFormat w (Some (with_IPConfigurations props None)))
      | Some l =>
          let '(heap, l') := decode_IPConfigurations [] l in
          (heap, with_InterfacePropertiesFormat w (Some (with_IPConfigurations props (Some l'))))
      end
  end.

(** Encoding follows the pointers. *)
Definition encode_IPConfiguration (heap : Heap) (c : IPConfigM) : IPConfigW :=
  with_Properties c (match ipc_Properties c with Some a => heap !! a | None => None end).

Definition encode_Interface (heap : Heap) (i : InterfaceM) : InterfaceW :=
  with_InterfacePropertiesFormat i
    (match nic_Properties i with
     | None => None
     | Some props =>
         Some (with_IPConfigurations props
                 (match IPConfigurations props with
                  | None => None
                  | Some l => Some (map (encode_IPConfiguration heap) l)
                  end))
     end).

(** [*p] and [*p = v]. *)
Definition load (heap : Heap) (p : addr) : outcome InterfaceIPConfigurationPropertiesFormat :=
  match heap !! p with
  | Some v => Returned v
  | None => Panicked "invalid memory address or nil pointer dereference"
  end.

Definition store (heap : Heap) (p : addr) (v : InterfaceIPConfigurationPropertiesFormat) : Heap :=
  <[p := v]> heap.

(** ** The two helpers of the network package that the association handlers call *)

Definition has_name {P} (name : string) (v : InterfaceIPConfiguration P) : bool :=
  match ipc_Name v with
  | Some n => String.eqb n name
  | None => false
  end.

(** Modelled from the spec: [FindNetworkInterfaceIPConfiguration] is declared
    in a file of the network package that is not among the sources. It
    answers the IP configuration of the list that has the requested name,
    [nil] when there is none; of several with that name, the first. *)
Definition FindNetworkInterfaceIPConfiguration {P}
    (input : option (list (InterfaceIPConfiguration P))) (name : string)
  : option (InterfaceIPConfiguration P) :=
  match input with
  | None => None
  | Some l => List.find (has_name name) l
  end.

(** Modelled from the spec: [updateNetworkInterfaceIPConfiguration] is
    declared in a file of the network package that is not among the sources.
    It answers the list with [config] in the place of the IP configuration
    of its name, and every other IP configuration as it was. *)
Definition updateNetworkInterfaceIPConfiguration {P}
    (config : InterfaceIPConfiguration P) (configs : option (list (InterfaceIPConfiguration P)))
  : option (list (InterfaceIPConfiguration P)) :=
  match configs with
  | None => None
  | Some l =>
      Some (map (fun v =>
                   match ipc_Name config with
                   | Some n => if has_name n v then config else v
                   | None => v
                   end) l)
  end.

(** [s[i]] on a slice. *)
Definition index (s : list string) (i : nat) : outcome string :=
  match s !! i with
  | Some x => Returned x
  | None => Panicked "index out of range"
  end.

(** ** loadbalancer_backend_address_pool_association_resource.go *)

(** What the association handlers read from [d]: [d.Id()] and the three
    fields of the schema. *)
Record AssociationData : Type := {
  assoc_Id : string;
  network_interface_id : string;
  ip_configuration_name : string;
  backend_address_pool_id : string
}.

(** [d] after [d.SetId(id)]. *)
Definition assoc_SetId (d : AssociationData) (id : string) : AssociationData :=
  {| assoc_Id := id;
     network_interface_id := network_interface_id d;
     ip_configuration_name := ip_configuration_name d;
     backend_address_pool_id := backend_address_pool_id d |}.

(** [meta], as far as the handlers look into it beyond the client. *)
Record Meta : Type := { SubscriptionId : string }.

(** The loop of [loadBalancerBackendAddressPoolAssociationCreateUpdate] over
    [*p.LoadBalancerBackendAddressPools]; [pools] is the slice built so far,
    [Err] the [return] inside the loop. *)
Fixpoint existingPools_loop (existing : list BackendAddressPool)
    (backendAddressPoolId resourceId : string) (pools : list BackendAddressPool)
  : result (list BackendAddressPool) :=
  match existing with
  | [] => Ok pools
  | existingPool :: rest =>
      match bap_ID existingPool with
      | Some id =>
          if String.eqb id backendAddressPoolId
          then Err (ImportAsExistsError
                      "azurerm_network_interface_backend_address_pool_association" resourceId)
          else existingPools_loop rest backendAddressPoolId resourceId (pools ++ [existingPool])
      | None => existingPools_loop rest backendAddressPoolId resourceId pools
      end
  end.

(** The loop of [loadBalancerBackendAddressPoolAssociationRead], with its
    [continue] and [break]. *)
Fixpoint found_loop (backendPools : list BackendAddressPool) (backendAddressPoolId : string)
  : bool :=
  match backendPools with
  | [] => false
  | pool :: rest =>
      match bap_ID pool with
      | None => found_loop rest backendAddressPoolId
      | Some id =>
          if String.eqb id backendAddressPoolId then true
          else found_loop rest backendAddressPoolId
      end
  end.

(** The loop of [loadBalancerBackendAddressPoolAssociationDelete]. *)
Fixpoint removePool_loop (backendPools : list BackendAddressPool)
    (backendAddressPoolId : string) (backendAddressPools : list BackendAddressPool)
  : list BackendAddressPool :=
  match backendPools with
  | [] => backendAddressPools
  | pool :: rest =>
      match bap_ID pool with
      | None => removePool_loop rest backendAddressPoolId backendAddressPools
      | Some id =>
          if negb (String.eqb id backendAddressPoolId)
          then removePool_loop rest backendAddressPoolId (backendAddressPools ++ [pool])
          else removePool_loop rest backendAddressPoolId backendAddressPools
      end
  end.

Definition pointer_FromString (s : string) : option string := Some s.
Definition pointer_FromBool (b : bool) : option bool := Some b.

(** [d.Set] of a [*string]. *)
Definition VStringPtr (s : option string) : TfValue :=
  match s with
  | Some v => VString v
  | None => VNil
  end.

Definition expected_id_format : string :=
  "Expected ID to be in the format {networkInterfaceId}/ipConfigurations/{ipConfigurationName}|{backendAddressPoolId} but got %q".

Section Handlers.
Context {D : Deps}.

(** The function given to [pluginsdk.ImporterValidatingResourceId]. *)
Definition loadBalancerBackendAddressPoolAssociation_Importer (id : string)
  : outcome (option error) :=
  (let splitId := Split id pipe in
   let! s0 := index splitId 0 in
   match parse_NetworkInterfaceIpConfigurationID s0 with
   | Err err => Returned (Some err)
   | Ok _ =>
       let! s1 := index splitId 1 in
       match lbparse_LoadBalancerBackendAddressPoolID s1 with
       | Some err => Returned (Some err)
       | None => Returned None
       end
   end)%outcome.

Definition loadBalancerBackendAddressPoolAssociationRead (d : AssociationData) (meta : Meta)
  : Prog (option error) :=
  let splitId := Split (assoc_Id d) pipe in
  if negb (Nat.eqb (length splitId) 2) then Ret (Some (Errorf expected_id_format))
  else
    (s0 <- lift (index splitId 0) ;;
     match parse_NetworkInterfaceIpConfigurationID s0 with
     | Err err => Ret (Some err)
     | Ok nicID =>
         backendAddressPoolId <- lift (index splitId 1) ;;
         ClientGet (ipcid_ResourceGroup nicID) (ipcid_NetworkInterfaceName nicID) (fun resp =>
         match resp with
         | GetNotFound _ => DSetId "" (Ret None)
         | GetFailed _ =>
             Ret (Some (Errorf "retrieving Network Interface %q (Resource Group %q): %+v"))
         | GetOk read =>
             match nic_Properties read with
             | None => Ret (Some (Errorf
                 "Error: `properties` was nil for Network Interface %q (Resource Group %q)"))
             | Some nicProps =>
                 match IPConfigurations nicProps with
                 | None => Ret (Some (Errorf
                     "Error: `properties.IPConfigurations` was nil for Network Interface %q (Resource Group %q)"))
                 | Some _ =>
                     match FindNetworkInterfaceIPConfiguration (IPConfigurations nicProps)
                             (ipcid_IpConfigurationName nicID) with
                     | None => DSetId "" (Ret None)
                     | Some config =>
                         let found :=
                           match ipc_Properties config with
                           | Some props =>
                               match LoadBalancerBackendAddressPools props with
                               | Some backendPools => found_loop backendPools backendAddressPoolId
                               | None => false
                               end
                           | None => false
                           end in
                         if negb found then DSetId "" (Ret None)
                         else
                           DSet "backend_address_pool_id" (VString backendAddressPoolId) (fun _ =>
                           DSet "ip_configuration_name"
                             (VString (ipcid_IpConfigurationName nicID)) (fun _ =>
                           DSet "network_interface_id" (VStringPtr (nic_ID read)) (fun _ =>
                           Ret None)))
                     end
                 end
             end
         end)
     end)%prog.

Definition loadBalancerBackendAddressPoolAssociationCreateUpdate (d : AssociationData)
    (meta : Meta) : Prog (option error) :=
  let networkInterfaceId := network_interface_id d in
  let ipConfigurationName := ip_configuration_name d in
  let backendAddressPoolId := backend_address_pool_id d in
  match parse_NetworkInterfaceID networkInterfaceId with
  | Err err => Ret (Some err)
  | Ok id =>
    LocksByName (nicid_Name id) networkInterfaceResourceName (
    defer_ (LocksUnlockByName (nicid_Name id) networkInterfaceResourceName (Ret tt)) (
    ClientGet (nicid_ResourceGroup id) (nicid_Name id) (fun resp =>
    match resp with
    | GetNotFound _ => Ret (Some (Errorf "%s was not found!"))
    | GetFailed _ => Ret (Some (Errorf "retrieving %s: %+v"))
    | GetOk body =>
      let '(heap, read) := decode_Interface body in
      match nic_Properties read with
      | None => Ret (Some (Errorf "Error: `properties` was nil for %s"))
      | Some props =>
        match IPConfigurations props with
        | None => Ret (Some (Errorf "Error: `properties.IPConfigurations` was nil for %s"))
        | Some _ =>
          match FindNetworkInterfaceIPConfiguration (IPConfigurations props)
                  ipConfigurationName with
          | None => Ret (Some (Errorf "Error: IP Configuration %q was not found on %s"))
          | Some config =>
            match ipc_Properties config with
            | None => Ret (Some (Errorf "Error: `IPConfiguration.properties` was nil for %s"))
            | Some p =>
              (p_val <- lift (load heap p) ;;
               let resourceId :=
                 (networkInterfaceId ++ "/ipConfigurations/" ++ ipConfigurationName
                    ++ "|" ++ backendAddressPoolId)%string in
               match
                 match LoadBalancerBackendAddressPools p_val with
                 | Some existing =>
                     existingPools_loop existing backendAddressPoolId resourceId []
                 | None => Ok []
                 end
               with
               | Err err => Ret (Some err)
               | Ok pools =>
                 let pool :=
                   {| bap_ID := pointer_FromString backendAddressPoolId;
                      bap_Name := None; bap_Etag := None |} in
                 let pools := pools ++ [pool] in
                 let heap :=
                   store heap p (with_LoadBalancerBackendAddressPools p_val (Some pools)) in
                 let props :=
                   with_IPConfigurations props
                     (updateNetworkInterfaceIPConfiguration config (IPConfigurations props)) in
                 let read := with_InterfacePropertiesFormat read (Some props) in
                 ClientCreateOrUpdate (nicid_ResourceGroup id) (nicid_Name id)
                   (encode_Interface heap read) (fun err =>
                 match err with
                 | Some _ => Ret (Some (Errorf
                     "updating Backend Address Pool Association for %s: %+v"))
                 | None =>
                   FutureWaitForCompletionRef (fun err =>
                   match err with
                   | Some _ => Ret (Some (Errorf
                       "waiting for completion of Backend Address Pool Association for %s: %+v"))
                   | None =>
                     DSetId resourceId
                       (loadBalancerBackendAddressPoolAssociationRead
                          (assoc_SetId d resourceId) meta)
                   end)
                 end)
               end)%prog
            end
          end
        end
      end
    end)))
  end.

Definition loadBalancerBackendAddressPoolAssociationDelete (d : AssociationData) (meta : Meta)
  : Prog (option error) :=
  let splitId := Split (assoc_Id d) pipe in
  if negb (Nat.eqb (length splitId) 2) then Ret (Some (Errorf expected_id_format))
  else
    (s0 <- lift (index splitId 0) ;;
     match parse_NetworkInterfaceIpConfigurationID s0 with
     | Err err => Ret (Some err)
     | Ok nicID =>
       backendAddressPoolId <- lift (index splitId 1) ;;
       LocksByName (ipcid_NetworkInterfaceName nicID) networkInterfaceResourceName (
       defer_ (LocksUnlockByName (ipcid_NetworkInterfaceName nicID)
                 networkInterfaceResourceName (Ret tt)) (
       ClientGet (ipcid_ResourceGroup nicID) (ipcid_NetworkInterfaceName nicID) (fun resp =>
       match resp with
       | GetNotFound _ =>
           Ret (Some (Errorf "Network Interface %q (Resource Group %q) was not found!"))
       | GetFailed _ =>
           Ret (Some (Errorf "retrieving Network Interface %q (Resource Group %q): %+v"))
       | GetOk body =>
         let '(heap, read) := decode_Interface body in
         match nic_Properties read with
         | None => Ret (Some (Errorf
             "Error: `properties` was nil for Network Interface %q (Resource Group %q)"))
         | Some nicProps =>
           match IPConfigurations nicProps with
           | None => Ret (Some (Errorf
               "Error: `properties.IPConfigurations` was nil for Network Interface %q (Resource Group %q)"))
           | Some _ =>
             match FindNetworkInterfaceIPConfiguration (IPConfigurations nicProps)
                     (ipcid_IpConfigurationName nicID) with
             | None => Ret (Some (Errorf
                 "Error: IP Configuration %q was not found on Network Interface %q (Resource Group %q)"))
             | Some config =>
               match ipc_Properties config with
               | None => Ret (Some (Errorf
                   "Error: Properties for IPConfiguration %q was nil for Network Interface %q (Resource Group %q)"))
               | Some props =>
                 props_val <- lift (load heap props) ;;
                 let backendAddressPools :=
                   match LoadBalancerBackendAddressPools props_val with
                   | Some backendPools => removePool_loop backendPools backendAddressPoolId []
                   | None => []
                   end in
                 let heap :=
                   store heap props
                     (with_LoadBalancerBackendAddressPools props_val (Some backendAddressPools)) in
                 let nicProps :=
                   with_IPConfigurations nicProps
                     (updateNetworkInterfaceIPConfiguration config (IPConfigurations nicProps)) in
                 let read := with_InterfacePropertiesFormat read (Some nicProps) in
                 ClientCreateOrUpdate (ipcid_ResourceGroup nicID) (ipcid_NetworkInterfaceName nicID)
                   (encode_Interface heap read) (fun err =>
                 match err with
                 | Some _ => Ret (Some (Errorf
                     "removing Backend Address Pool Association for Network Interface %q (Resource Group %q): %+v"))
                 | None =>
                   FutureWaitForCompletionRef (fun err =>
                   match err with
                   | Some _ => Ret (Some (Errorf
                       "waiting for removal of Backend Address Pool Association for NIC %q (Resource Group %q): %+v"))
                   | None => Ret None
                   end)
                 end)
               end
             end
           end
         end
       end)))
     end)%prog.

(** ** network_interface_resource.go: the handlers *)

(** What the handlers of the network interface read from [d]: [d.Id()],
    [d.IsNewResource()], [d.HasChange], and the values of [d.Get], typed as
    the schema makes them; [dns_servers_ok] is the second result of
    [d.GetOk("dns_servers")]. *)
Record NetworkInterfaceData : Type := {
  d_Id : string;
  d_IsNewResource : bool;
  d_HasChange : string -> bool;
  d_name : string;
  d_resource_group_name : string;
  d_location : string;
  d_enable_ip_forwarding : bool;
  d_tags : TfValue;
  d_dns_servers : list TfValue;
  d_dns_servers_ok : bool;
  d_ip_configuration : list TfValue
}.

(** [d] after [d.SetId(id)]. *)
Definition d_SetId (d : NetworkInterfaceData) (id : string) : NetworkInterfaceData :=
  {| d_Id := id;
     d_IsNewResource := d_IsNewResource d;
     d_HasChange := d_HasChange d;
     d_name := d_name d;
     d_resource_group_name := d_resource_group_name d;
     d_location := d_location d;
     d_enable_ip_forwarding := d_enable_ip_forwarding d;
     d_tags := d_tags d;
     d_dns_servers := d_dns_servers d;
     d_dns_servers_ok := d_dns_servers_ok d;
     d_ip_configuration := d_ip_configuration d |}.

(** One turn of the loop of [flattenNetworkInterfaceIPConfigurations]:
    [props] is dereferenced without a nil check. *)
Definition flattenNetworkInterfaceIPConfiguration (ipConfig : IPConfigW) : outcome TfValue :=
  match ipc_Properties ipConfig with
  | None => Panicked "invalid memory address or nil pointer dereference"
  | Some props =>
      let name := match ipc_Name ipConfig with Some n => n | None => "" end in
      let subnetId :=
        match ipc_Subnet props with
        | Some s => match subnet_ID s with Some i => i | None => "" end
        | None => ""
        end in
      let privateIPAddress :=
        match PrivateIPAddress props with Some a => a | None => "" end in
      let privateIPAddressVersion :=
        if negb (String.eqb (PrivateIPAddressVersion props) "")
        then PrivateIPAddressVersion props else "" in
      let publicIPAddressId :=
        match ipc_PublicIPAddress props with
        | Some a => match pip_ID a with Some i => i | None => "" end
        | None => ""
        end in
      let primary := match Primary props with Some b => b | None => false end in
      Returned (VMap
        [ ("name", VString name);
          ("primary", VBool primary);
          ("private_ip_address", VString privateIPAddress);
          ("private_ip_address_allocation", VString (PrivateIPAllocationMethod props));
          ("private_ip_address_version", VString privateIPAddressVersion);
          ("public_ip_address_id", VString publicIPAddressId);
          ("subnet_id", VString subnetId) ])
  end.

Fixpoint flatten_loop (input : list IPConfigW) (result : list TfValue)
  : outcome (list TfValue) :=
  match input with
  | [] => Returned result
  | ipConfig :: rest =>
      (let! m := flattenNetworkInterfaceIPConfiguration ipConfig in
       flatten_loop rest (result ++ [m]))%outcome
  end.

Definition flattenNetworkInterfaceIPConfigurations (input : option (list IPConfigW))
  : outcome (list TfValue) :=
  match input with
  | None => Returned []
  | Some l => flatten_loop l []
  end.

(** The loop of [networkInterfaceRead] over [*props.IPConfigurations]; [i] is
    the index of the head of [configs]. *)
Fixpoint privateIPAddresses_loop (configs : list IPConfigW) (i : nat)
    (primaryPrivateIPAddress : string) (privateIPAddresses : list TfValue)
  : string * list TfValue :=
  match configs with
  | [] => (primaryPrivateIPAddress, privateIPAddresses)
  | config :: rest =>
      match ipc_Properties config with
      | Some ipProps =>
          match PrivateIPAddress ipProps with
          | None => privateIPAddresses_loop rest (S i) primaryPrivateIPAddress privateIPAddresses
          | Some v =>
              privateIPAddresses_loop rest (S i)
                (if Nat.eqb i 0 then v else primaryPrivateIPAddress)
                (privateIPAddresses ++ [VString v])
          end
      | None => privateIPAddresses_loop rest (S i) primaryPrivateIPAddress privateIPAddresses
      end
  end.

Definition VStrings (l : list string) : TfValue := VList (map VString l).

Definition VBoolPtr (b : option bool) : TfValue :=
  match b with
  | Some v => VBool v
  | None => VNil
  end.

(** [tags.FlattenAndSet(d, resp.Tags)], which the sources do not hold, is
    the [d.Set] of the flattened tags; its error is the handler's. *)
Definition networkInterfaceRead (d : NetworkInterfaceData) (meta : Meta)
  : Prog (option error) :=
  match parse_NetworkInterfaceID (d_Id d) with
  | Err err => Ret (Some err)
  | Ok id =>
    ClientGet (nicid_ResourceGroup id) (nicid_Name id) (fun r =>
    match r with
    | GetNotFound _ => DSetId "" (Ret None)
    | GetFailed _ => Ret (Some (Errorf "retrieving %s: %+v"))
    | GetOk resp =>
      DSet "name" (VString (nicid_Name id)) (fun _ =>
      DSet "resource_group_name" (VString (nicid_ResourceGroup id)) (fun _ =>
      DSet "location" (VString (location_NormalizeNilable (nic_Location resp))) (fun _ =>
      (early <-
         match nic_Properties resp with
         | None => Ret None
         | Some props =>
           let '(primaryPrivateIPAddress, privateIPAddresses) :=
             match IPConfigurations props with
             | Some configs => privateIPAddresses_loop configs 0 "" []
             | None => ("", [])
             end in
           let appliedDNSServers :=
             match DNSSettings props with
             | Some dnsSettings => flattenNetworkInterfaceDnsServers (AppliedDNSServers dnsSettings)
             | None => []
             end in
           let dnsServers :=
             match DNSSettings props with
             | Some dnsSettings => flattenNetworkInterfaceDnsServers (DNSServers dnsSettings)
             | None => []
             end in
           let internalDomainNameSuffix :=
             match DNSSettings props with
             | Some dnsSettings =>
                 match InternalDomainNameSuffix dnsSettings with Some s => s | None => "" end
             | None => ""
             end in
           let virtualMachineId :=
             match VirtualMachine props with
             | Some vm => match sub_ID vm with Some i => i | None => "" end
             | None => ""
             end in
           DSet "applied_dns_servers" (VStrings appliedDNSServers) (fun err =>
           match err with
           | Some _ => Ret (Some (Errorf "setting `applied_dns_servers`: %+v"))
           | None =>
             DSet "dns_servers" (VStrings dnsServers) (fun err =>
             match err with
             | Some _ => Ret (Some (Errorf "setting `applied_dns_servers`: %+v"))
             | None =>
               DSet "enable_ip_forwarding" (VBoolPtr (EnableIPForwarding props)) (fun _ =>
               DSet "internal_domain_name_suffix" (VString internalDomainNameSuffix) (fun _ =>
               DSet "mac_address" (VStringPtr (MacAddress props)) (fun _ =>
               DSet "private_ip_address" (VString primaryPrivateIPAddress) (fun _ =>
               DSet "virtual_machine_id" (VString virtualMachineId) (fun _ =>
               flat <- lift (flattenNetworkInterfaceIPConfigurations (IPConfigurations props)) ;;
               DSet "ip_configuration" (VList flat) (fun err =>
               match err with
               | Some _ => Ret (Some (Errorf "setting `ip_configuration`: %+v"))
               | None =>
                 DSet "private_ip_addresses" (VList privateIPAddresses) (fun err =>
                 match err with
                 | Some _ => Ret (Some (Errorf "setting `private_ip_addresses`: %+v"))
                 | None => Ret None
                 end)
               end))))))
             end)
           end)
         end ;;
       match early with
       | Some err => Ret (Some err)
       | None => DSet "tags" (tags_Flatten (nic_Tags resp)) (fun err => Ret err)
       end)%prog)))
    end)
  end.

Definition networkInterfaceCreate (d : NetworkInterfaceData) (meta : Meta)
  : Prog (option error) :=
  let subscriptionId := SubscriptionId meta in
  let id := parse_NewNetworkInterfaceID subscriptionId (d_resource_group_name d) (d_name d) in
  (early <-
     (if d_IsNewResource d then
        ClientGet (nicid_ResourceGroup id) (nicid_Name id) (fun existing =>
        match existing with
        | GetFailed _ => Ret (Some (Errorf "checking for presence of existing %s: %+v"))
        | GetNotFound _ => Ret None
        | GetOk _ =>
            Ret (Some (ImportAsExistsError "azurestack_network_interface"
                         (NetworkInterfaceId_ID id)))
        end)
      else Ret None) ;;
   match early with
   | Some err => Ret (Some err)
   | None =>
     let location := location_Normalize (d_location d) in
     let enableIpForwarding := d_enable_ip_forwarding d in
     let t := d_tags d in
     LocksByName (nicid_Name id) networkInterfaceResourceName (
     defer_ (LocksUnlockByName (nicid_Name id) networkInterfaceResourceName (Ret tt)) (
     dnsSettings <-
       (if d_dns_servers_ok d then
          dns <- lift (expandNetworkInterfaceDnsServers (d_dns_servers d)) ;;
          Ret (Some {| DNSServers := Some dns; AppliedDNSServers := None;
                       InternalDNSNameLabel := None; InternalDomainNameSuffix := None |})
        else Ret None) ;;
     r <- lift (expandNetworkInterfaceIPConfigurations (d_ip_configuration d)) ;;
     match r with
     | Err _ => Ret (Some (Errorf "expanding `ip_configuration`: %+v"))
     | Ok ipConfigs =>
       match determineResourcesToLockFromIPConfiguration (Some ipConfigs) with
       | Err _ => Ret (Some (Errorf "determining locking details: %+v"))
       | Ok lockingDetails =>
         LockingDetailsLock lockingDetails (
         defer_ (LockingDetailsUnlock lockingDetails (Ret tt)) (
         let properties : PropertiesW :=
           {| VirtualMachine := None;
              NetworkSecurityGroup := None;
              IPConfigurations :=
                if Nat.ltb 0 (length ipConfigs) then Some ipConfigs else None;
              DNSSettings := dnsSettings;
              MacAddress := None;
              EnableIPForwarding := Some enableIpForwarding;
              nic_ProvisioningState := None |} in
         let iface : InterfaceW :=
           {| nic_Properties := Some properties;
              nic_Etag := None;
              nic_ID := None;
              nic_Name := pointer_FromString (nicid_Name id);
              nic_Type := None;
              nic_Location := pointer_FromString location;
              nic_Tags := tags_Expand t |} in
         ClientCreateOrUpdate (nicid_ResourceGroup id) (nicid_Name id) iface (fun err =>
         match err with
         | Some _ => Ret (Some (Errorf "creating %s: %+v"))
         | None =>
           FutureWaitForCompletionRef (fun err =>
           match err with
           | Some _ => Ret (Some (Errorf "waiting for creation of %s: %+v"))
           | None =>
             DSetId (NetworkInterfaceId_ID id)
               (networkInterfaceRead (d_SetId d (NetworkInterfaceId_ID id)) meta)
           end)
         end)))
       end
     end))
   end)%prog.

Definition networkInterfaceUpdate (d : NetworkInterfaceData) (meta : Meta)
  : Prog (option error) :=
  match parse_NetworkInterfaceID (d_Id d) with
  | Err err => Ret (Some err)
  | Ok id =>
    LocksByName (nicid_Name id) networkInterfaceResourceName (
    defer_ (LocksUnlockByName (nicid_Name id) networkInterfaceResourceName (Ret tt)) (
    ClientGet (nicid_ResourceGroup id) (nicid_Name id) (fun r =>
    match r with
    | GetNotFound _ | GetFailed _ => Ret (Some (Errorf "retrieving %s: %+v"))
    | GetOk existing =>
      match nic_Properties existing with
      | None => Ret (Some (Errorf "retrieving %s: `properties` was nil"))
      | Some existingProps =>
        let info := parseFieldsFromNetworkInterface existingProps in
        let location := location_Normalize (d_location d) in
        (dnsServers <-
           (if d_HasChange d "dns_servers" then
              dnsServers <- lift (expandNetworkInterfaceDnsServers (d_dns_servers d)) ;;
              Ret (Some dnsServers)
            else
              match DNSSettings existingProps with
              | Some dnsSettings => Ret (DNSServers dnsSettings)
              | None => Panic "invalid memory address or nil pointer dereference"
              end) ;;
         let enableIPForwarding :=
           if d_HasChange d "enable_ip_forwarding"
           then pointer_FromBool (d_enable_ip_forwarding d)
           else EnableIPForwarding existingProps in
         (* the statements after the [if d.HasChange("ip_configuration")] *)
         let rest (ipConfigurations : option (list IPConfigW)) : Prog (option error) :=
           let tags :=
             if d_HasChange d "tags" then tags_Expand (d_tags d) else nic_Tags existing in
           let update : InterfaceW :=
             {| nic_Properties := Some
                  {| VirtualMachine := None;
                     NetworkSecurityGroup := NetworkSecurityGroup existingProps;
                     IPConfigurations := ipConfigurations;
                     DNSSettings := Some
                       {| DNSServers := dnsServers; AppliedDNSServers := None;
                          InternalDNSNameLabel := None; InternalDomainNameSuffix := None |};
                     MacAddress := None;
                     EnableIPForwarding := enableIPForwarding;
                     nic_ProvisioningState := None |};
                nic_Etag := None;
                nic_ID := None;
                nic_Name := pointer_FromString (nicid_Name id);
                nic_Type := None;
                nic_Location := pointer_FromString location;
                nic_Tags := tags |} in
           ClientCreateOrUpdate (nicid_ResourceGroup id) (nicid_Name id) update (fun err =>
           match err with
           | Some _ => Ret (Some (Errorf "updating %s: %+v"))
           | None =>
             FutureWaitForCompletionRef (fun err =>
             match err with
             | Some _ => Ret (Some (Errorf "waiting for update of %s: %+v"))
             | None => Ret None
             end)
           end) in
         if d_HasChange d "ip_configuration" then
           r <- lift (expandNetworkInterfaceIPConfigurations (d_ip_configuration d)) ;;
           match r with
           | Err _ => Ret (Some (Errorf "expanding `ip_configuration`: %+v"))
           | Ok ipConfigs =>
             match determineResourcesToLockFromIPConfiguration (Some ipConfigs) with
             | Err _ => Ret (Some (Errorf "determining locking details: %+v"))
             | Ok lockingDetails =>
               LockingDetailsLock lockingDetails (
               defer_ (LockingDetailsUnlock lockingDetails (Ret tt)) (
               rest (Some (mapFieldsToNetworkInterface ipConfigs info))))
             end
           end
         else rest (IPConfigurations existingProps))%prog
      end
    end)))
  end.

Definition networkInterfaceDelete (d : NetworkInterfaceData) (meta : Meta)
  : Prog (option error) :=
  match parse_NetworkInterfaceID (d_Id d) with
  | Err err => Ret (Some err)
  | Ok id =>
    LocksByName (nicid_Name id) networkInterfaceResourceName (
    defer_ (LocksUnlockByName (nicid_Name id) networkInterfaceResourceName (Ret tt)) (
    ClientGet (nicid_ResourceGroup id) (nicid_Name id) (fun r =>
    match r with
    | GetNotFound _ => DSetId "" (Ret None)
    | GetFailed _ => Ret (Some (Errorf "retrieving %s: %+v"))
    | GetOk existing =>
      match nic_Properties existing with
      | None => Ret (Some (Errorf "retrieving %s: `properties` was nil"))
      | Some props =>
        match determineResourcesToLockFromIPConfiguration (IPConfigurations props) with
        | Err _ => Ret (Some (Errorf "determining locking details: %+v"))
        | Ok lockingDetails =>
          LockingDetailsLock lockingDetails (
          defer_ (LockingDetailsUnlock lockingDetails (Ret tt)) (
          ClientDelete (nicid_ResourceGroup id) (nicid_Name id) (fun err =>
          match err with
          | Some _ => Ret (Some (Errorf "deleting %s: %+v"))
          | None =>
            FutureWaitForCompletionRef (fun err =>
            match err with
            | Some _ => Ret (Some (Errorf "waiting for deletion of %s: %+v"))
            | None => Ret None
            end)
          end)))
        end
      end
    end)))
  end.

(** ** The resource definitions *)

(** [pluginsdk.ResourceTimeout], in minutes. *)
Record ResourceTimeout : Type := {
  timeout_Create : option nat;
  timeout_Read : option nat;
  timeout_Update : option nat;
  timeout_Delete : option nat
}.

(** [pluginsdk.Resource]; [T] is what the handlers of the resource read from
    [d]. A handler that the definition does not set is [nil]. *)
Record Resource (T : Type) : Type := {
  Create : option (T -> Meta -> Prog (option error));
  Read : option (T -> Meta -> Prog (option error));
  Update : option (T -> Meta -> Prog (option error));
  Delete : option (T -> Meta -> Prog (option error));
  Importer : string -> outcome (option error);
  Timeouts : ResourceTimeout;
  Schema_ : list (string * Schema)
}.
Arguments Create {T} _.
Arguments Read {T} _.
Arguments Update {T} _.
Arguments Delete {T} _.
Arguments Importer {T} _.
Arguments Timeouts {T} _.
Arguments Schema_ {T} _.

Definition DefaultTimeout (minutes : nat) : option nat := Some minutes.

Definition loadBalancerBackendAddressPoolAssociation : Resource AssociationData :=
  {| Create := Some loadBalancerBackendAddressPoolAssociationCreateUpdate;
     Read := Some loadBalancerBackendAddressPoolAssociationRead;
     Update := None;
     Delete := Some loadBalancerBackendAddressPoolAssociationDelete;
     Importer := loadBalancerBackendAddressPoolAssociation_Importer;
     Timeouts :=
       {| timeout_Create := DefaultTimeout 30;
          timeout_Read := DefaultTimeout 5;
          timeout_Update := DefaultTimeout 30;
          timeout_Delete := DefaultTimeout 30 |};
     Schema_ :=
       [ ("network_interface_id", MkSchema TypeString true false false true None);
         ("ip_configuration_name", MkSchema TypeString true false false true None);
         ("backend_address_pool_id", MkSchema TypeString true false false true None) ] |}.

Definition networkInterface_Importer (id : string) : outcome (option error) :=
  match parse_NetworkInterfaceID id with
  | Err err => Returned (Some err)
  | Ok _ => Returned None
  end.

Definition networkInterface : Resource NetworkInterfaceData :=
  {| Create := Some networkInterfaceCreate;
     Read := Some networkInterfaceRead;
     Update := Some networkInterfaceUpdate;
     Delete := Some networkInterfaceDelete;
     Importer := networkInterface_Importer;
     Timeouts :=
       {| timeout_Create := DefaultTimeout 30;
          timeout_Read := DefaultTimeout 5;
          timeout_Update := DefaultTimeout 30;
          timeout_Delete := DefaultTimeout 30 |};
     Schema_ :=
       [ ("name", MkSchema TypeString true false false true None);
         ("location", commonschema_Location);
         ("resource_group_name", commonschema_ResourceGroupName);
         ("ip_configuration", MkSchema TypeList true false false false (Some (ElemResource
            [ ("name", MkSchema TypeString true false false false None);
              ("subnet_id", MkSchema TypeString false true false false None);
              ("private_ip_address", MkSchema TypeString false true true false None);
              ("private_ip_address_version", MkSchema TypeString false true false false None);
              ("private_ip_address_allocation", MkSchema TypeString true false false false None);
              ("public_ip_address_id", MkSchema TypeString false true false false None);
              ("primary", MkSchema TypeBool false true true false None) ])));
         ("dns_servers", MkSchema TypeList false true true false
            (Some (ElemSchema (MkSchema TypeString false false false false None))));
         ("enable_ip_forwarding", MkSchema TypeBool false true false false None);
         ("internal_domain_name_suffix", MkSchema TypeString false false true false None);
         ("tags", tags_Schema);
         ("applied_dns_servers", MkSchema TypeList false false true false
            (Some (ElemSchema (MkSchema TypeString false false false false None))));
         ("mac_address", MkSchema TypeString false false true false None);
         ("private_ip_address", MkSchema TypeString false false true false None);
         ("private_ip_addresses", MkSchema TypeList false false true false
            (Some (ElemSchema (MkSchema TypeString false false false false None))));
         ("virtual_machine_id", MkSchema TypeString false false true false None) ] |}.

End Handlers.

Arguments Create {T} _.
Arguments Read {T} _.
Arguments Update {T} _.
Arguments Delete {T} _.
Arguments Importer {T} _.
Arguments Timeouts {T} _.
Arguments Schema_ {T} _.

(** ** An instance of what the sources do not hold, for the examples *)

Definition slash : ascii := "/"%char.

Definition nonempty (s : string) : bool := negb (String.eqb s "").

(** Modelled from the spec: the parsers of package [parse] are not among the
    sources. [{networkInterfaceId}/ipConfigurations/{ipConfigurationName}] is
    the format that the handlers' own message gives for the first half of an
    association ID; the ID of a network interface has the segments of a
    resource ID of the service. *)
Definition sample_NetworkInterfaceID (s : string) : result NetworkInterfaceId :=
  match Split s slash with
  | [ ""; "subscriptions"; sub; "resourceGroups"; rg; "providers"; "Microsoft.Network";
      "networkInterfaces"; name ] =>
      if nonempty sub && nonempty rg && nonempty name
      then Ok {| nicid_SubscriptionId := sub; nicid_ResourceGroup := rg; nicid_Name := name |}
      else Err (Errorf "parsing %q as a NetworkInterface ID")
  | _ => Err (Errorf "parsing %q as a NetworkInterface ID")
  end.

(** Modelled from the spec: see [sample_NetworkInterfaceID]. *)
Definition sample_NetworkInterfaceIpConfigurationID (s : string)
  : result NetworkInterfaceIpConfigurationId :=
  match Split s slash with
  | [ ""; "subscriptions"; sub; "resourceGroups"; rg; "providers"; "Microsoft.Network";
      "networkInterfaces"; nic; "ipConfigurations"; name ] =>
      if nonempty sub && nonempty rg && nonempty nic && nonempty name
      then Ok {| ipcid_SubscriptionId := sub; ipcid_ResourceGroup := rg;
                 ipcid_NetworkInterfaceName := nic; ipcid_IpConfigurationName := name |}
      else Err (Errorf "parsing %q as a NetworkInterfaceIpConfiguration ID")
  | _ => Err (Errorf "parsing %q as a NetworkInterfaceIpConfiguration ID")
  end.

(** Modelled from the spec: see [sample_NetworkInterfaceID]. *)
Definition sample_LoadBalancerBackendAddressPoolID (s : string) : option error :=
  match Split s slash with
  | [ ""; "subscriptions"; sub; "resourceGroups"; rg; "providers"; "Microsoft.Network";
      "loadBalancers"; lb; "backendAddressPools"; name ] =>
      if nonempty sub && nonempty rg && nonempty lb && nonempty name
      then None
      else Some (Errorf "parsing %q as a LoadBalancerBackendAddressPool ID")
  | _ => Some (Errorf "parsing %q as a LoadBalancerBackendAddressPool ID")
  end.

Definition sample_ID (id : NetworkInterfaceId) : string :=
  ("/subscriptions/" ++ nicid_SubscriptionId id ++ "/resourceGroups/" ++ nicid_ResourceGroup id
   ++ "/providers/Microsoft.Network/networkInterfaces/" ++ nicid_Name id)%string.

(** Modelled from the spec: the helpers below are not among the sources and
    the spec says nothing of them; the instance takes the plainest ones (no
    normalization, no tags, nothing more to lock, no field mapped back). *)
Definition sample_deps : Deps :=
  {| networkInterfaceResourceName := "azurestack_network_interface";
     parse_NetworkInterfaceID := sample_NetworkInterfaceID;
     parse_NewNetworkInterfaceID := fun sub rg name =>
       {| nicid_SubscriptionId := sub; nicid_ResourceGroup := rg; nicid_Name := name |};
     NetworkInterfaceId_ID := sample_ID;
     parse_NetworkInterfaceIpConfigurationID := sample_NetworkInterfaceIpConfigurationID;
     lbparse_LoadBalancerBackendAddressPoolID := sample_LoadBalancerBackendAddressPoolID;
     location_Normalize := fun s => s;
     location_NormalizeNilable := fun s => match s with Some l => l | None => "" end;
     tags_Expand := fun _ => None;
     tags_Flatten := fun _ => VMap [];
     tags_Schema := MkSchema TypeMap false true false false
                      (Some (ElemSchema (MkSchema TypeString false false false false None)));
     commonschema_Location := MkSchema TypeString true false false true None;
     commonschema_ResourceGroupName := MkSchema TypeString true false false true None;
     networkInterfaceUpdateInformation := unit;
     parseFieldsFromNetworkInterface := fun _ => tt;
     mapFieldsToNetworkInterface := fun l _ => l;
     determineResourcesToLockFromIPConfiguration := fun _ =>
       Ok {| subnetNamesToLock := []; virtualNetworkNamesToLock := [] |} |}.

Definition sample_nic_id : string :=
  "/subscriptions/sub1/resourceGroups/rg1/providers/Microsoft.Network/networkInterfaces/nic1".
Definition sample_pool_a : string :=
  "/subscriptions/sub1/resourceGroups/rg1/providers/Microsoft.Network/loadBalancers/lb1/backendAddressPools/a".
Definition sample_pool_b : string :=
  "/subscriptions/sub1/resourceGroups/rg1/providers/Microsoft.Network/loadBalancers/lb1/backendAddressPools/b".

(** ** The [ip_configuration] blocks of a configuration

    One element of [d.Get("ip_configuration")], typed as the schema types
    it. [cfg_primary] is [None] when the map has no ["primary"] key. *)
Record IPConfigurationBlock : Type := {
  cfg_name : string;
  cfg_subnet_id : string;
  cfg_private_ip_address : string;
  cfg_private_ip_address_version : string;
  cfg_private_ip_address_allocation : string;
  cfg_public_ip_address_id : string;
  cfg_primary : option bool
}.

(** The [map[string]interface{}] the plugin SDK builds for the block. *)
Definition raw (c : IPConfigurationBlock) : TfValue :=
  VMap ([ ("name", VString (cfg_name c));
          ("subnet_id", VString (cfg_subnet_id c));
          ("private_ip_address", VString (cfg_private_ip_address c));
          ("private_ip_address_version", VString (cfg_private_ip_address_version c));
          ("private_ip_address_allocation", VString (cfg_private_ip_address_allocation c));
          ("public_ip_address_id", VString (cfg_public_ip_address_id c)) ]
        ++ match cfg_primary c with
           | Some b => [ ("primary", VBool b) ]
           | None => []
           end).

(** An IPv4 block without a subnet. *)
Definition lacks_subnet (c : IPConfigurationBlock) : bool :=
  String.eqb (cfg_private_ip_address_version c) IPv4 && String.eqb (cfg_subnet_id c) "".

Definition primary_set (c : IPConfigurationBlock) : bool :=
  match cfg_primary c with
  | Some b => b
  | None => false
  end.

(** The inputs on which the spec has [expandNetworkInterfaceIPConfigurations]
    return an error: some block is IPv4 without a subnet, or there are
    several blocks and none is primary. *)
Definition expand_fails (input : list IPConfigurationBlock) : bool :=
  existsb lacks_subnet input
  || (Nat.ltb 1 (length input) && negb (existsb primary_set input)).

(** A string of the configuration as the pointer the SDK struct holds: the
    empty string is no value. *)
Definition nonempty_ptr (s : string) : option string :=
  if String.eqb s "" then None else Some s.

(** The fields of an expanded IP configuration are those of the block. *)
Definition taken_from (c : IPConfigurationBlock) (out : IPConfigW) : Prop :=
  ipc_Name out = Some (cfg_name c)
  /\ exists p,
       ipc_Properties out = Some p
       /\ ipc_Subnet p
          = (if String.eqb (cfg_subnet_id c) "" then None
             else Some {| subnet_ID := Some (cfg_subnet_id c) |})
       /\ PrivateIPAddress p = nonempty_ptr (cfg_private_ip_address c)
       /\ ipc_PublicIPAddress p
          = (if String.eqb (cfg_public_ip_address_id c) "" then None
             else Some {| pip_ID := Some (cfg_public_ip_address_id c) |})
       /\ PrivateIPAllocationMethod p = cfg_private_ip_address_allocation c
       /\ PrivateIPAddressVersion p = cfg_private_ip_address_version c
       /\ Primary p = cfg_primary c.


(** What one turn of the first loop appends for a block that has its
    subnet. *)
Definition expanded (c : IPConfigurationBlock) : IPConfigW :=
  {| ipc_Name := Some (cfg_name c);
     ipc_Etag := None;
     ipc_ID := None;
     ipc_Properties := Some
       {| LoadBalancerBackendAddressPools := None;
          LoadBalancerInboundNatRules := None;
          PrivateIPAddress := nonempty_ptr (cfg_private_ip_address c);
          PrivateIPAllocationMethod := cfg_private_ip_address_allocation c;
          PrivateIPAddressVersion := cfg_private_ip_address_version c;
          ipc_Subnet :=
            if String.eqb (cfg_subnet_id c) "" then None
            else Some {| subnet_ID := Some (cfg_subnet_id c) |};
          Primary := cfg_primary c;
          ipc_PublicIPAddress :=
            if String.eqb (cfg_public_ip_address_id c) "" then None
            else Some {| pip_ID := Some (cfg_public_ip_address_id c) |};
          ipc_ProvisioningState := None |} |}.

Definition subnet_required : error :=
  Errorf "A Subnet ID must be specified for an IPv4 Network Interface.".


(** ** The handlers a resource registers *)

Definition registered {A} (handler : option A) : bool :=
  match handler with
  | Some _ => true
  | None => false
  end.

(** The resource sets each of [Create], [Read], [Update] and [Delete]. *)
Definition registers_all_four {T} (r : Resource T) : bool :=
  registered (Create r) && registered (Read r) && registered (Update r) && registered (Delete r).


(** ** The lock of the network interface along a run *)

(** Where a run stands with the lock that [locks.ByName(name,
    networkInterfaceResourceName)] takes. *)
Inductive lock_state : Type :=
| NotTaken
| Held (name : string)
| Released.

(** One call of a run: the lock is taken once, from [NotTaken], and released
    with the name it was taken with; a write ([CreateOrUpdate], [Delete]) is
    made under the lock of the name it writes, a read ([Get]) or a wait on a
    future under the lock. [None] is a call that breaks this. The locks of
    other resource types and the calls on [d] pass. *)
Definition lock_step (rn : string) (st : lock_state) (e : Event) : option lock_state :=
  match e with
  | EvLock n t =>
      if String.eqb t rn then
        match st with
        | NotTaken => Some (Held n)
        | _ => None
        end
      else Some st
  | EvUnlock n t =>
      if String.eqb t rn then
        match st with
        | Held m => if String.eqb m n then Some Released else None
        | _ => None
        end
      else Some st
  | EvCreateOrUpdate _ n _ _ | EvDelete _ n _ =>
      match st with
      | Held m => if String.eqb m n then Some st else None
      | _ => None
      end
  | EvGet _ _ _ | EvWait _ =>
      match st with
      | Held _ => Some st
      | _ => None
      end
  | EvLockDetails _ | EvUnlockDetails _ | EvSetId _ | EvSet _ _ _ => Some st
  end.

Fixpoint lock_scan (rn : string) (st : lock_state) (tr : list Event) : option lock_state :=
  match tr with
  | [] => Some st
  | e :: rest =>
      match lock_step rn st e with
      | Some st' => lock_scan rn st' rest
      | None => None
      end
  end.

(** The run keeps every remote call under the lock, and ends with the lock
    released, or never taken when it made no remote call. *)
Definition under_lock (rn : string) (tr : list Event) : bool :=
  match lock_scan rn NotTaken tr with
  | Some NotTaken | Some Released => true
  | Some (Held _) | None => false
  end.

(** A world for the examples: a service of one interface, [stored] at
    first, that accepts every call; it stores what [CreateOrUpdate] sends
    and answers a [Get] with what it stores. *)
Definition stored_after (stored : option InterfaceW) (past : list Event) : option InterfaceW :=
  fold_left (fun st e =>
               match e with
               | EvCreateOrUpdate _ _ parameters None => Some parameters
               | EvDelete _ _ None => None
               | _ => st
               end) past stored.

Definition sample_world (stored : option InterfaceW) : World :=
  {| onGet := fun past _ _ =>
       match stored_after stored past with
       | Some nic => GetOk nic
       | None => GetNotFound (Errorf "ResourceNotFound")
       end;
     onCreateOrUpdate := fun _ _ _ _ => None;
     onDelete := fun _ _ _ => None;
     onWait := fun _ => None;
     onSet := fun _ _ _ => None |}.

Definition sample_block : IPConfigurationBlock :=
  {| cfg_name := "cfg1"; cfg_subnet_id := "subnet1"; cfg_private_ip_address := "";
     cfg_private_ip_address_version := "IPv4";
     cfg_private_ip_address_allocation := "Dynamic";
     cfg_public_ip_address_id := ""; cfg_primary := Some true |}.

Definition sample_data : NetworkInterfaceData :=
  {| d_Id := "";
     d_IsNewResource := true;
     d_HasChange := fun _ => false;
     d_name := "nic1";
     d_resource_group_name := "rg1";
     d_location := "local";
     d_enable_ip_forwarding := false;
     d_tags := VMap [];
     d_dns_servers := [];
     d_dns_servers_ok := false;
     d_ip_configuration := [raw sample_block] |}.

Definition sample_meta : Meta := {| SubscriptionId := "sub1" |}.


(** The same on the program: every run of [p], started in [st], keeps the
    remote calls under the lock, whatever the world answers. *)
Definition lock_end (st : lock_state) : Prop :=
  match st with
  | NotTaken | Released => True
  | Held _ => False
  end.

Definition lock_then (rn : string) (st : lock_state) (e : Event) (k : lock_state -> Prop)
  : Prop :=
  match lock_step rn st e with
  | Some st' => k st'
  | None => False
  end.

Fixpoint keeps_lock {A} (rn : string) (p : Prog A) (st : lock_state) : Prop :=
  match p with
  | Ret _ | Panic _ => lock_end st
  | LocksByName n t k => lock_then rn st (EvLock n t) (keeps_lock rn k)
  | LocksUnlockByName n t k => lock_then rn st (EvUnlock n t) (keeps_lock rn k)
  | LockingDetailsLock l k => lock_then rn st (EvLockDetails l) (keeps_lock rn k)
  | LockingDetailsUnlock l k => lock_then rn st (EvUnlockDetails l) (keeps_lock rn k)
  | ClientGet rg n k =>
      forall r, lock_then rn st (EvGet rg n r) (keeps_lock rn (k r))
  | ClientCreateOrUpdate rg n b k =>
      forall r, lock_then rn st (EvCreateOrUpdate rg n b r) (keeps_lock rn (k r))
  | ClientDelete rg n k =>
      forall r, lock_then rn st (EvDelete rg n r) (keeps_lock rn (k r))
  | FutureWaitForCompletionRef k =>
      forall r, lock_then rn st (EvWait r) (keeps_lock rn (k r))
  | DSetId id k => lock_then rn st (EvSetId id) (keeps_lock rn k)
  | DSet key v k =>
      forall r, lock_then rn st (EvSet key v r) (keeps_lock rn (k r))
  end.


(** The call [networkInterfaceCreate] makes before it takes the lock: for a
    new resource, the [Get] that looks for an interface of the same ID. *)
Definition existence_check `{D : Deps} (w : World) (d : NetworkInterfaceData) (meta : Meta)
  : list Event :=
  let id :=
    parse_NewNetworkInterfaceID (SubscriptionId meta) (d_resource_group_name d) (d_name d) in
  if d_IsNewResource d
  then [ EvGet (nicid_ResourceGroup id) (nicid_Name id)
           (onGet w [] (nicid_ResourceGroup id) (nicid_Name id)) ]
  else [].


(** ** What an association handler writes *)

(** The payloads of the [CreateOrUpdate] calls of a run, with the resource
    group and the name they go to. *)
Fixpoint writes (tr : list Event) : list (string * string * InterfaceW) :=
  match tr with
  | [] => []
  | EvCreateOrUpdate rg n parameters _ :: rest => (rg, n, parameters) :: writes rest
  | _ :: rest => writes rest
  end.

(** A program that calls neither [CreateOrUpdate] nor [Delete]. *)
Fixpoint read_only {A} (p : Prog A) : Prop :=
  match p with
  | Ret _ | Panic _ => True
  | LocksByName _ _ k | LocksUnlockByName _ _ k
  | LockingDetailsLock _ k | LockingDetailsUnlock _ k | DSetId _ k => read_only k
  | ClientGet _ _ k => forall r, read_only (k r)
  | FutureWaitForCompletionRef k | DSet _ _ k => forall r, read_only (k r)
  | ClientCreateOrUpdate _ _ _ _ | ClientDelete _ _ _ => False
  end.

(** The IP configuration with [pools] as the backend address pools of its
    properties, and nothing else changed. *)
Definition set_pools (c : IPConfigW) (pools : list BackendAddressPool) : IPConfigW :=
  with_Properties c
    (match ipc_Properties c with
     | Some p => Some (with_LoadBalancerBackendAddressPools p (Some pools))
     | None => None
     end).

(** The list with [config] in the place of the IP configurations named
    [name], and every other one as it is. *)
Definition replace_named (name : string) (config : IPConfigW) (l : list IPConfigW)
  : list IPConfigW :=
  map (fun v => if has_name name v then config else v) l.

(** The interface with [l] as the IP configurations of its properties, and
    nothing else changed. *)
Definition with_configs (nic : InterfaceW) (l : list IPConfigW) : InterfaceW :=
  with_InterfacePropertiesFormat nic
    (match nic_Properties nic with
     | Some props => Some (with_IPConfigurations props (Some l))
     | None => None
     end).

(** The backend address pools of an IP configuration, [nil] read as empty. *)
Definition pools_of (c : IPConfigW) : list BackendAddressPool :=
  match ipc_Properties c with
  | Some p =>
      match LoadBalancerBackendAddressPools p with
      | Some pools => pools
      | None => []
      end
  | None => []
  end.

Definition is_pool (backendAddressPoolId : string) (pool : BackendAddressPool) : bool :=
  match bap_ID pool with
  | Some id => String.eqb id backendAddressPoolId
  | None => false
  end.

Definition other_pool (backendAddressPoolId : string) (pool : BackendAddressPool) : bool :=
  match bap_ID pool with
  | Some id => negb (String.eqb id backendAddressPoolId)
  | None => false
  end.

Definition new_pool (backendAddressPoolId : string) : BackendAddressPool :=
  {| bap_ID := Some backendAddressPoolId; bap_Name := None; bap_Etag := None |}.

Definition association_ID (d : AssociationData) : string :=
  (network_interface_id d ++ "/ipConfigurations/" ++ ip_configuration_name d
   ++ "|" ++ backend_address_pool_id d)%string.


(** An interface for the examples: two IP configurations, [cfg0] in the pool
    [b], and [cfg1] in [pools]; a security group and a virtual machine that
    other resources manage. *)
Definition sample_pool (id : option string) : BackendAddressPool :=
  {| bap_ID := id; bap_Name := Some "pool"; bap_Etag := Some "W/1" |}.

Definition sample_properties (pools : option (list BackendAddressPool))
  : InterfaceIPConfigurationPropertiesFormat :=
  {| LoadBalancerBackendAddressPools := pools;
     LoadBalancerInboundNatRules := Some [ {| natrule_ID := Some "rule1" |} ];
     PrivateIPAddress := Some "10.0.0.4";
     PrivateIPAllocationMethod := Dynamic;
     PrivateIPAddressVersion := IPv4;
     ipc_Subnet := Some {| subnet_ID := Some "subnet1" |};
     Primary := Some true;
     ipc_PublicIPAddress := None;
     ipc_ProvisioningState := Some "Succeeded" |}.

Definition sample_config (name : string) (pools : option (list BackendAddressPool))
  : IPConfigW :=
  {| ipc_Properties := Some (sample_properties pools);
     ipc_Name := Some name;
     ipc_Etag := Some "W/7";
     ipc_ID := Some (sample_nic_id ++ "/ipConfigurations/" ++ name)%string |}.

Definition sample_nic (l : list IPConfigW) : InterfaceW :=
  {| nic_Properties := Some
       {| VirtualMachine := Some {| sub_ID := Some "vm1" |};
          NetworkSecurityGroup := Some {| nsg_ID := Some "nsg1" |};
          IPConfigurations := Some l;
          DNSSettings := Some
            {| DNSServers := Some ["10.0.0.2"]; AppliedDNSServers := Some ["10.0.0.2"];
               InternalDNSNameLabel := None; InternalDomainNameSuffix := Some "local" |};
          MacAddress := Some "00-0D-3A-00-00-01";
          EnableIPForwarding := Some false;
          nic_ProvisioningState := Some "Succeeded" |};
     nic_Etag := Some "W/7";
     nic_ID := Some sample_nic_id;
     nic_Name := Some "nic1";
     nic_Type := Some "Microsoft.Network/networkInterfaces";
     nic_Location := Some "local";
     nic_Tags := Some [("env", Some "test")] |}.

Definition sample_cfg0 : IPConfigW := sample_config "cfg0" (Some [sample_pool (Some sample_pool_b)]).

(** The association of [cfg1] of the sample interface with the pool [pool]. *)
Definition sample_association (pool : string) : AssociationData :=
  {| assoc_Id := (sample_nic_id ++ "/ipConfigurations/cfg1|" ++ pool)%string;
     network_interface_id := sample_nic_id;
     ip_configuration_name := "cfg1";
     backend_address_pool_id := pool |}.

Definition sample_id : NetworkInterfaceId :=
  {| nicid_SubscriptionId := "sub1"; nicid_ResourceGroup := "rg1"; nicid_Name := "nic1" |}.

Definition sample_ipc_id : NetworkInterfaceIpConfigurationId :=
  {| ipcid_SubscriptionId := "sub1"; ipcid_ResourceGroup := "rg1";
     ipcid_NetworkInterfaceName := "nic1"; ipcid_IpConfigurationName := "cfg1" |}.


(** ** What [networkInterfaceUpdate] carries over *)

Definition dns_servers_of (props : PropertiesW) : option (list string) :=
  match DNSSettings props with
  | Some dnsSettings => DNSServers dnsSettings
  | None => None
  end.

(** [update] has the security group of [existing], and its DNS servers, IP
    forwarding flag, IP configurations and tags where [d] reports no change
    of the field. *)
Definition carried_over (d : NetworkInterfaceData) (existing update : InterfaceW) : Prop :=
  exists existingProps updateProps,
    nic_Properties existing = Some existingProps
    /\ nic_Properties update = Some updateProps
    /\ NetworkSecurityGroup updateProps = NetworkSecurityGroup existingProps
    /\ (d_HasChange d "dns_servers" = false ->
        dns_servers_of updateProps = dns_servers_of existingProps)
    /\ (d_HasChange d "enable_ip_forwarding" = false ->
        EnableIPForwarding updateProps = EnableIPForwarding existingProps)
    /\ (d_HasChange d "ip_configuration" = false ->
        IPConfigurations updateProps = IPConfigurations existingProps)
    /\ (d_HasChange d "tags" = false -> nic_Tags update = nic_Tags existing).


(** ** Several handlers at once

    The handlers of one provider process run in goroutines of their own and
    meet at the service and at the locks. A handler makes its calls one at a
    time; between two calls of one handler the others may make theirs. *)

(** The service, with the interfaces it stores by resource group and name,
    and the locks that are held, by name and resource type. *)
Record Service : Type := {
  remote : gmap (string * string) InterfaceW;
  held : gset (string * string)
}.

Definition terminated {A} (p : Prog A) : Prop :=
  match p with
  | Ret _ | Panic _ => True
  | _ => False
  end.

(** Modelled from the spec: [locks.ByName] and [locks.UnlockByName] are of
    package [internal/locks], which is not among the sources. They are the
    per-resource-type, name-based mutual exclusion of the spec: [ByName]
    waits while the lock of the name and resource type is held and then
    holds it, [UnlockByName] lets it go. The service answers a [Get] with
    the interface it stores, stores what [CreateOrUpdate] sends and accepts
    every call; [lockingDetails] locks subnets and virtual networks, no
    network interface. [None] is a handler that cannot make its next call:
    it is over, or it waits for a lock. *)
Definition thread_step {A} (s : Service) (p : Prog A) : option (Service * Prog A) :=
  match p with
  | Ret _ | Panic _ => None
  | LocksByName n t k =>
      if decide ((n, t) ∈ held s) then None
      else Some ({| remote := remote s; held := {[ (n, t) ]} ∪ held s |}, k)
  | LocksUnlockByName n t k =>
      Some ({| remote := remote s; held := held s ∖ {[ (n, t) ]} |}, k)
  | LockingDetailsLock _ k | LockingDetailsUnlock _ k | DSetId _ k => Some (s, k)
  | ClientGet rg n k =>
      Some (s, k match remote s !! (rg, n) with
                 | Some nic => GetOk nic
                 | None => GetNotFound (Errorf "ResourceNotFound")
                 end)
  | ClientCreateOrUpdate rg n parameters k =>
      Some ({| remote := <[ (rg, n) := parameters ]> (remote s); held := held s |}, k None)
  | ClientDelete rg n k =>
      Some ({| remote := delete (rg, n) (remote s); held := held s |}, k None)
  | FutureWaitForCompletionRef k | DSet _ _ k => Some (s, k None)
  end.

(** The handlers that run, and the service they share. *)
Record System : Type := {
  service : Service;
  threads : list (Prog (option error))
}.

(** One call of one of the handlers. *)
Inductive step : System -> System -> Prop :=
| step_thread (S : System) (i : nat) (p p' : Prog (option error)) (s' : Service) :
    threads S !! i = Some p ->
    thread_step (service S) p = Some (s', p') ->
    step S {| service := s'; threads := <[ i := p' ]> (threads S) |}.

(** A handler run to its end with nobody else at the service. *)
Fixpoint complete {A} (s : Service) (p : Prog A) : Service :=
  match p with
  | Ret _ | Panic _ => s
  | LocksByName n t k => complete {| remote := remote s; held := {[ (n, t) ]} ∪ held s |} k
  | LocksUnlockByName n t k =>
      complete {| remote := remote s; held := held s ∖ {[ (n, t) ]} |} k
  | LockingDetailsLock _ k | LockingDetailsUnlock _ k | DSetId _ k => complete s k
  | ClientGet rg n k =>
      complete s (k match remote s !! (rg, n) with
                    | Some nic => GetOk nic
                    | None => GetNotFound (Errorf "ResourceNotFound")
                    end)
  | ClientCreateOrUpdate rg n parameters k =>
      complete {| remote := <[ (rg, n) := parameters ]> (remote s); held := held s |} (k None)
  | ClientDelete rg n k =>
      complete {| remote := delete (rg, n) (remote s); held := held s |} (k None)
  | FutureWaitForCompletionRef k | DSet _ _ k => complete s (k None)
  end.

(** The rest of a handler that holds the lock [(n, t)]: it takes no lock,
    and lets its lock go as its last call. *)
Fixpoint critical {A} (n t : string) (p : Prog A) : Prop :=
  match p with
  | Ret _ | Panic _ => False
  | LocksByName _ _ _ => False
  | LocksUnlockByName n' t' k => n' = n /\ t' = t /\ terminated k
  | LockingDetailsLock _ k | LockingDetailsUnlock _ k | DSetId _ k => critical n t k
  | ClientGet _ _ k => forall r, critical n t (k r)
  | ClientCreateOrUpdate _ _ _ k | ClientDelete _ _ k
  | FutureWaitForCompletionRef k | DSet _ _ k => forall r, critical n t (k r)
  end.

Definition lock (n t : string) (s : Service) : Service :=
  {| remote := remote s; held := {[ (n, t) ]} ∪ held s |}.

(** The service after the handler [LocksByName n t b] ran alone from [s]. *)
Definition after (n t : string) (b : Prog (option error)) (s : Service) : Service :=
  complete (lock n t s) b.

(** The named IP configuration of the stored interface is in the pool. *)
Definition in_pool (s : Service) (resourceGroup name ipConfigurationName pool : string)
  : Prop :=
  exists nic props l c,
    remote s !! (resourceGroup, name) = Some nic
    /\ nic_Properties nic = Some props
    /\ IPConfigurations props = Some l
    /\ FindNetworkInterfaceIPConfiguration (Some l) ipConfigurationName = Some c
    /\ existsb (is_pool pool) (pools_of c) = true.

(** The stored interface has the named IP configuration, with properties. *)
Definition has_configuration (s : Service) (resourceGroup name ipConfigurationName : string)
  : Prop :=
  exists nic props l c pv,
    remote s !! (resourceGroup, name) = Some nic
    /\ nic_Properties nic = Some props
    /\ IPConfigurations props = Some l
    /\ FindNetworkInterfaceIPConfiguration (Some l) ipConfigurationName = Some c
    /\ ipc_Properties c = Some pv.


(** Where two handlers that start with [locks.ByName(n, t)] can be: none
    has started; one is inside and the other has not started; one is over
    and the other has not started, is inside, or is over too. *)
Inductive serial (n t : string) (b1 b2 : Prog (option error)) (s0 : Service)
  : System -> Prop :=
| serial_init :
    serial n t b1 b2 s0 {| service := s0; threads := [LocksByName n t b1; LocksByName n t b2] |}
| serial_in1 s p1 :
    (n, t) ∈ held s -> critical n t p1 -> complete s p1 = after n t b1 s0 ->
    serial n t b1 b2 s0 {| service := s; threads := [p1; LocksByName n t b2] |}
| serial_in2 s p2 :
    (n, t) ∈ held s -> critical n t p2 -> complete s p2 = after n t b2 s0 ->
    serial n t b1 b2 s0 {| service := s; threads := [LocksByName n t b1; p2] |}
| serial_done1 p1 :
    terminated p1 ->
    serial n t b1 b2 s0 {| service := after n t b1 s0; threads := [p1; LocksByName n t b2] |}
| serial_done2 p2 :
    terminated p2 ->
    serial n t b1 b2 s0 {| service := after n t b2 s0; threads := [LocksByName n t b1; p2] |}
| serial_in12 s p1 p2 :
    terminated p1 -> (n, t) ∈ held s -> critical n t p2 ->
    complete s p2 = after n t b2 (after n t b1 s0) ->
    serial n t b1 b2 s0 {| service := s; threads := [p1; p2] |}
| serial_in21 s p1 p2 :
    terminated p2 -> (n, t) ∈ held s -> critical n t p1 ->
    complete s p1 = after n t b1 (after n t b2 s0) ->
    serial n t b1 b2 s0 {| service := s; threads := [p1; p2] |}
| serial_done12 p1 p2 :
    terminated p1 -> terminated p2 ->
    serial n t b1 b2 s0 {| service := after n t b2 (after n t b1 s0); threads := [p1; p2] |}
| serial_done21 p1 p2 :
    terminated p1 -> terminated p2 ->
    serial n t b1 b2 s0 {| service := after n t b1 (after n t b2 s0); threads := [p1; p2] |}.


(** ** Reading the flattened blocks *)

(** [m[k]] on an [interface{}] that holds a [map[string]interface{}]. *)
Definition field (v : TfValue) (k : string) : option TfValue :=
  match v with
  | VMap m => map_index m k
  | _ => None
  end.

(** The flattened map [m] holds the block [c]: each key of the block with
    its value, and ["primary"] as [false] where the block has none. *)
Definition same_block (c : IPConfigurationBlock) (m : TfValue) : Prop :=
  (forall k, k <> "primary" -> field m k = field (raw c) k)
  /\ field m "primary" = Some (VBool (primary_set c)).

(** What one turn of the loop of [flattenNetworkInterfaceIPConfigurations]
    appends for the IP configuration expanded from the block [c]. *)
Definition flattened (c : IPConfigurationBlock) : TfValue :=
  VMap [ ("name", VString (cfg_name c));
         ("primary", VBool (primary_set c));
         ("private_ip_address", VString (cfg_private_ip_address c));
         ("private_ip_address_allocation", VString (cfg_private_ip_address_allocation c));
         ("private_ip_address_version", VString (cfg_private_ip_address_version c));
         ("public_ip_address_id", VString (cfg_public_ip_address_id c));
         ("subnet_id", VString (cfg_subnet_id c)) ].

Definition is_string (v : TfValue) : bool :=
  match v with
  | VString _ => true
  | _ => false
  end.

Definition has_properties {P} (c : InterfaceIPConfiguration P) : bool :=
  match ipc_Properties c with
  | Some _ => true
  | None => false
  end.

(** The private IP address of an IP configuration, when it has properties
    and they have one. *)
Definition private_address (c : IPConfigW) : option string :=
  match ipc_Properties c with
  | Some p => PrivateIPAddress p
  | None => None
  end.


(** The keys that the loop of [expandNetworkInterfaceIPConfigurations]
    asserts to be strings before it looks at their values. *)
Definition asserted_first : list string :=
  [ "subnet_id"; "private_ip_address_allocation"; "private_ip_address_version" ].

(** The private IP address that [networkInterfaceRead] sets as
    ["private_ip_address"]: the one of the first IP configuration. *)
Definition first_private_address (configs : option (list IPConfigW)) : string :=
  match configs with
  | Some (c :: _) => match private_address c with Some v => v | None => "" end
  | _ => ""
  end.

(** The private IP addresses that [networkInterfaceRead] sets as
    ["private_ip_addresses"]. *)
Definition private_addresses (configs : option (list IPConfigW)) : list TfValue :=
  match configs with
  | Some l => map VString (omap private_address l)
  | None => []
  end.


(** ** Runs under a monitor

    A monitor follows the calls of a run with a state of its own and stops
    ([None]) at a call it does not allow. *)

Fixpoint scan {S} (allow : S -> Event -> option S) (st : S) (tr : list Event) : option S :=
  match tr with
  | [] => Some st
  | e :: rest =>
      match allow st e with
      | Some st' => scan allow st' rest
      | None => None
      end
  end.

(** The run passes the monitor and ends in a state that is [final]. *)
Definition passes {S} (allow : S -> Event -> option S) (final : S -> bool) (st : S)
    (tr : list Event) : bool :=
  match scan allow st tr with
  | Some st' => final st'
  | None => false
  end.

Definition allow_then {S} (allow : S -> Event -> option S) (st : S) (e : Event)
    (k : S -> Prop) : Prop :=
  match allow st e with
  | Some st' => k st'
  | None => False
  end.

(** The same on the program: every run of [p] passes, whatever the world
    answers. *)
Fixpoint monitored {S A} (allow : S -> Event -> option S) (final : S -> bool)
    (p : Prog A) (st : S) : Prop :=
  match p with
  | Ret _ | Panic _ => final st = true
  | LocksByName n t k => allow_then allow st (EvLock n t) (monitored allow final k)
  | LocksUnlockByName n t k => allow_then allow st (EvUnlock n t) (monitored allow final k)
  | LockingDetailsLock l k => allow_then allow st (EvLockDetails l) (monitored allow final k)
  | LockingDetailsUnlock l k =>
      allow_then allow st (EvUnlockDetails l) (monitored allow final k)
  | ClientGet rg n k =>
      forall r, allow_then allow st (EvGet rg n r) (monitored allow final (k r))
  | ClientCreateOrUpdate rg n b k =>
      forall r, allow_then allow st (EvCreateOrUpdate rg n b r) (monitored allow final (k r))
  | ClientDelete rg n k =>
      forall r, allow_then allow st (EvDelete rg n r) (monitored allow final (k r))
  | FutureWaitForCompletionRef k =>
      forall r, allow_then allow st (EvWait r) (monitored allow final (k r))
  | DSetId id k => allow_then allow st (EvSetId id) (monitored allow final k)
  | DSet key v k =>
      forall r, allow_then allow st (EvSet key v r) (monitored allow final (k r))
  end.

(** A handler that only reads: it may make one [Get], and calls on [d]; it
    takes no lock, waits for no future and writes nothing. The state is
    whether the [Get] was made. *)
Definition reader (got : bool) (e : Event) : option bool :=
  match e with
  | EvGet _ _ _ => if got then None else Some true
  | EvSetId _ | EvSet _ _ _ => Some got
  | _ => None
  end.

(** The locks of a run as a stack: a lock is pushed when it is taken, and
    the lock that is released is the one on top. With [strict], a write is
    made with the locks of the subnets and virtual networks on the stack. *)
Inductive held_lock : Type :=
| NameLock (name resourceType : string)
| DetailsLock (l : lockingDetails).

#[global] Instance lockingDetails_eq_dec : EqDecision lockingDetails.
Proof. solve_decision. Defined.

#[global] Instance held_lock_eq_dec : EqDecision held_lock.
Proof. solve_decision. Defined.

Definition is_details (h : held_lock) : bool :=
  match h with
  | DetailsLock _ => true
  | NameLock _ _ => false
  end.

Definition pop (h : held_lock) (stack : list held_lock) : option (list held_lock) :=
  match stack with
  | top :: rest => if decide (top = h) then Some rest else None
  | [] => None
  end.

Definition nested (strict : bool) (stack : list held_lock) (e : Event)
  : option (list held_lock) :=
  match e with
  | EvLock n t => Some (NameLock n t :: stack)
  | EvLockDetails l => Some (DetailsLock l :: stack)
  | EvUnlock n t => pop (NameLock n t) stack
  | EvUnlockDetails l => pop (DetailsLock l) stack
  | EvCreateOrUpdate _ _ _ _ | EvDelete _ _ _ =>
      if strict && negb (existsb is_details stack) then None else Some stack
  | _ => Some stack
  end.

Definition no_lock (stack : list held_lock) : bool :=
  match stack with
  | [] => true
  | _ => false
  end.

(** What [networkInterfaceDelete] may do: nothing is created or updated and
    nothing is set on [d]; one [Get]; one [Delete], of the interface that the
    [Get] found; a wait only on the future of the [Delete]; the ID is cleared
    only after a [Get] that found nothing. *)
Inductive delete_state : Type :=
| NotRead
| Found (resourceGroup name : string)
| Missing
| Failed
| Deleted.

Definition deleter (st : delete_state) (e : Event) : option delete_state :=
  match e with
  | EvGet rg n r =>
      match st with
      | NotRead =>
          match r with
          | GetOk _ => Some (Found rg n)
          | GetNotFound _ => Some Missing
          | GetFailed _ => Some Failed
          end
      | _ => None
      end
  | EvDelete rg n _ =>
      match st with
      | Found rg' n' => if String.eqb rg rg' && String.eqb n n' then Some Deleted else None
      | _ => None
      end
  | EvWait _ => match st with Deleted => Some st | _ => None end
  | EvSetId id =>
      match st with Missing => if String.eqb id "" then Some st else None | _ => None end
  | EvCreateOrUpdate _ _ _ _ | EvSet _ _ _ => None
  | _ => Some st
  end.


(** ** One run after another

    The world as a handler sees it when it starts after the calls [pre]. *)
Definition shift (w : World) (pre : list Event) : World :=
  {| onGet := fun past => onGet w (pre ++ past);
     onCreateOrUpdate := fun past => onCreateOrUpdate w (pre ++ past);
     onDelete := fun past => onDelete w (pre ++ past);
     onWait := fun past => onWait w (pre ++ past);
     onSet := fun past => onSet w (pre ++ past) |}.

(** A service of one interface, [stored] at first, that answers a [Get] with
    what it stores after the writes and deletes it accepted, or with an
    error of its own. *)
Definition faithful (stored : option InterfaceW) (w : World) : Prop :=
  forall (past : list Event) (resourceGroup name : string),
    match onGet w past resourceGroup name with
    | GetOk nic => stored_after stored past = Some nic
    | GetNotFound _ => stored_after stored past = None
    | GetFailed _ => True
    end.

(** The calls of a run on [d]: the values it sets, and the IDs. *)
Fixpoint sets (tr : list Event) : list (string * TfValue) :=
  match tr with
  | [] => []
  | EvSet key value _ :: rest => (key, value) :: sets rest
  | _ :: rest => sets rest
  end.

Fixpoint set_ids (tr : list Event) : list string :=
  match tr with
  | [] => []
  | EvSetId id :: rest => id :: set_ids rest
  | _ :: rest => set_ids rest
  end.

(** The value that [d] has for [key] after the run, when the run set it. *)
Definition value_set (key : string) (tr : list Event) : option TfValue :=
  match List.find (fun kv => String.eqb (fst kv) key) (rev (sets tr)) with
  | Some kv => Some (snd kv)
  | None => None
  end.

(** The ID that [d] has after the run, when the run set it. *)
Definition id_set (tr : list Event) : option string := last (set_ids tr).

(** The run of [second] in the world as the run of [first] left it. *)
Definition after_run {A B} (w : World) (first : Prog A) (second : Prog B)
  : list Event * outcome B :=
  exec w (fst (run w first)) second.


(** ** The association as the service stores it *)

(** The IP configurations of an interface, [nil] read as empty. *)
Definition configs_of (nic : InterfaceW) : list IPConfigW :=
  match nic_Properties nic with
  | Some props =>
      match IPConfigurations props with
      | Some l => l
      | None => []
      end
  | None => []
  end.

(** The first IP configuration of the name is in the pool. *)
Definition associated (backendAddressPoolId ipConfigurationName : string) (nic : InterfaceW)
  : bool :=
  match List.find (has_name ipConfigurationName) (configs_of nic) with
  | Some c => existsb (is_pool backendAddressPoolId) (pools_of c)
  | None => false
  end.

(** What [loadBalancerBackendAddressPoolAssociationCreateUpdate] sends for
    the interface [nic], whose IP configuration [c] gets the pool. *)
Definition with_pool (backendAddressPoolId ipConfigurationName : string) (nic : InterfaceW)
    (c : IPConfigW) : InterfaceW :=
  with_configs nic
    (replace_named ipConfigurationName
       (set_pools c
          (List.filter (other_pool backendAddressPoolId) (pools_of c)
           ++ [new_pool backendAddressPoolId]))
       (configs_of nic)).

(** What [loadBalancerBackendAddressPoolAssociationDelete] sends. *)
Definition without_pool (backendAddressPoolId ipConfigurationName : string) (nic : InterfaceW)
    (c : IPConfigW) : InterfaceW :=
  with_configs nic
    (replace_named ipConfigurationName
       (set_pools c (List.filter (other_pool backendAddressPoolId) (pools_of c)))
       (configs_of nic)).

(** [parse.NetworkInterfaceIpConfigurationID] gives back the name of the IP
    configuration from the first half of the ID that
    [loadBalancerBackendAddressPoolAssociationCreateUpdate] sets. *)
Definition parses_name `{D : Deps} (d : AssociationData) : Prop :=
  forall nicID,
    parse_NetworkInterfaceIpConfigurationID
      (network_interface_id d ++ "/ipConfigurations/" ++ ip_configuration_name d)%string
    = Ok nicID ->
    ipcid_IpConfigurationName nicID = ip_configuration_name d.


(** ** What [networkInterfaceUpdate] takes from the configuration *)

(** [update] has the configured value of each of [dns_servers],
    [enable_ip_forwarding], [ip_configuration] and [tags] of which [d]
    reports a change, the IP configurations mapped onto those of [existing];
    it has the configured location; and it has no virtual machine, no MAC
    address, and DNS settings that hold servers only. *)
Definition configured `{D : Deps} (d : NetworkInterfaceData) (existing update : InterfaceW)
  : Prop :=
  exists existingProps updateProps,
    nic_Properties existing = Some existingProps
    /\ nic_Properties update = Some updateProps
    /\ (d_HasChange d "dns_servers" = true ->
        exists dnsServers,
          expandNetworkInterfaceDnsServers (d_dns_servers d) = Returned dnsServers
          /\ dns_servers_of updateProps = Some dnsServers)
    /\ (d_HasChange d "enable_ip_forwarding" = true ->
        EnableIPForwarding updateProps = Some (d_enable_ip_forwarding d))
    /\ (d_HasChange d "ip_configuration" = true ->
        exists ipConfigs,
          expandNetworkInterfaceIPConfigurations (d_ip_configuration d)
          = Returned (Ok ipConfigs)
          /\ IPConfigurations updateProps
             = Some (mapFieldsToNetworkInterface ipConfigs
                       (parseFieldsFromNetworkInterface existingProps)))
    /\ (d_HasChange d "tags" = true -> nic_Tags update = tags_Expand (d_tags d))
    /\ nic_Location update = Some (location_Normalize (d_location d))
    /\ VirtualMachine updateProps = None
    /\ MacAddress updateProps = None
    /\ exists dnsSettings,
         DNSSettings updateProps = Some dnsSettings
         /\ AppliedDNSServers dnsSettings = None
         /\ InternalDNSNameLabel dnsSettings = None
         /\ InternalDomainNameSuffix dnsSettings = None.


(** A handler that sets only fields of [keys]. *)
Definition declared (keys : list string) (st : unit) (e : Event) : option unit :=
  match e with
  | EvSet key _ _ => if existsb (String.eqb key) keys then Some st else None
  | _ => Some st
  end.

(** The one write of a handler: a [CreateOrUpdate] or a [Delete], once; a
    wait only on the future of a write that the service accepted; after a
    write that was refused or a wait that failed, nothing but the release of
    the locks; between the write and the end of the wait, nothing; locks are
    taken before the write; an ID that is not empty is set only after the
    write is complete. *)
Inductive write_state : Type :=
| NoWrite
| Accepted
| Complete
| Failing.

Definition answered (r : option error) (ok : write_state) : write_state :=
  match r with
  | None => ok
  | Some _ => Failing
  end.

Definition one_write (st : write_state) (e : Event) : option write_state :=
  match e with
  | EvCreateOrUpdate _ _ _ r | EvDelete _ _ r =>
      match st with NoWrite => Some (answered r Accepted) | _ => None end
  | EvWait r =>
      match st with Accepted => Some (answered r Complete) | _ => None end
  | EvSetId id =>
      match st with
      | Complete => Some st
      | NoWrite => if String.eqb id "" then Some st else None
      | _ => None
      end
  | EvSet _ _ _ | EvGet _ _ _ =>
      match st with NoWrite | Complete => Some st | _ => None end
  | EvLock _ _ | EvLockDetails _ =>
      match st with NoWrite => Some st | _ => None end
  | EvUnlock _ _ | EvUnlockDetails _ => Some st
  end.

(** A handler that leaves [d] as it is: it sets no field and no ID. *)
Definition silent (st : unit) (e : Event) : option unit :=
  match e with
  | EvSet _ _ _ | EvSetId _ => None
  | _ => Some st
  end.


(** ** One flattened IP configuration *)

Definition or_empty (s : option string) : string :=
  match s with
  | Some v => v
  | None => ""
  end.

Definition keys_of (m : TfValue) : list string :=
  match m with
  | VMap fields => map fst fields
  | _ => []
  end.

(** [m] is the map that [flattenNetworkInterfaceIPConfigurations] appends for
    the IP configuration [c]: [c] has properties, and [m] holds the seven
    keys of a block and no other, each with the value of [c], the empty
    string for a nil pointer and [false] for a nil [Primary]. *)
Definition flat_of (c : IPConfigW) (m : TfValue) : Prop :=
  exists p,
    ipc_Properties c = Some p
    /\ Permutation (keys_of m)
         [ "name"; "primary"; "private_ip_address"; "private_ip_address_allocation";
           "private_ip_address_version"; "public_ip_address_id"; "subnet_id" ]
    /\ field m "name" = Some (VString (or_empty (ipc_Name c)))
    /\ field m "primary"
       = Some (VBool (match Primary p with Some b => b | None => false end))
    /\ field m "private_ip_address" = Some (VString (or_empty (PrivateIPAddress p)))
    /\ field m "private_ip_address_allocation"
       = Some (VString (PrivateIPAllocationMethod p))
    /\ field m "private_ip_address_version" = Some (VString (PrivateIPAddressVersion p))
    /\ field m "public_ip_address_id"
       = Some (VString (match ipc_PublicIPAddress p with
                        | Some a => or_empty (pip_ID a)
                        | None => ""
                        end))
    /\ field m "subnet_id"
       = Some (VString (match ipc_Subnet p with
                        | Some s => or_empty (subnet_ID s)
                        | None => ""
                        end)).


(** * Properties *)

(** ** The sample instance and [strings.Split] on examples *)

Example sample_NetworkInterfaceID_nic1 :
  sample_NetworkInterfaceID sample_nic_id
  = Ok {| nicid_SubscriptionId := "sub1"; nicid_ResourceGroup := "rg1"; nicid_Name := "nic1" |}.
Proof. reflexivity. Qed.

Example sample_NetworkInterfaceIpConfigurationID_cfg1 :
  sample_NetworkInterfaceIpConfigurationID (sample_nic_id ++ "/ipConfigurations/cfg1")%string
  = Ok {| ipcid_SubscriptionId := "sub1"; ipcid_ResourceGroup := "rg1";
          ipcid_NetworkInterfaceName := "nic1"; ipcid_IpConfigurationName := "cfg1" |}.
Proof. reflexivity. Qed.

Example Split_two : Split "a|b" pipe = ["a"; "b"].
Proof. reflexivity. Qed.

Example Split_none : Split "ab" pipe = ["ab"].
Proof. reflexivity. Qed.

Example Split_three : Split "a||b" pipe = ["a"; ""; "b"].
Proof. reflexivity. Qed.

(** ** The DNS servers of a network interface *)

Lemma expandNetworkInterfaceDnsServers_loop_strings (xs acc : list string) :
  expandNetworkInterfaceDnsServers_loop (map VString xs) acc = Returned (acc ++ xs).
Proof.
  revert acc. induction xs as [|x xs IH]; intros acc; simpl.
  - now rewrite app_nil_r.
  - rewrite IH. now rewrite <- app_assoc.
Qed.

(** C10: flattening the expanded DNS servers of a list of strings gives the
    list back, and flattening [nil] gives the empty list. *)
Theorem flatten_expand_DnsServers :
  (forall xs : list string,
     (let! dns := expandNetworkInterfaceDnsServers (map VString xs) in
      Returned (flattenNetworkInterfaceDnsServers (Some dns)))%outcome
     = Returned xs)
  /\ flattenNetworkInterfaceDnsServers None = [].
Proof.
  split; [|reflexivity].
  intros xs. unfold expandNetworkInterfaceDnsServers.
  now rewrite expandNetworkInterfaceDnsServers_loop_strings.
Qed.

Example expand_dns_two :
  expandNetworkInterfaceDnsServers [VString "10.0.0.4"; VString "10.0.0.5"]
  = Returned ["10.0.0.4"; "10.0.0.5"].
Proof. reflexivity. Qed.

Example expand_dns_not_a_string :
  expandNetworkInterfaceDnsServers [VString "10.0.0.4"; VBool true]
  = Panicked "interface conversion: interface {} is not string".
Proof. reflexivity. Qed.

(** ** [expandNetworkInterfaceIPConfigurations] *)

Lemma expandNetworkInterfaceIPConfiguration_raw (c : IPConfigurationBlock) :
  expandNetworkInterfaceIPConfiguration (raw c)
  = Returned (if lacks_subnet c then Err subnet_required else Ok (expanded c)).
Proof.
  destruct c as [name subnet ip version allocation pip primary].
  unfold expandNetworkInterfaceIPConfiguration, raw, lacks_subnet, expanded, nonempty_ptr.
  cbn.
  destruct (String.eqb version IPv4 && String.eqb subnet "") eqn:E; [reflexivity|].
  destruct primary as [b|]; cbn;
    destruct (String.eqb subnet ""), (String.eqb ip ""), (String.eqb pip ""); reflexivity.
Qed.

Lemma expand_loop_raw (input : list IPConfigurationBlock) (acc : list IPConfigW) :
  expand_loop (map raw input) acc
  = Returned (if existsb lacks_subnet input then Err subnet_required
              else Ok (acc ++ map expanded input)).
Proof.
  revert acc. induction input as [|c input IH]; intros acc; simpl.
  - now rewrite app_nil_r.
  - rewrite expandNetworkInterfaceIPConfiguration_raw.
    destruct (lacks_subnet c); simpl; [reflexivity|].
    rewrite IH. now rewrite <- app_assoc.
Qed.

Lemma hasPrimary_loop_expanded (input : list IPConfigurationBlock) :
  hasPrimary_loop (map expanded input) = Returned (existsb primary_set input).
Proof.
  induction input as [|c input IH]; simpl; [reflexivity|].
  unfold primary_set at 1.
  destruct (cfg_primary c) as [[|]|]; simpl; auto.
Qed.

Lemma taken_from_expanded (c : IPConfigurationBlock) : taken_from c (expanded c).
Proof.
  split; [reflexivity|]. eexists. split; [reflexivity|].
  simpl. repeat split.
Qed.

(** C9: on the blocks of a configuration, [expandNetworkInterfaceIPConfigurations]
    never panics; it returns an error exactly when some block is IPv4 without
    a subnet or there are several blocks and none is primary; otherwise it
    returns one IP configuration per block, in order, holding the block's
    name, subnet, addresses, allocation method, version and primary flag. *)
Theorem expandNetworkInterfaceIPConfigurations_spec (input : list IPConfigurationBlock) :
  match expandNetworkInterfaceIPConfigurations (map raw input) with
  | Returned (Err _) => expand_fails input = true
  | Returned (Ok ipConfigs) =>
      expand_fails input = false /\ Forall2 taken_from input ipConfigs
  | Panicked _ => False
  end.
Proof.
  unfold expandNetworkInterfaceIPConfigurations, expand_fails.
  rewrite expand_loop_raw.
  destruct (existsb lacks_subnet input) eqn:Hsub; simpl; [reflexivity|].
  assert (Hall : Forall2 taken_from input (map expanded input)).
  { clear. induction input; simpl; constructor; auto using taken_from_expanded. }
  rewrite length_map.
  destruct (Nat.ltb 1 (length input)) eqn:Hlen; simpl; [|now split].
  rewrite hasPrimary_loop_expanded. simpl.
  destruct (existsb primary_set input); simpl; [now split|reflexivity].
Qed.

Example expand_single_without_primary :
  expandNetworkInterfaceIPConfigurations
    [raw {| cfg_name := "internal"; cfg_subnet_id := "subnet1"; cfg_private_ip_address := "";
            cfg_private_ip_address_version := "IPv4";
            cfg_private_ip_address_allocation := "Dynamic";
            cfg_public_ip_address_id := ""; cfg_primary := Some false |}]
  = Returned (Ok
      [ {| ipc_Name := Some "internal"; ipc_Etag := None; ipc_ID := None;
           ipc_Properties := Some
             {| LoadBalancerBackendAddressPools := None;
                LoadBalancerInboundNatRules := None;
                PrivateIPAddress := None;
                PrivateIPAllocationMethod := "Dynamic";
                PrivateIPAddressVersion := "IPv4";
                ipc_Subnet := Some {| subnet_ID := Some "subnet1" |};
                Primary := Some false;
                ipc_PublicIPAddress := None;
                ipc_ProvisioningState := None |} |} ]).
Proof. reflexivity. Qed.

Example expand_two_without_primary :
  expandNetworkInterfaceIPConfigurations
    [raw {| cfg_name := "one"; cfg_subnet_id := "subnet1"; cfg_private_ip_address := "";
            cfg_private_ip_address_version := "IPv4";
            cfg_private_ip_address_allocation := "Dynamic";
            cfg_public_ip_address_id := ""; cfg_primary := Some false |};
     raw {| cfg_name := "two"; cfg_subnet_id := "subnet1"; cfg_private_ip_address := "";
            cfg_private_ip_address_version := "IPv4";
            cfg_private_ip_address_allocation := "Dynamic";
            cfg_public_ip_address_id := ""; cfg_primary := None |}]
  = Returned (Err (Errorf
      "If multiple `ip_configurations` are specified - one must be designated as `primary`.")).
Proof. reflexivity. Qed.

Example expand_without_subnet :
  expandNetworkInterfaceIPConfigurations
    [raw {| cfg_name := "one"; cfg_subnet_id := ""; cfg_private_ip_address := "";
            cfg_private_ip_address_version := "IPv4";
            cfg_private_ip_address_allocation := "Dynamic";
            cfg_public_ip_address_id := ""; cfg_primary := Some true |}]
  = Returned (Err subnet_required).
Proof. reflexivity. Qed.

(** ** The import ID of an association *)

Lemma Split_without_separator (s : string) (sep : ascii) :
  contains_byte s sep = false -> Split s sep = [s].
Proof.
  induction s as [|c s IH]; simpl; [reflexivity|].
  intros H. apply orb_false_elim in H as [Hc Hs].
  rewrite Hc, (IH Hs). reflexivity.
Qed.

Lemma Split_with_separator (s : string) (sep : ascii) :
  contains_byte s sep = true -> exists s0 s1 rest, Split s sep = s0 :: s1 :: rest.
Proof.
  induction s as [|c s IH]; simpl; [discriminate|].
  destruct (Ascii.eqb c sep) eqn:Hc; simpl.
  - intros _. destruct s as [|c' s']; simpl; [now eauto|].
    destruct (Ascii.eqb c' sep); [now eauto|].
    destruct (Split s' sep); eauto.
  - intros Hs. destruct (IH Hs) as (s0 & s1 & rest & ->). eauto.
Qed.

(** C8 as stated does not hold on the ID ["nic1"]: it has no ["|"], and the
    validation function returns the error of the first parser; it does not
    index out of bounds. *)
Lemma Importer_returns_without_separator :
  contains_byte "nic1" pipe = false
  /\ loadBalancerBackendAddressPoolAssociation_Importer (D := sample_deps) "nic1"
     = Returned (Some (Errorf "parsing %q as a NetworkInterfaceIpConfiguration ID")).
Proof. split; reflexivity. Qed.

(** C8, amended: the validation function of the association indexes the
    split ID at 0 and 1 without looking at its length. On an ID without
    ["|"] it returns the error of [parse.NetworkInterfaceIpConfigurationID]
    when that parser rejects the ID, and panics on the index 1 when the
    parser accepts it; on an ID with a ["|"] it returns. [Read] and [Delete]
    return the format error, and call nothing, when the split has not
    exactly two parts. *)
Theorem Importer_index_out_of_range `{D : Deps} (id : string) (d : AssociationData)
    (meta : Meta) :
  (if contains_byte id pipe
   then exists r, loadBalancerBackendAddressPoolAssociation_Importer id = Returned r
   else loadBalancerBackendAddressPoolAssociation_Importer id
        = match parse_NetworkInterfaceIpConfigurationID id with
          | Err err => Returned (Some err)
          | Ok _ => Panicked "index out of range"
          end)
  /\ (if Nat.eqb (length (Split (assoc_Id d) pipe)) 2 then True
      else loadBalancerBackendAddressPoolAssociationRead d meta
           = Ret (Some (Errorf expected_id_format))
           /\ loadBalancerBackendAddressPoolAssociationDelete d meta
              = Ret (Some (Errorf expected_id_format))).
Proof.
  split.
  - unfold loadBalancerBackendAddressPoolAssociation_Importer.
    destruct (contains_byte id pipe) eqn:Hc.
    + destruct (Split_with_separator _ _ Hc) as (s0 & s1 & rest & ->). simpl.
      destruct (parse_NetworkInterfaceIpConfigurationID s0); [|now eauto].
      destruct (lbparse_LoadBalancerBackendAddressPoolID s1); eauto.
    + rewrite (Split_without_separator _ _ Hc). simpl.
      destruct (parse_NetworkInterfaceIpConfigurationID id); reflexivity.
  - unfold loadBalancerBackendAddressPoolAssociationRead,
      loadBalancerBackendAddressPoolAssociationDelete.
    destruct (Nat.eqb (length (Split (assoc_Id d) pipe)) 2); simpl; auto.
Qed.

Example Importer_panics :
  loadBalancerBackendAddressPoolAssociation_Importer (D := sample_deps)
    (sample_nic_id ++ "/ipConfigurations/cfg1")%string
  = Panicked "index out of range".
Proof. reflexivity. Qed.

Example Importer_accepts :
  loadBalancerBackendAddressPoolAssociation_Importer (D := sample_deps)
    (sample_nic_id ++ "/ipConfigurations/cfg1|" ++ sample_pool_a)%string
  = Returned None.
Proof. reflexivity. Qed.

Example Read_rejects_without_separator :
  loadBalancerBackendAddressPoolAssociationRead (D := sample_deps)
    {| assoc_Id := (sample_nic_id ++ "/ipConfigurations/cfg1")%string;
       network_interface_id := ""; ip_configuration_name := "";
       backend_address_pool_id := "" |} {| SubscriptionId := "sub1" |}
  = Ret (Some (Errorf expected_id_format)).
Proof. reflexivity. Qed.

(** ** The handlers of the two resources *)

(** C5 as stated does not hold of the association: its definition sets no
    [Update]. *)
Lemma association_registers_no_Update :
  registers_all_four (loadBalancerBackendAddressPoolAssociation (D := sample_deps)) = false.
Proof. reflexivity. Qed.

(** C5, amended: of the two resources that are defined under [src/], the
    network interface and the backend address pool association, both
    register [Create], [Read] and [Delete]; the network interface registers
    [Update] too; the association, all of whose schema fields are
    [ForceNew], registers no [Update]. *)
Theorem resources_register_handlers `{D : Deps} :
  Create networkInterface = Some networkInterfaceCreate
  /\ Read networkInterface = Some networkInterfaceRead
  /\ Update networkInterface = Some networkInterfaceUpdate
  /\ Delete networkInterface = Some networkInterfaceDelete
  /\ Create loadBalancerBackendAddressPoolAssociation
     = Some loadBalancerBackendAddressPoolAssociationCreateUpdate
  /\ Read loadBalancerBackendAddressPoolAssociation
     = Some loadBalancerBackendAddressPoolAssociationRead
  /\ Update loadBalancerBackendAddressPoolAssociation = None
  /\ Delete loadBalancerBackendAddressPoolAssociation
     = Some loadBalancerBackendAddressPoolAssociationDelete
  /\ forallb (fun f => ForceNew (snd f)) (Schema_ loadBalancerBackendAddressPoolAssociation)
     = true.
Proof. repeat split. Qed.

(** ** The lock around the remote calls *)

Lemma lock_scan_app (rn : string) (st : lock_state) (tr1 tr2 : list Event) :
  lock_scan rn st (tr1 ++ tr2)
  = match lock_scan rn st tr1 with
    | Some st' => lock_scan rn st' tr2
    | None => None
    end.
Proof.
  revert st. induction tr1 as [|e tr1 IH]; intros st; simpl; [reflexivity|].
  destruct (lock_step rn st e); auto.
Qed.

(** A program that keeps the lock makes, in any world and after any past, a
    run whose calls scan from the state it started in to an end state. *)
Lemma keeps_lock_exec {A} (rn : string) (p : Prog A) :
  forall (w : World) (past : list Event) (st : lock_state),
    keeps_lock rn p st ->
    exists new st',
      fst (exec w past p) = past ++ new
      /\ lock_scan rn st new = Some st' /\ lock_end st'.
Proof.
  assert (Hcons : forall (e : Event) (st : lock_state) (k : lock_state -> Prop)
                    (tr past : list Event),
             lock_then rn st e k ->
             (forall st1, k st1 ->
                exists new st', tr = (past ++ [e]) ++ new
                                /\ lock_scan rn st1 new = Some st' /\ lock_end st') ->
             exists new st', tr = past ++ new
                             /\ lock_scan rn st new = Some st' /\ lock_end st').
  { intros e st k tr past Hk Hrest. unfold lock_then in Hk.
    destruct (lock_step rn st e) as [st1|] eqn:He; [|contradiction].
    destruct (Hrest st1 Hk) as (new & st' & -> & Hscan & Hend).
    exists (e :: new), st'. rewrite <- app_assoc. simpl. rewrite He. auto. }
  induction p as [a|msg|n t k IH|n t k IH|l k IH|l k IH|rg n k IH|rg n b k IH|rg n k IH
                  |k IH|id k IH|key v k IH];
    intros w past st Hp; simpl in Hp |- *.
  1,2: exists [], st; rewrite app_nil_r; auto.
  all: try (eapply Hcons; [exact Hp|]; intros st1 H1; now apply IH).
  all: eapply Hcons; [apply Hp|]; intros st1 H1; cbv zeta; now apply IH.
Qed.

Lemma keeps_lock_run {A} (rn : string) (p : Prog A) (w : World) :
  keeps_lock rn p NotTaken -> under_lock rn (fst (run w p)) = true.
Proof.
  intros Hp. destruct (keeps_lock_exec rn p w [] NotTaken Hp) as (new & st' & Htr & Hscan & Hend).
  unfold run, under_lock. rewrite Htr. simpl. rewrite Hscan. now destruct st'.
Qed.

Ltac branch :=
  match goal with
  | |- context [lift ?x] => destruct x eqn:?
  | |- context [match ?x with _ => _ end] => destruct x eqn:?
  | |- context [if ?x then _ else _] => destruct x eqn:?
  end.

Ltac walk :=
  repeat (cbn [keeps_lock bind defer_ lift];
          unfold lock_then, lock_step, lock_end;
          rewrite ?String.eqb_refl;
          cbn beta iota;
          try exact I;
          intros;
          try branch).

Section Lock.
Context `{D : Deps}.

Lemma association_CreateUpdate_keeps_lock (d : AssociationData) (meta : Meta) :
  keeps_lock networkInterfaceResourceName
    (loadBalancerBackendAddressPoolAssociationCreateUpdate d meta) NotTaken.
Proof.
  unfold loadBalancerBackendAddressPoolAssociationCreateUpdate,
    loadBalancerBackendAddressPoolAssociationRead.
  walk.
Qed.

Lemma association_Delete_keeps_lock (d : AssociationData) (meta : Meta) :
  keeps_lock networkInterfaceResourceName
    (loadBalancerBackendAddressPoolAssociationDelete d meta) NotTaken.
Proof. unfold loadBalancerBackendAddressPoolAssociationDelete. walk. Qed.

Lemma networkInterfaceUpdate_keeps_lock (d : NetworkInterfaceData) (meta : Meta) :
  keeps_lock networkInterfaceResourceName (networkInterfaceUpdate d meta) NotTaken.
Proof. unfold networkInterfaceUpdate. walk. Qed.

Lemma networkInterfaceDelete_keeps_lock (d : NetworkInterfaceData) (meta : Meta) :
  keeps_lock networkInterfaceResourceName (networkInterfaceDelete d meta) NotTaken.
Proof. unfold networkInterfaceDelete. walk. Qed.

Lemma networkInterfaceCreate_after_check (w : World) (d : NetworkInterfaceData) (meta : Meta) :
  exists rest,
    fst (run w (networkInterfaceCreate d meta)) = existence_check w d meta ++ rest
    /\ under_lock networkInterfaceResourceName rest = true.
Proof.
  assert (Hbody : forall (p : Prog (option error)) (past : list Event),
             keeps_lock networkInterfaceResourceName p NotTaken ->
             exists rest, fst (exec w past p) = past ++ rest
                          /\ under_lock networkInterfaceResourceName rest = true).
  { intros p past Hp.
    destruct (keeps_lock_exec _ p w past NotTaken Hp) as (new & st' & Htr & Hscan & Hend).
    exists new. split; [exact Htr|]. unfold under_lock. rewrite Hscan. now destruct st'. }
  unfold run, networkInterfaceCreate, existence_check, networkInterfaceRead.
  destruct (d_IsNewResource d); cbn [bind].
  - change (exec w [] (ClientGet ?rg ?n ?k))
      with (exec w ([] ++ [EvGet rg n (onGet w [] rg n)]) (k (onGet w [] rg n))).
    destruct (onGet w [] _ _); cbn [bind].
    1,3: exists []; split; reflexivity.
    apply Hbody. walk.
  - apply Hbody. walk.
Qed.

End Lock.

(** C2 as stated does not hold of [networkInterfaceCreate]: for a new
    resource its first remote call, the [Get] that looks for an existing
    interface, is made before [locks.ByName]. *)
Lemma networkInterfaceCreate_reads_before_lock :
  firstn 2 (fst (run (sample_world None)
                   (networkInterfaceCreate (D := sample_deps) sample_data sample_meta)))
  = [ EvGet "rg1" "nic1" (GetNotFound (Errorf "ResourceNotFound"));
      EvLock "nic1" "azurestack_network_interface" ]
  /\ under_lock "azurestack_network_interface"
       (fst (run (sample_world None)
               (networkInterfaceCreate (D := sample_deps) sample_data sample_meta)))
     = false.
Proof. split; reflexivity. Qed.

Example networkInterfaceCreate_run :
  map (fun e => match e with
                | EvLock _ _ => "lock" | EvUnlock _ _ => "unlock"
                | EvLockDetails _ => "lock subnets" | EvUnlockDetails _ => "unlock subnets"
                | EvGet _ _ (GetOk _) => "get: found" | EvGet _ _ _ => "get: not found"
                | EvCreateOrUpdate _ _ _ _ => "create or update"
                | EvDelete _ _ _ => "delete" | EvWait _ => "wait"
                | EvSetId _ => "set id" | EvSet key _ _ => key
                end)
    (fst (run (sample_world None)
            (networkInterfaceCreate (D := sample_deps) sample_data sample_meta)))
  = [ "get: not found"; "lock"; "lock subnets"; "create or update"; "wait"; "set id";
      "get: found"; "name"; "resource_group_name"; "location"; "applied_dns_servers";
      "dns_servers"; "enable_ip_forwarding"; "internal_domain_name_suffix"; "mac_address";
      "private_ip_address"; "virtual_machine_id"; "ip_configuration";
      "private_ip_addresses"; "tags"; "unlock subnets"; "unlock" ].
Proof. reflexivity. Qed.

(** C2, amended: in every world, every run of [networkInterfaceUpdate],
    [networkInterfaceDelete], [loadBalancerBackendAddressPoolAssociationCreateUpdate]
    and [loadBalancerBackendAddressPoolAssociationDelete] makes its remote
    calls between one [locks.ByName] on the resource type of the network
    interface and one [locks.UnlockByName] with the same name, the writes on
    the name locked, and a run that returns before the lock is taken makes
    no remote call; the run of [networkInterfaceCreate] is the same after the
    [Get] by which it looks, for a new resource, for an existing interface,
    which it makes before the lock. *)
Theorem remote_calls_under_lock `{D : Deps} (w : World) (a : AssociationData)
    (d : NetworkInterfaceData) (meta : Meta) :
  under_lock networkInterfaceResourceName (fst (run w (networkInterfaceUpdate d meta))) = true
  /\ under_lock networkInterfaceResourceName (fst (run w (networkInterfaceDelete d meta))) = true
  /\ under_lock networkInterfaceResourceName
       (fst (run w (loadBalancerBackendAddressPoolAssociationCreateUpdate a meta))) = true
  /\ under_lock networkInterfaceResourceName
       (fst (run w (loadBalancerBackendAddressPoolAssociationDelete a meta))) = true
  /\ exists rest,
       fst (run w (networkInterfaceCreate d meta)) = existence_check w d meta ++ rest
       /\ under_lock networkInterfaceResourceName rest = true.
Proof.
  repeat split.
  - apply keeps_lock_run, networkInterfaceUpdate_keeps_lock.
  - apply keeps_lock_run, networkInterfaceDelete_keeps_lock.
  - apply keeps_lock_run, association_CreateUpdate_keeps_lock.
  - apply keeps_lock_run, association_Delete_keeps_lock.
  - apply networkInterfaceCreate_after_check.
Qed.

(** ** Decoding an interface into the heap, and encoding it back *)

Lemma decode_IPConfigurations_app (l1 l2 : list IPConfigW) (heap : Heap) :
  decode_IPConfigurations heap (l1 ++ l2)
  = let '(h1, l1') := decode_IPConfigurations heap l1 in
    let '(h2, l2') := decode_IPConfigurations h1 l2 in
    (h2, l1' ++ l2').
Proof.
  revert heap. induction l1 as [|c l1 IH]; intros heap; simpl.
  - now destruct (decode_IPConfigurations heap l2).
  - destruct (ipc_Properties c) as [p|].
    + rewrite IH. destruct (decode_IPConfigurations (heap ++ [p]) l1) as [h1 l1'].
      now destruct (decode_IPConfigurations h1 l2).
    + rewrite IH. destruct (decode_IPConfigurations heap l1) as [h1 l1'].
      now destruct (decode_IPConfigurations h1 l2).
Qed.

(** Decoding only allocates: the heap it starts from is a prefix of the heap
    it ends with. *)
Lemma decode_IPConfigurations_extends (l : list IPConfigW) (heap : Heap) :
  exists extra, fst (decode_IPConfigurations heap l) = heap ++ extra.
Proof.
  revert heap. induction l as [|c l IH]; intros heap; simpl.
  - exists []. now rewrite app_nil_r.
  - destruct (ipc_Properties c) as [p|].
    + destruct (IH (heap ++ [p])) as [extra He].
      destruct (decode_IPConfigurations (heap ++ [p]) l) as [h1 l1']. simpl in *.
      exists (p :: extra). now rewrite He, <- app_assoc.
    + destruct (IH heap) as [extra He].
      destruct (decode_IPConfigurations heap l) as [h1 l1']. simpl in *. eauto.
Qed.

(** Decoding keeps the names. *)
Lemma decode_IPConfigurations_names (name : string) (l : list IPConfigW) (heap : Heap) :
  map (has_name name) (snd (decode_IPConfigurations heap l)) = map (has_name name) l.
Proof.
  revert heap. induction l as [|c l IH]; intros heap; simpl; [reflexivity|].
  destruct (ipc_Properties c) as [p|].
  - specialize (IH (heap ++ [p])).
    destruct (decode_IPConfigurations (heap ++ [p]) l). simpl in *. now rewrite IH.
  - specialize (IH heap).
    destruct (decode_IPConfigurations heap l). simpl in *. now rewrite IH.
Qed.

(** Encoding what was decoded gives the list back, on any heap that agrees
    with the heap of the decoding on the addresses it allocated; where the
    decoded list got [c'] in the place of the IP configurations named
    [name], the list has the encoding of [c'] there. *)
Lemma encode_decode_IPConfigurations (name : string) (c' : IPConfigM) (l : list IPConfigW)
    (heap H : Heap) :
  (forall a, length heap <= a ->
             a < length (fst (decode_IPConfigurations heap l)) ->
             H !! a = fst (decode_IPConfigurations heap l) !! a) ->
  map (encode_IPConfiguration H)
    (map (fun v => if has_name name v then c' else v) (snd (decode_IPConfigurations heap l)))
  = replace_named name (encode_IPConfiguration H c') l.
Proof.
  revert heap. induction l as [|c l IH]; intros heap; simpl; [reflexivity|].
  destruct (ipc_Properties c) as [p|] eqn:Hc.
  - destruct (decode_IPConfigurations_extends l (heap ++ [p])) as [extra He].
    specialize (IH (heap ++ [p])).
    destruct (decode_IPConfigurations (heap ++ [p]) l) as [h1 l1']. simpl in *. subst h1.
    intros Hagree. f_equal.
    + change (has_name name (with_Properties c (Some (length heap)))) with (has_name name c).
      destruct (has_name name c); [reflexivity|].
      unfold encode_IPConfiguration. simpl.
      rewrite Hagree; [|lia|rewrite !length_app; simpl; lia].
      rewrite <- app_assoc. rewrite lookup_app_r by lia.
      replace (length heap - length heap) with 0 by lia. simpl.
      destruct c; simpl in *; now subst.
    + apply IH. intros a Hlo Hhi. apply Hagree; [|exact Hhi].
      rewrite length_app in Hlo. simpl in Hlo. lia.
  - specialize (IH heap).
    destruct (decode_IPConfigurations heap l) as [h1 l1']. simpl in *.
    intros Hagree. f_equal.
    + change (has_name name (with_Properties c (@None addr))) with (has_name name c).
      destruct (has_name name c); [reflexivity|].
      unfold encode_IPConfiguration. simpl. destruct c; simpl in *; now subst.
    + now apply IH.
Qed.

Lemma find_split {A} (f : A -> bool) (l : list A) (c : A) :
  List.find f l = Some c ->
  exists pre post, l = pre ++ c :: post /\ f c = true /\ Forall (fun x => f x = false) pre.
Proof.
  induction l as [|x l IH]; simpl; [discriminate|].
  destruct (f x) eqn:Hx.
  - intros [= ->]. exists [], l. auto.
  - intros Hl. destruct (IH Hl) as (pre & post & -> & Hc & Hpre).
    exists (x :: pre), post. auto.
Qed.

Lemma find_app_first {A} (f : A -> bool) (pre post : list A) (c : A) :
  Forall (fun b => b = false) (map f pre) -> f c = true ->
  List.find f (pre ++ c :: post) = Some c.
Proof.
  induction pre as [|x pre IH]; simpl; intros Hpre Hc.
  - now rewrite Hc.
  - inversion Hpre as [|? ? Hx Hrest]; subst. rewrite Hx. auto.
Qed.

(** What the association handlers rely on: in the decoded interface the
    named IP configuration is found with an address for its properties, and
    after a store at that address the encoding of the updated list is the
    list on the wire with the new properties in the named IP configurations
    and every other IP configuration as it was. *)
Lemma decode_find_store_encode (name : string) (l : list IPConfigW) (c : IPConfigW)
    (pv : InterfaceIPConfigurationPropertiesFormat) :
  List.find (has_name name) l = Some c ->
  ipc_Properties c = Some pv ->
  exists c' p,
    List.find (has_name name) (snd (decode_IPConfigurations [] l)) = Some c'
    /\ ipc_Name c' = Some name
    /\ ipc_Properties c' = Some p
    /\ fst (decode_IPConfigurations [] l) !! p = Some pv
    /\ forall np,
         map (encode_IPConfiguration (<[p := np]> (fst (decode_IPConfigurations [] l))))
           (map (fun v => if has_name name v then c' else v)
              (snd (decode_IPConfigurations [] l)))
         = replace_named name (with_Properties c (Some np)) l.
Proof.
  intros Hfind Hpv.
  destruct (find_split _ _ _ Hfind) as (pre & post & -> & Hc & Hpre).
  rewrite decode_IPConfigurations_app.
  pose proof (decode_IPConfigurations_names name pre []) as Hnames.
  pose proof (encode_decode_IPConfigurations name) as Henc_pre.
  specialize (fun c' H => Henc_pre c' pre [] H).
  destruct (decode_IPConfigurations [] pre) as [h1 pre'] eqn:Hdpre. simpl in Hnames, Henc_pre.
  simpl. rewrite Hpv.
  pose proof (encode_decode_IPConfigurations name) as Henc_post.
  specialize (fun c' H => Henc_post c' post (h1 ++ [pv]) H).
  destruct (decode_IPConfigurations_extends post (h1 ++ [pv])) as [extra He].
  destruct (decode_IPConfigurations (h1 ++ [pv]) post) as [h2 post'] eqn:Hdpost.
  simpl in *. subst h2.
  assert (Hname : ipc_Name c = Some name).
  { unfold has_name in Hc. destruct (ipc_Name c) as [n|]; [|discriminate].
    apply String.eqb_eq in Hc. now subst. }
  exists (with_Properties c (Some (length h1))), (length h1).
  split; [|split; [exact Hname|split; [reflexivity|split]]].
  - apply find_app_first; [|exact Hc].
    rewrite Hnames. clear -Hpre. induction Hpre; simpl; constructor; auto.
  - rewrite <- app_assoc. rewrite lookup_app_r by lia.
    replace (length h1 - length h1) with 0 by lia. reflexivity.
  - intros np.
    assert (Hc' : encode_IPConfiguration (<[length h1 := np]> ((h1 ++ [pv]) ++ extra))
                    (with_Properties c (Some (length h1)))
                  = with_Properties c (Some np)).
    { unfold encode_IPConfiguration. simpl.
      rewrite list_lookup_insert_eq by (rewrite !length_app; simpl; lia).
      reflexivity. }
    rewrite !map_app. simpl.
    change (has_name name (with_Properties c (Some (length h1)))) with (has_name name c).
    rewrite Hc. unfold replace_named at 1. rewrite map_app. simpl. rewrite Hc.
    f_equal; [|f_equal].
    + rewrite Henc_pre.
      * rewrite Hc'. reflexivity.
      * intros a _ Ha. rewrite list_lookup_insert_ne by lia.
        rewrite <- app_assoc. now rewrite lookup_app_l by lia.
    + exact Hc'.
    + rewrite Henc_post.
      * rewrite Hc'. reflexivity.
      * intros a Hlo _. rewrite length_app in Hlo. simpl in Hlo.
        now rewrite list_lookup_insert_ne by lia.
Qed.

(** ** What the association handlers write *)

Lemma writes_app (tr1 tr2 : list Event) : writes (tr1 ++ tr2) = writes tr1 ++ writes tr2.
Proof.
  induction tr1 as [|e tr1 IH]; simpl; [reflexivity|].
  destruct e; simpl; now rewrite ?IH.
Qed.

Lemma read_only_exec {A} (p : Prog A) :
  read_only p -> forall (w : World) (past : list Event),
  writes (fst (exec w past p)) = writes past.
Proof.
  induction p as [a|msg|n t k IH|n t k IH|l k IH|l k IH|rg n k IH|rg n b k IH|rg n k IH
                  |k IH|id k IH|key v k IH];
    intros Hp w past; simpl in Hp |- *; try reflexivity; try contradiction.
  all: rewrite IH by auto; rewrite writes_app; simpl; now rewrite app_nil_r.
Qed.

Lemma existingPools_loop_spec (existing : list BackendAddressPool)
    (backendAddressPoolId resourceId : string) (pools : list BackendAddressPool) :
  existingPools_loop existing backendAddressPoolId resourceId pools
  = if existsb (is_pool backendAddressPoolId) existing
    then Err (ImportAsExistsError
                "azurerm_network_interface_backend_address_pool_association" resourceId)
    else Ok (pools ++ List.filter (other_pool backendAddressPoolId) existing).
Proof.
  revert pools. induction existing as [|pool rest IH]; intros pools; simpl.
  - now rewrite app_nil_r.
  - unfold is_pool at 1, other_pool at 1.
    destruct (bap_ID pool) as [id|]; simpl; [|apply IH].
    destruct (String.eqb id backendAddressPoolId); simpl; [reflexivity|].
    rewrite IH. destruct (existsb _ rest); [reflexivity|].
    now rewrite <- app_assoc.
Qed.

Lemma removePool_loop_spec (backendPools : list BackendAddressPool)
    (backendAddressPoolId : string) (acc : list BackendAddressPool) :
  removePool_loop backendPools backendAddressPoolId acc
  = acc ++ List.filter (other_pool backendAddressPoolId) backendPools.
Proof.
  revert acc. induction backendPools as [|pool rest IH]; intros acc; simpl.
  - now rewrite app_nil_r.
  - unfold other_pool at 1.
    destruct (bap_ID pool) as [id|]; simpl; [|apply IH].
    destruct (String.eqb id backendAddressPoolId); simpl; [apply IH|].
    rewrite IH. now rewrite <- app_assoc.
Qed.

Ltac walk_read_only :=
  repeat (cbn [read_only bind defer_ lift]; try exact I; intros; try branch).

Section Association.
Context `{D : Deps}.

Lemma association_Read_read_only (d : AssociationData) (meta : Meta) (n t : string) :
  read_only (defer_ (LocksUnlockByName n t (Ret tt))
               (loadBalancerBackendAddressPoolAssociationRead d meta)).
Proof. unfold loadBalancerBackendAddressPoolAssociationRead. walk_read_only. Qed.

End Association.

Section AssociationWrites.
Context `{D : Deps}.

Lemma decode_Interface_configs (nic : InterfaceW) (props : PropertiesW) (l : list IPConfigW) :
  nic_Properties nic = Some props ->
  IPConfigurations props = Some l ->
  decode_Interface nic
  = (fst (decode_IPConfigurations [] l),
     with_InterfacePropertiesFormat nic
       (Some (with_IPConfigurations props (Some (snd (decode_IPConfigurations [] l)))))).
Proof.
  intros Hprops Hl. unfold decode_Interface. rewrite Hprops, Hl.
  now destruct (decode_IPConfigurations [] l).
Qed.

(** C1, amended: for an interface whose properties and IP configurations are
    not nil, that holds an IP configuration of the requested name with
    properties, none of whose pools has the requested ID,
    [loadBalancerBackendAddressPoolAssociationCreateUpdate] makes one write:
    the interface as read, with, in the named IP configuration, the pools that
    had an ID, in their order, followed by the requested pool, and with every
    other IP configuration and every other field as read. *)
Theorem association_CreateUpdate_writes (w : World) (d : AssociationData) (meta : Meta)
    (id : NetworkInterfaceId) (nic : InterfaceW) (props : PropertiesW) (l : list IPConfigW)
    (c : IPConfigW) (pv : InterfaceIPConfigurationPropertiesFormat) :
  parse_NetworkInterfaceID (network_interface_id d) = Ok id ->
  onGet w [EvLock (nicid_Name id) networkInterfaceResourceName]
    (nicid_ResourceGroup id) (nicid_Name id) = GetOk nic ->
  nic_Properties nic = Some props ->
  IPConfigurations props = Some l ->
  FindNetworkInterfaceIPConfiguration (Some l) (ip_configuration_name d) = Some c ->
  ipc_Properties c = Some pv ->
  existsb (is_pool (backend_address_pool_id d)) (pools_of c) = false ->
  writes (fst (run w (loadBalancerBackendAddressPoolAssociationCreateUpdate d meta)))
  = [ (nicid_ResourceGroup id, nicid_Name id,
       with_configs nic
         (replace_named (ip_configuration_name d)
            (set_pools c
               (List.filter (other_pool (backend_address_pool_id d)) (pools_of c)
                ++ [new_pool (backend_address_pool_id d)]))
            l)) ].
Proof.
  intros Hparse Hget Hprops Hl Hfind Hpv Hnew.
  unfold run, loadBalancerBackendAddressPoolAssociationCreateUpdate. rewrite Hparse.
  cbn [exec defer_ app]. rewrite Hget. cbn [exec defer_ app].
  rewrite (decode_Interface_configs _ _ _ Hprops Hl).
  destruct (decode_find_store_encode _ _ _ _ Hfind Hpv) as (c' & p & Hfind' & Hname' & Hp & Hload & Henc).
  cbn [nic_Properties with_InterfacePropertiesFormat IPConfigurations with_IPConfigurations
       FindNetworkInterfaceIPConfiguration].
  rewrite Hfind', Hp. unfold load. rewrite Hload. cbn [lift bind].
  assert (Hpools :
            match LoadBalancerBackendAddressPools pv with
            | Some existing =>
                existingPools_loop existing (backend_address_pool_id d)
                  (network_interface_id d ++ "/ipConfigurations/" ++ ip_configuration_name d
                   ++ "|" ++ backend_address_pool_id d)%string []
            | None => Ok []
            end
            = Ok (List.filter (other_pool (backend_address_pool_id d)) (pools_of c))).
  { unfold pools_of in Hnew |- *. rewrite Hpv in Hnew |- *.
    destruct (LoadBalancerBackendAddressPools pv); [|reflexivity].
    rewrite existingPools_loop_spec, Hnew. reflexivity. }
  rewrite Hpools. cbn [defer_ exec].
  rewrite read_only_exec.
  2:{ destruct (onCreateOrUpdate _ _ _ _ _); [exact I|].
      cbn [defer_ read_only]. intros [e|]; [exact I|].
      cbn [defer_ read_only]. apply association_Read_read_only. }
  rewrite writes_app. cbn [writes app]. do 2 f_equal.
  unfold encode_Interface, updateNetworkInterfaceIPConfiguration, store.
  cbn [nic_Properties with_InterfacePropertiesFormat IPConfigurations with_IPConfigurations].
  rewrite Hname', Henc.
  unfold with_configs, set_pools. rewrite Hprops, Hpv.
  destruct nic, props; reflexivity.
Qed.
(** C3: for an interface that holds the named IP configuration with
    properties, [loadBalancerBackendAddressPoolAssociationDelete] makes one
    write: the interface as read, with, in the named IP configuration, the
    pools as they were less the pools of the association's ID and the pools
    without an ID, in their order, and with every other IP configuration as
    read. *)
Theorem association_Delete_writes (w : World) (d : AssociationData) (meta : Meta)
    (s0 backendAddressPoolId : string) (nicID : NetworkInterfaceIpConfigurationId)
    (nic : InterfaceW) (props : PropertiesW) (l : list IPConfigW)
    (c : IPConfigW) (pv : InterfaceIPConfigurationPropertiesFormat) :
  Split (assoc_Id d) pipe = [s0; backendAddressPoolId] ->
  parse_NetworkInterfaceIpConfigurationID s0 = Ok nicID ->
  onGet w [EvLock (ipcid_NetworkInterfaceName nicID) networkInterfaceResourceName]
    (ipcid_ResourceGroup nicID) (ipcid_NetworkInterfaceName nicID) = GetOk nic ->
  nic_Properties nic = Some props ->
  IPConfigurations props = Some l ->
  FindNetworkInterfaceIPConfiguration (Some l) (ipcid_IpConfigurationName nicID) = Some c ->
  ipc_Properties c = Some pv ->
  writes (fst (run w (loadBalancerBackendAddressPoolAssociationDelete d meta)))
  = [ (ipcid_ResourceGroup nicID, ipcid_NetworkInterfaceName nicID,
       with_configs nic
         (replace_named (ipcid_IpConfigurationName nicID)
            (set_pools c (List.filter (other_pool backendAddressPoolId) (pools_of c)))
            l)) ].
Proof.
  intros Hsplit Hparse Hget Hprops Hl Hfind Hpv.
  unfold run, loadBalancerBackendAddressPoolAssociationDelete.
  rewrite Hsplit. cbn [length Nat.eqb negb index lookup list_lookup lift bind].
  rewrite Hparse.
  cbn [exec defer_ app]. rewrite Hget. cbn [exec defer_ app].
  rewrite (decode_Interface_configs _ _ _ Hprops Hl).
  destruct (decode_find_store_encode _ _ _ _ Hfind Hpv)
    as (c' & p & Hfind' & Hname' & Hp & Hload & Henc).
  cbn [nic_Properties with_InterfacePropertiesFormat IPConfigurations with_IPConfigurations
       FindNetworkInterfaceIPConfiguration].
  rewrite Hfind', Hp. unfold load. rewrite Hload. cbn [lift bind defer_ exec].
  rewrite read_only_exec.
  2:{ destruct (onCreateOrUpdate _ _ _ _ _); [exact I|].
      cbn [defer_ read_only]. intros [e|]; exact I. }
  rewrite writes_app. cbn [writes app]. do 2 f_equal.
  unfold encode_Interface, updateNetworkInterfaceIPConfiguration, store.
  cbn [nic_Properties with_InterfacePropertiesFormat IPConfigurations with_IPConfigurations].
  rewrite Hname', Henc.
  unfold with_configs, set_pools, pools_of. rewrite Hprops, Hpv.
  destruct (LoadBalancerBackendAddressPools pv);
    rewrite ?removePool_loop_spec; destruct nic, props; reflexivity.
Qed.

(** C4: when the named IP configuration already has a pool of the requested
    ID, [loadBalancerBackendAddressPoolAssociationCreateUpdate] reads the
    interface, calls nothing else but the unlock and returns the
    import-as-exists error; for a new resource, [networkInterfaceCreate]
    returns the import-as-exists error after the one [Get] that found the
    interface. *)
Theorem import_as_exists (w : World) (a : AssociationData) (d : NetworkInterfaceData)
    (meta : Meta) :
  (forall (id : NetworkInterfaceId) (nic : InterfaceW) (props : PropertiesW)
          (l : list IPConfigW) (c : IPConfigW),
     parse_NetworkInterfaceID (network_interface_id a) = Ok id ->
     onGet w [EvLock (nicid_Name id) networkInterfaceResourceName]
       (nicid_ResourceGroup id) (nicid_Name id) = GetOk nic ->
     nic_Properties nic = Some props ->
     IPConfigurations props = Some l ->
     FindNetworkInterfaceIPConfiguration (Some l) (ip_configuration_name a) = Some c ->
     existsb (is_pool (backend_address_pool_id a)) (pools_of c) = true ->
     run w (loadBalancerBackendAddressPoolAssociationCreateUpdate a meta)
     = ([ EvLock (nicid_Name id) networkInterfaceResourceName;
          EvGet (nicid_ResourceGroup id) (nicid_Name id) (GetOk nic);
          EvUnlock (nicid_Name id) networkInterfaceResourceName ],
        Returned (Some (ImportAsExistsError
                          "azurerm_network_interface_backend_address_pool_association"
                          (association_ID a)))))
  /\ (forall existing : InterfaceW,
        let id := parse_NewNetworkInterfaceID (SubscriptionId meta)
                    (d_resource_group_name d) (d_name d) in
        d_IsNewResource d = true ->
        onGet w [] (nicid_ResourceGroup id) (nicid_Name id) = GetOk existing ->
        run w (networkInterfaceCreate d meta)
        = ([ EvGet (nicid_ResourceGroup id) (nicid_Name id) (GetOk existing) ],
           Returned (Some (ImportAsExistsError "azurestack_network_interface"
                             (NetworkInterfaceId_ID id))))).
Proof.
  split.
  - intros id nic props l c Hparse Hget Hprops Hl Hfind Hold.
    assert (Hpv : exists pv, ipc_Properties c = Some pv).
    { unfold pools_of in Hold. destruct (ipc_Properties c); [eauto|discriminate]. }
    destruct Hpv as [pv Hpv].
    unfold run, loadBalancerBackendAddressPoolAssociationCreateUpdate. rewrite Hparse.
    cbn [exec defer_ app]. rewrite Hget. cbn [exec defer_ app].
    rewrite (decode_Interface_configs _ _ _ Hprops Hl).
    destruct (decode_find_store_encode _ _ _ _ Hfind Hpv)
      as (c' & p & Hfind' & Hname' & Hp & Hload & Henc).
    cbn [nic_Properties with_InterfacePropertiesFormat IPConfigurations with_IPConfigurations
         FindNetworkInterfaceIPConfiguration].
    rewrite Hfind', Hp. unfold load. rewrite Hload. cbn [lift bind].
    unfold pools_of in Hold. rewrite Hpv in Hold.
    destruct (LoadBalancerBackendAddressPools pv) as [existing|]; [|discriminate].
    rewrite existingPools_loop_spec, Hold. reflexivity.
  - intros existing id Hnew Hget.
    unfold run, networkInterfaceCreate. rewrite Hnew. fold id.
    cbn [bind exec]. rewrite Hget. reflexivity.
Qed.

End AssociationWrites.

(** C1 as stated does not hold on an interface whose named IP configuration
    already is in the requested pool: nothing is written. *)
Lemma association_CreateUpdate_writes_nothing :
  run (sample_world (Some (sample_nic
         [sample_cfg0; sample_config "cfg1" (Some [sample_pool (Some sample_pool_a)])])))
    (loadBalancerBackendAddressPoolAssociationCreateUpdate (D := sample_deps)
       (sample_association sample_pool_a) sample_meta)
  = ([ EvLock "nic1" "azurestack_network_interface";
       EvGet "rg1" "nic1" (GetOk (sample_nic
         [sample_cfg0; sample_config "cfg1" (Some [sample_pool (Some sample_pool_a)])]));
       EvUnlock "nic1" "azurestack_network_interface" ],
     Returned (Some (ImportAsExistsError
                       "azurerm_network_interface_backend_address_pool_association"
                       (sample_nic_id ++ "/ipConfigurations/cfg1|" ++ sample_pool_a)%string))).
Proof. reflexivity. Qed.

(** C1 on the sample interface: [cfg1], in the pool [b] and in a pool
    without ID, is associated with the pool [a]. *)
Lemma association_CreateUpdate_writes_witness :
  writes (fst (run
    (sample_world (Some (sample_nic
       [sample_cfg0;
        sample_config "cfg1" (Some [sample_pool (Some sample_pool_b); sample_pool None])])))
    (loadBalancerBackendAddressPoolAssociationCreateUpdate (D := sample_deps)
       (sample_association sample_pool_a) sample_meta)))
  = [ ("rg1", "nic1",
       sample_nic
         [sample_cfg0;
          sample_config "cfg1"
            (Some [sample_pool (Some sample_pool_b);
                   {| bap_ID := Some sample_pool_a; bap_Name := None; bap_Etag := None |}])]) ].
Proof.
  exact (association_CreateUpdate_writes (D := sample_deps)
           (sample_world (Some (sample_nic
              [sample_cfg0;
               sample_config "cfg1"
                 (Some [sample_pool (Some sample_pool_b); sample_pool None])])))
           (sample_association sample_pool_a) sample_meta sample_id _ _ _ _ _
           eq_refl eq_refl eq_refl eq_refl eq_refl eq_refl eq_refl).
Defined.

(** C3 on the sample interface: the association of [cfg1] with the pool
    [a] is deleted. *)
Lemma association_Delete_writes_witness :
  writes (fst (run
    (sample_world (Some (sample_nic
       [sample_cfg0;
        sample_config "cfg1"
          (Some [sample_pool (Some sample_pool_b); sample_pool None;
                 sample_pool (Some sample_pool_a)])])))
    (loadBalancerBackendAddressPoolAssociationDelete (D := sample_deps)
       (sample_association sample_pool_a) sample_meta)))
  = [ ("rg1", "nic1",
       sample_nic
         [sample_cfg0; sample_config "cfg1" (Some [sample_pool (Some sample_pool_b)])]) ].
Proof.
  exact (association_Delete_writes (D := sample_deps)
           (sample_world (Some (sample_nic
              [sample_cfg0;
               sample_config "cfg1"
                 (Some [sample_pool (Some sample_pool_b); sample_pool None;
                        sample_pool (Some sample_pool_a)])])))
           (sample_association sample_pool_a) sample_meta _ _ sample_ipc_id _ _ _ _ _
           eq_refl eq_refl eq_refl eq_refl eq_refl eq_refl eq_refl).
Defined.

(** C4 on the sample interface: [cfg1] already is in the pool [a]; the
    interface [nic1] already exists. *)
Lemma import_as_exists_witness :
  run (sample_world (Some (sample_nic
         [sample_cfg0; sample_config "cfg1" (Some [sample_pool (Some sample_pool_a)])])))
    (loadBalancerBackendAddressPoolAssociationCreateUpdate (D := sample_deps)
       (sample_association sample_pool_a) sample_meta)
  = ([ EvLock "nic1" "azurestack_network_interface";
       EvGet "rg1" "nic1" (GetOk (sample_nic
         [sample_cfg0; sample_config "cfg1" (Some [sample_pool (Some sample_pool_a)])]));
       EvUnlock "nic1" "azurestack_network_interface" ],
     Returned (Some (ImportAsExistsError
                       "azurerm_network_interface_backend_address_pool_association"
                       (sample_nic_id ++ "/ipConfigurations/cfg1|" ++ sample_pool_a)%string)))
  /\ run (sample_world (Some (sample_nic [sample_cfg0])))
       (networkInterfaceCreate (D := sample_deps) sample_data sample_meta)
     = ([ EvGet "rg1" "nic1" (GetOk (sample_nic [sample_cfg0])) ],
        Returned (Some (ImportAsExistsError "azurestack_network_interface" sample_nic_id))).
Proof.
  split.
  - exact (proj1 (import_as_exists (D := sample_deps)
             (sample_world (Some (sample_nic
                [sample_cfg0; sample_config "cfg1" (Some [sample_pool (Some sample_pool_a)])])))
             (sample_association sample_pool_a) sample_data sample_meta)
             sample_id _ _ _ _ eq_refl eq_refl eq_refl eq_refl eq_refl eq_refl).
  - exact (proj2 (import_as_exists (D := sample_deps)
             (sample_world (Some (sample_nic [sample_cfg0])))
             (sample_association sample_pool_a) sample_data sample_meta)
             _ eq_refl eq_refl).
Defined.

(** ** What [networkInterfaceUpdate] sends *)

Ltac crawl :=
  repeat (cbn [exec bind defer_ lift fst snd writes app]; try branch).

Section Update.
Context `{D : Deps}.

Lemma networkInterfaceUpdate_safe (w : World) (d : NetworkInterfaceData) (meta : Meta) :
  Forall (fun '(rg, n, update) =>
            exists existing,
              In (EvGet rg n (GetOk existing)) (fst (run w (networkInterfaceUpdate d meta)))
              /\ carried_over d existing update)
    (writes (fst (run w (networkInterfaceUpdate d meta)))).
Proof.
  unfold run, networkInterfaceUpdate.
  crawl.
  all: try solve [constructor].
  all: constructor; [|constructor]; eexists; split; [simpl; eauto|].
  all: unfold carried_over; do 2 eexists.
  all: repeat match goal with |- _ /\ _ => split end.
  all: try eassumption; try reflexivity; intros; try congruence.
  all: unfold dns_servers_of; cbn [DNSSettings DNSServers];
       match goal with H : DNSSettings _ = Some _ |- _ => rewrite H end; reflexivity.
Qed.

Lemma networkInterfaceUpdate_sends (w : World) (d : NetworkInterfaceData) (meta : Meta)
    (id : NetworkInterfaceId) (existing : InterfaceW) (existingProps : PropertiesW) :
  parse_NetworkInterfaceID (d_Id d) = Ok id ->
  onGet w [EvLock (nicid_Name id) networkInterfaceResourceName]
    (nicid_ResourceGroup id) (nicid_Name id) = GetOk existing ->
  nic_Properties existing = Some existingProps ->
  (if d_HasChange d "dns_servers"
   then exists dnsServers,
       expandNetworkInterfaceDnsServers (d_dns_servers d) = Returned dnsServers
   else DNSSettings existingProps <> None) ->
  (if d_HasChange d "ip_configuration"
   then exists ipConfigs lockingDetails,
       expandNetworkInterfaceIPConfigurations (d_ip_configuration d) = Returned (Ok ipConfigs)
       /\ determineResourcesToLockFromIPConfiguration (Some ipConfigs) = Ok lockingDetails
   else True) ->
  exists update,
    writes (fst (run w (networkInterfaceUpdate d meta)))
    = [ (nicid_ResourceGroup id, nicid_Name id, update) ].
Proof.
  intros Hparse Hget Hprops Hdns Hip.
  unfold run, networkInterfaceUpdate. rewrite Hparse.
  cbn [exec defer_ app]. rewrite Hget. cbn [exec defer_ app]. rewrite Hprops.
  destruct (d_HasChange d "dns_servers").
  - destruct Hdns as [dnsServers ->].
    destruct (d_HasChange d "ip_configuration").
    + destruct Hip as (ipConfigs & lockingDetails & -> & Hlock).
      cbn [lift bind]. rewrite Hlock. crawl. all: eexists; reflexivity.
    + crawl. all: eexists; reflexivity.
  - destruct (DNSSettings existingProps) as [dnsSettings|]; [|congruence].
    destruct (d_HasChange d "ip_configuration").
    + destruct Hip as (ipConfigs & lockingDetails & -> & Hlock).
      cbn [lift bind]. rewrite Hlock. crawl. all: eexists; reflexivity.
    + crawl. all: eexists; reflexivity.
Qed.

End Update.

(** What [networkInterfaceUpdate] carries over where it sends: every
    interface that it sends follows a [Get] of the same name, and has the
    security group of the interface read and, for each of [dns_servers],
    [enable_ip_forwarding], [ip_configuration] and [tags] of which [d]
    reports no change, the value of the interface read; and it does send one
    when the interface is read with properties, the DNS settings it takes
    the servers from are not nil, and the changed blocks expand. *)
Theorem networkInterfaceUpdate_carries_over `{D : Deps} (w : World)
    (d : NetworkInterfaceData) (meta : Meta) :
  Forall (fun '(rg, n, update) =>
            exists existing,
              In (EvGet rg n (GetOk existing)) (fst (run w (networkInterfaceUpdate d meta)))
              /\ carried_over d existing update)
    (writes (fst (run w (networkInterfaceUpdate d meta))))
  /\ forall (id : NetworkInterfaceId) (existing : InterfaceW) (existingProps : PropertiesW),
       parse_NetworkInterfaceID (d_Id d) = Ok id ->
       onGet w [EvLock (nicid_Name id) networkInterfaceResourceName]
         (nicid_ResourceGroup id) (nicid_Name id) = GetOk existing ->
       nic_Properties existing = Some existingProps ->
       (if d_HasChange d "dns_servers"
        then exists dnsServers,
            expandNetworkInterfaceDnsServers (d_dns_servers d) = Returned dnsServers
        else DNSSettings existingProps <> None) ->
       (if d_HasChange d "ip_configuration"
        then exists ipConfigs lockingDetails,
            expandNetworkInterfaceIPConfigurations (d_ip_configuration d)
            = Returned (Ok ipConfigs)
            /\ determineResourcesToLockFromIPConfiguration (Some ipConfigs)
               = Ok lockingDetails
        else True) ->
       exists update,
         writes (fst (run w (networkInterfaceUpdate d meta)))
         = [ (nicid_ResourceGroup id, nicid_Name id, update) ].
Proof.
  split; [apply networkInterfaceUpdate_safe|].
  intros id existing existingProps. apply networkInterfaceUpdate_sends.
Qed.

Example networkInterfaceUpdate_tags_only :
  writes (fst (run (sample_world (Some (sample_nic [sample_cfg0])))
    (networkInterfaceUpdate (D := sample_deps)
       {| d_Id := sample_nic_id; d_IsNewResource := false;
          d_HasChange := fun k => String.eqb k "tags";
          d_name := "nic1"; d_resource_group_name := "rg1"; d_location := "local";
          d_enable_ip_forwarding := true; d_tags := VMap []; d_dns_servers := [];
          d_dns_servers_ok := false; d_ip_configuration := [] |} sample_meta)))
  = [ ("rg1", "nic1",
       {| nic_Properties := Some
            {| VirtualMachine := None;
               NetworkSecurityGroup := Some {| nsg_ID := Some "nsg1" |};
               IPConfigurations := Some [sample_cfg0];
               DNSSettings := Some
                 {| DNSServers := Some ["10.0.0.2"]; AppliedDNSServers := None;
                    InternalDNSNameLabel := None; InternalDomainNameSuffix := None |};
               MacAddress := None;
               EnableIPForwarding := Some false;
               nic_ProvisioningState := None |};
          nic_Etag := None; nic_ID := None; nic_Name := Some "nic1"; nic_Type := None;
          nic_Location := Some "local"; nic_Tags := None |}) ].
Proof. reflexivity. Qed.

Example networkInterfaceUpdate_nil_DNSSettings :
  snd (run (sample_world (Some
         {| nic_Properties := Some
              {| VirtualMachine := None; NetworkSecurityGroup := None;
                 IPConfigurations := None; DNSSettings := None; MacAddress := None;
                 EnableIPForwarding := None; nic_ProvisioningState := None |};
            nic_Etag := None; nic_ID := None; nic_Name := Some "nic1"; nic_Type := None;
            nic_Location := None; nic_Tags := None |}))
    (networkInterfaceUpdate (D := sample_deps)
       {| d_Id := sample_nic_id; d_IsNewResource := false;
          d_HasChange := fun k => String.eqb k "tags";
          d_name := "nic1"; d_resource_group_name := "rg1"; d_location := "local";
          d_enable_ip_forwarding := true; d_tags := VMap []; d_dns_servers := [];
          d_dns_servers_ok := false; d_ip_configuration := [] |} sample_meta))
  = Panicked "invalid memory address or nil pointer dereference".
Proof. reflexivity. Qed.

(** C6: the claim fails where the interface read has properties without DNS
    settings and [d] reports no change of [dns_servers]:
    [networkInterfaceUpdate] takes the servers to carry over through the nil
    [DNSSettings] of the interface read, so it panics after the [Get],
    releases the lock, and sends nothing, whatever else has changed.
    [networkInterfaceRead] tests the same pointer for nil before it reads
    through it. *)
Theorem networkInterfaceUpdate_nil_DNSSettings_panics `{D : Deps} (w : World)
    (d : NetworkInterfaceData) (meta : Meta) (id : NetworkInterfaceId)
    (existing : InterfaceW) (existingProps : PropertiesW) :
  parse_NetworkInterfaceID (d_Id d) = Ok id ->
  onGet w [EvLock (nicid_Name id) networkInterfaceResourceName]
    (nicid_ResourceGroup id) (nicid_Name id) = GetOk existing ->
  nic_Properties existing = Some existingProps ->
  DNSSettings existingProps = None ->
  d_HasChange d "dns_servers" = false ->
  run w (networkInterfaceUpdate d meta)
  = ([ EvLock (nicid_Name id) networkInterfaceResourceName;
       EvGet (nicid_ResourceGroup id) (nicid_Name id) (GetOk existing);
       EvUnlock (nicid_Name id) networkInterfaceResourceName ],
     Panicked "invalid memory address or nil pointer dereference").
Proof.
  intros Hparse Hget Hprops Hdns Hsame.
  unfold run, networkInterfaceUpdate. rewrite Hparse.
  cbn [exec defer_ app]. rewrite Hget. cbn [exec defer_ app].
  rewrite Hprops, Hsame, Hdns. reflexivity.
Qed.

(** C6 at the failing input: a change of [tags] alone, on an interface that
    the service answers with properties and no DNS settings. *)
Lemma networkInterfaceUpdate_nil_DNSSettings_panics_witness :
  run (sample_world (Some
         {| nic_Properties := Some
              {| VirtualMachine := None;
                 NetworkSecurityGroup := Some {| nsg_ID := Some "nsg1" |};
                 IPConfigurations := Some [sample_cfg0]; DNSSettings := None;
                 MacAddress := None; EnableIPForwarding := Some false;
                 nic_ProvisioningState := Some "Succeeded" |};
            nic_Etag := None; nic_ID := Some sample_nic_id; nic_Name := Some "nic1";
            nic_Type := None; nic_Location := Some "local"; nic_Tags := None |}))
    (networkInterfaceUpdate (D := sample_deps)
       {| d_Id := sample_nic_id; d_IsNewResource := false;
          d_HasChange := fun k => String.eqb k "tags";
          d_name := "nic1"; d_resource_group_name := "rg1"; d_location := "local";
          d_enable_ip_forwarding := false; d_tags := VMap []; d_dns_servers := [];
          d_dns_servers_ok := false; d_ip_configuration := [raw sample_block] |} sample_meta)
  = ([ EvLock "nic1" "azurestack_network_interface";
       EvGet "rg1" "nic1" (GetOk
         {| nic_Properties := Some
              {| VirtualMachine := None;
                 NetworkSecurityGroup := Some {| nsg_ID := Some "nsg1" |};
                 IPConfigurations := Some [sample_cfg0]; DNSSettings := None;
                 MacAddress := None; EnableIPForwarding := Some false;
                 nic_ProvisioningState := Some "Succeeded" |};
            nic_Etag := None; nic_ID := Some sample_nic_id; nic_Name := Some "nic1";
            nic_Type := None; nic_Location := Some "local"; nic_Tags := None |});
       EvUnlock "nic1" "azurestack_network_interface" ],
     Panicked "invalid memory address or nil pointer dereference").
Proof.
  eapply (networkInterfaceUpdate_nil_DNSSettings_panics (D := sample_deps) _ _ sample_meta
            sample_id); reflexivity.
Defined.

(** An interface without DNS settings is what [networkInterfaceCreate] sends
    when no [dns_servers] are configured: on a service that stores what it
    is sent, the create of the sample configuration and then an update of
    its [tags] ends in the panic, and the update sends nothing. *)
Example networkInterfaceCreate_then_Update_panics :
  snd (run (sample_world None)
         (networkInterfaceCreate (D := sample_deps) sample_data sample_meta))
  = Returned None
  /\ snd (after_run (sample_world None)
            (networkInterfaceCreate (D := sample_deps) sample_data sample_meta)
            (networkInterfaceUpdate (D := sample_deps)
               {| d_Id := sample_nic_id; d_IsNewResource := false;
                  d_HasChange := fun k => String.eqb k "tags";
                  d_name := "nic1"; d_resource_group_name := "rg1"; d_location := "local";
                  d_enable_ip_forwarding := false; d_tags := VMap []; d_dns_servers := [];
                  d_dns_servers_ok := false; d_ip_configuration := [raw sample_block] |}
               sample_meta))
     = Panicked "invalid memory address or nil pointer dereference"
  /\ length (writes (fst (after_run (sample_world None)
            (networkInterfaceCreate (D := sample_deps) sample_data sample_meta)
            (networkInterfaceUpdate (D := sample_deps)
               {| d_Id := sample_nic_id; d_IsNewResource := false;
                  d_HasChange := fun k => String.eqb k "tags";
                  d_name := "nic1"; d_resource_group_name := "rg1"; d_location := "local";
                  d_enable_ip_forwarding := false; d_tags := VMap []; d_dns_servers := [];
                  d_dns_servers_ok := false; d_ip_configuration := [raw sample_block] |}
               sample_meta))))
     = 1.
Proof. repeat split. Qed.

(** ** Handlers that meet at a lock *)

Lemma complete_step {A} (s s' : Service) (p p' : Prog A) :
  thread_step s p = Some (s', p') -> complete s p = complete s' p'.
Proof.
  destruct p; simpl; try discriminate; try (intros [= <- <-]; reflexivity).
  destruct (decide _); [discriminate|]. intros [= <- <-]. reflexivity.
Qed.

Lemma complete_terminated {A} (s : Service) (p : Prog A) :
  terminated p -> complete s p = s.
Proof. destruct p; simpl; intros H; now try contradiction. Qed.

Lemma terminated_no_step {A} (s : Service) (p : Prog A) :
  terminated p -> thread_step s p = None.
Proof. destruct p; simpl; intros H; now try contradiction. Qed.

(** Inside its critical section a handler makes a call, keeps the lock
    while it is inside, and is over once it let the lock go. *)
Lemma critical_step {A} (n t : string) (s : Service) (p : Prog A) :
  critical n t p -> (n, t) ∈ held s ->
  exists s' p',
    thread_step s p = Some (s', p')
    /\ ((critical n t p' /\ (n, t) ∈ held s')
        \/ (terminated p' /\ held s' = held s ∖ {[ (n, t) ]})).
Proof.
  destruct p; simpl; intros Hc Hheld; try contradiction; eauto 8.
  destruct Hc as (-> & -> & Hk). eauto 8.
Qed.

Lemma held_after (n t : string) (b : Prog (option error)) (s : Service) :
  critical n t b -> (n, t) ∉ held s -> (n, t) ∉ held (after n t b s).
Proof.
  intros Hb Hfree. unfold after.
  assert (Hgen : forall (p : Prog (option error)) s1,
             critical n t p -> (n, t) ∈ held s1 -> (n, t) ∉ held (complete s1 p)).
  { induction p as [a|msg|n' t' k IH|n' t' k IH|l k IH|l k IH|rg n' k IH|rg n' body k IH
                    |rg n' k IH|k IH|id k IH|key v k IH];
      simpl; intros s1 Hc Hs1; try contradiction; eauto.
    destruct Hc as (-> & -> & Hk). rewrite (complete_terminated _ _ Hk). simpl.
    intros Hin. apply elem_of_difference in Hin as [_ Hin].
    apply Hin. now apply elem_of_singleton. }
  apply Hgen; [exact Hb|]. unfold lock. simpl. set_solver.
Qed.

Lemma critical_not_terminated {A} (n t : string) (p : Prog A) :
  critical n t p -> terminated p -> False.
Proof. destruct p; simpl; auto. Qed.

Section Serial.
Variables (n t : string) (b1 b2 : Prog (option error)).
Hypothesis critical_b1 : critical n t b1.
Hypothesis critical_b2 : critical n t b2.

Lemma serial_step (s0 : Service) (S S' : System) :
  (n, t) ∉ held s0 -> serial n t b1 b2 s0 S -> step S S' -> serial n t b1 b2 s0 S'.
Proof.
  intros Hfree HS Hstep.
  destruct Hstep as [S i p p' s' Hi Hp].
  assert (Hin : forall s (q : Prog (option error)) b s1 q',
             (n, t) ∈ held s -> critical n t q -> complete s q = after n t b s1 ->
             thread_step s q = Some (s', q') ->
             (critical n t q' /\ (n, t) ∈ held s' /\ complete s' q' = after n t b s1)
             \/ (terminated q' /\ s' = after n t b s1)).
  { intros s q b s1 q' Hheld Hcrit Hcomp Hq.
    destruct (critical_step _ _ _ _ Hcrit Hheld) as (s2 & q2 & Hq2 & Hcase).
    rewrite Hq2 in Hq. injection Hq as <- <-.
    rewrite (complete_step _ _ _ _ Hq2) in Hcomp.
    destruct Hcase as [[Hc Hh]|[Ht Hh]]; [left; auto|right].
    split; [exact Ht|]. now rewrite (complete_terminated _ _ Ht) in Hcomp. }
  destruct HS as [|s p1 Hheld Hcrit Hcomp|s p2 Hheld Hcrit Hcomp|p1 Ht1|p2 Ht2
                  |s p1 p2 Ht1 Hheld Hcrit Hcomp|s p1 p2 Ht2 Hheld Hcrit Hcomp
                  |p1 p2 Ht1 Ht2|p1 p2 Ht1 Ht2]; simpl in *.
  all: destruct i as [|[|i]]; simpl in Hi; try discriminate; injection Hi as <-.
  all: try (rewrite terminated_no_step in Hp by assumption; discriminate).
  all: try (destruct (Hin _ _ _ _ _ Hheld Hcrit Hcomp Hp) as [(Hc & Hh & Hcomp')|[Ht ->]];
            simpl; eauto using serial).
  all: simpl in Hp; destruct (decide _) as [Hin'|Hout] in Hp;
       [discriminate|injection Hp as <- <-]; simpl.
  all: try (exfalso; apply Hout; assumption).
  all: try (exfalso; eapply held_after; [| |eassumption]; eassumption).
  - apply serial_in1; [set_solver|exact critical_b1|reflexivity].
  - apply serial_in2; [set_solver|exact critical_b2|reflexivity].
  - apply serial_in12; [exact Ht1|set_solver|exact critical_b2|reflexivity].
  - apply serial_in21; [exact Ht2|set_solver|exact critical_b1|reflexivity].
Qed.

(** Two handlers that take the same lock first and keep it to their last
    call leave the service as one of them leaves it when it runs alone
    after the other ran alone. *)
Lemma serialized (s0 : Service) (S : System) :
  (n, t) ∉ held s0 ->
  rtc step {| service := s0; threads := [LocksByName n t b1; LocksByName n t b2] |} S ->
  Forall terminated (threads S) ->
  service S = after n t b2 (after n t b1 s0) \/ service S = after n t b1 (after n t b2 s0).
Proof.
  intros Hfree Hsteps.
  assert (HS : serial n t b1 b2 s0 S).
  { revert S Hsteps. apply rtc_ind_r; [constructor|].
    intros y z _ Hyz Hy. eapply serial_step; eauto. }
  intros Hend.
  destruct HS; simpl in *; auto.
  all: repeat match goal with
              | H : Forall _ (_ :: _) |- _ => inversion H; clear H; subst
              end.
  all: simpl in *; try contradiction.
  all: exfalso; eauto using critical_not_terminated.
Qed.

End Serial.

Lemma read_only_complete {A} (p : Prog A) :
  read_only p -> forall s, remote (complete s p) = remote s.
Proof.
  induction p; simpl; intros Hp s; try contradiction; auto.
  all: rewrite IHp + rewrite H; auto.
Qed.

Lemma find_replace_named (name : string) (config c : IPConfigW) (l : list IPConfigW) :
  List.find (has_name name) l = Some c ->
  has_name name config = true ->
  List.find (has_name name) (replace_named name config l) = Some config.
Proof.
  intros Hfind Hconfig. unfold replace_named.
  induction l as [|x l IH]; simpl in *; [discriminate|].
  destruct (has_name name x) eqn:Hx.
  - now rewrite Hconfig.
  - rewrite Hx. auto.
Qed.

Lemma is_pool_kept (pool requested : string) (l : list BackendAddressPool) :
  existsb (is_pool pool) l = true ->
  existsb (is_pool pool) (List.filter (other_pool requested) l ++ [new_pool requested]) = true.
Proof.
  intros Hl. rewrite existsb_app. apply orb_true_iff.
  destruct (String.eqb pool requested) eqn:Heq.
  - right. apply String.eqb_eq in Heq. subst. simpl. unfold is_pool. simpl.
    now rewrite String.eqb_refl.
  - left. apply existsb_exists in Hl as (x & Hx & Hpool).
    apply existsb_exists. exists x. split; [|exact Hpool].
    apply filter_In. split; [exact Hx|].
    unfold is_pool in Hpool. unfold other_pool.
    destruct (bap_ID x) as [i|]; [|discriminate].
    apply String.eqb_eq in Hpool. subst i. now rewrite Heq.
Qed.

(** What the two association handlers send, after the store through the
    address of the named IP configuration. *)
Lemma encode_after_store (nic : InterfaceW) (props : PropertiesW) (l : list IPConfigW)
    (c : IPConfigW) (pv : InterfaceIPConfigurationPropertiesFormat) (name : string)
    (c' : IPConfigM) (p : nat) (heap : Heap) (l' : list IPConfigM)
    (pools : list BackendAddressPool) :
  nic_Properties nic = Some props ->
  ipc_Properties c = Some pv ->
  ipc_Name c' = Some name ->
  (forall np,
     map (encode_IPConfiguration (<[p := np]> heap))
       (map (fun v => if has_name name v then c' else v) l')
     = replace_named name (with_Properties c (Some np)) l) ->
  encode_Interface
    (store heap p (with_LoadBalancerBackendAddressPools pv (Some pools)))
    (with_InterfacePropertiesFormat
       (with_InterfacePropertiesFormat nic (Some (with_IPConfigurations props (Some l'))))
       (Some (with_IPConfigurations (with_IPConfigurations props (Some l'))
                (updateNetworkInterfaceIPConfiguration c' (Some l')))))
  = with_configs nic (replace_named name (set_pools c pools) l).
Proof.
  intros Hprops Hpv Hname' Henc.
  unfold encode_Interface, updateNetworkInterfaceIPConfiguration, store.
  cbn [nic_Properties with_InterfacePropertiesFormat IPConfigurations with_IPConfigurations].
  rewrite Hname', Henc.
  unfold with_configs, set_pools. rewrite Hprops, Hpv.
  destruct nic, props; reflexivity.
Qed.

Ltac walk_critical :=
  repeat (cbn [critical defer_ bind lift terminated];
          try (split; [reflexivity|split; [reflexivity|exact I]]);
          intros;
          try branch).

Section Creates.
Context `{D : Deps}.

Lemma association_CreateUpdate_effect (d : AssociationData) (meta : Meta)
    (id : NetworkInterfaceId) (b : Prog (option error)) (s : Service) :
  parse_NetworkInterfaceID (network_interface_id d) = Ok id ->
  loadBalancerBackendAddressPoolAssociationCreateUpdate d meta
  = LocksByName (nicid_Name id) networkInterfaceResourceName b ->
  critical (nicid_Name id) networkInterfaceResourceName b
  /\ (has_configuration s (nicid_ResourceGroup id) (nicid_Name id) (ip_configuration_name d) ->
      let s' := after (nicid_Name id) networkInterfaceResourceName b s in
      has_configuration s' (nicid_ResourceGroup id) (nicid_Name id) (ip_configuration_name d)
      /\ in_pool s' (nicid_ResourceGroup id) (nicid_Name id) (ip_configuration_name d)
           (backend_address_pool_id d)
      /\ forall pool,
           in_pool s (nicid_ResourceGroup id) (nicid_Name id) (ip_configuration_name d) pool ->
           in_pool s' (nicid_ResourceGroup id) (nicid_Name id) (ip_configuration_name d) pool).
Proof.
  intros Hparse Hb.
  unfold loadBalancerBackendAddressPoolAssociationCreateUpdate in Hb.
  rewrite Hparse in Hb. injection Hb as <-.
  split.
  { unfold loadBalancerBackendAddressPoolAssociationRead. walk_critical. }
  intros (nic & props & l & c & pv & Hnic & Hprops & Hl & Hfind & Hpv).
  unfold after. cbn [complete defer_ lock remote]. rewrite Hnic.
  cbn [complete defer_].
  rewrite (decode_Interface_configs _ _ _ Hprops Hl).
  destruct (decode_find_store_encode _ _ _ _ Hfind Hpv)
    as (c' & p & Hfind' & Hname' & Hp & Hload & Henc).
  cbn [nic_Properties with_InterfacePropertiesFormat IPConfigurations with_IPConfigurations
       FindNetworkInterfaceIPConfiguration].
  rewrite Hfind', Hp. unfold load. rewrite Hload. cbn [lift bind].
  assert (Hpools :
            match LoadBalancerBackendAddressPools pv with
            | Some existing =>
                existingPools_loop existing (backend_address_pool_id d)
                  (network_interface_id d ++ "/ipConfigurations/" ++ ip_configuration_name d
                   ++ "|" ++ backend_address_pool_id d)%string []
            | None => Ok []
            end
            = if existsb (is_pool (backend_address_pool_id d)) (pools_of c)
              then Err (ImportAsExistsError
                          "azurerm_network_interface_backend_address_pool_association"
                          (association_ID d))
              else Ok (List.filter (other_pool (backend_address_pool_id d)) (pools_of c))).
  { unfold pools_of. rewrite Hpv.
    destruct (LoadBalancerBackendAddressPools pv); [|reflexivity].
    now rewrite existingPools_loop_spec. }
  rewrite Hpools. clear Hpools.
  assert (Hnamed : has_name (ip_configuration_name d) c = true).
  { simpl in Hfind. now apply find_some in Hfind. }
  destruct (existsb (is_pool (backend_address_pool_id d)) (pools_of c)) eqn:Hold.
  - unfold has_configuration, in_pool. cbn [complete defer_ bind remote].
    split; [|split].
    + exists nic, props, l, c, pv. auto.
    + exists nic, props, l, c. auto.
    + auto.
  - unfold has_configuration, in_pool. cbn [complete defer_ bind remote held].
    rewrite (encode_after_store nic props l c pv (ip_configuration_name d) c' p _ _
               _ Hprops Hpv Hname' Henc).
    rewrite read_only_complete by apply association_Read_read_only.
    cbn [remote]. rewrite lookup_insert_eq.
    set (pools := List.filter (other_pool (backend_address_pool_id d)) (pools_of c)
                  ++ [new_pool (backend_address_pool_id d)]).
    assert (Hfind2 : FindNetworkInterfaceIPConfiguration
                       (Some (replace_named (ip_configuration_name d) (set_pools c pools) l))
                       (ip_configuration_name d)
                     = Some (set_pools c pools)).
    { simpl. eapply find_replace_named; [exact Hfind|exact Hnamed]. }
    assert (Hpools2 : pools_of (set_pools c pools) = pools).
    { unfold pools_of, set_pools. simpl. now rewrite Hpv. }
    assert (Hprops2 : nic_Properties
                        (with_configs nic
                           (replace_named (ip_configuration_name d) (set_pools c pools) l))
                      = Some (with_IPConfigurations props
                                (Some (replace_named (ip_configuration_name d)
                                         (set_pools c pools) l)))).
    { unfold with_configs. now rewrite Hprops. }
    split; [|split].
    + do 5 eexists. split; [reflexivity|]. split; [exact Hprops2|].
      split; [reflexivity|]. split; [exact Hfind2|].
      unfold set_pools. simpl. rewrite Hpv. reflexivity.
    + do 4 eexists. split; [reflexivity|]. split; [exact Hprops2|].
      split; [reflexivity|]. split; [exact Hfind2|].
      rewrite Hpools2. unfold pools. rewrite existsb_app. apply orb_true_iff. right.
      simpl. unfold is_pool. simpl. now rewrite String.eqb_refl.
    + intros pool (nic0 & props0 & l0 & c0 & Hnic0 & Hprops0 & Hl0 & Hfind0 & Hpool).
      rewrite Hnic in Hnic0. injection Hnic0 as <-.
      rewrite Hprops in Hprops0. injection Hprops0 as <-.
      rewrite Hl in Hl0. injection Hl0 as <-.
      rewrite Hfind in Hfind0. injection Hfind0 as <-.
      do 4 eexists. split; [reflexivity|]. split; [exact Hprops2|].
      split; [reflexivity|]. split; [exact Hfind2|].
      rewrite Hpools2. now apply is_pool_kept.
Qed.
(** A delete of an association is of the same shape: the lock, then a
    critical section, so [serialized] applies to it too. *)
Lemma association_Delete_critical (d : AssociationData) (meta : Meta)
    (s0 backendAddressPoolId : string) (nicID : NetworkInterfaceIpConfigurationId) :
  Split (assoc_Id d) pipe = [s0; backendAddressPoolId] ->
  parse_NetworkInterfaceIpConfigurationID s0 = Ok nicID ->
  exists b,
    loadBalancerBackendAddressPoolAssociationDelete d meta
    = LocksByName (ipcid_NetworkInterfaceName nicID) networkInterfaceResourceName b
    /\ critical (ipcid_NetworkInterfaceName nicID) networkInterfaceResourceName b.
Proof.
  intros Hsplit Hparse.
  unfold loadBalancerBackendAddressPoolAssociationDelete.
  rewrite Hsplit. cbn [length Nat.eqb negb index lookup list_lookup lift bind].
  rewrite Hparse. eexists. split; [reflexivity|].
  walk_critical.
Qed.

End Creates.

(** A handler inside its critical section gets to its end when it is the
    only one to make calls. *)
Lemma critical_runs (n t : string) (p : Prog (option error)) :
  forall (s : Service) (ts : list (Prog (option error))) (i : nat),
    ts !! i = Some p -> critical n t p ->
    exists p', terminated p'
               /\ rtc step {| service := s; threads := ts |}
                    {| service := complete s p; threads := <[ i := p' ]> ts |}.
Proof.
  assert (Hnext : forall s ts i q s1 q1 (s2 : Service),
             ts !! i = Some q -> thread_step s q = Some (s1, q1) ->
             (forall ts', ts' !! i = Some q1 ->
                exists p', terminated p'
                           /\ rtc step {| service := s1; threads := ts' |}
                                {| service := s2; threads := <[ i := p' ]> ts' |}) ->
             exists p', terminated p'
                        /\ rtc step {| service := s; threads := ts |}
                             {| service := s2; threads := <[ i := p' ]> ts |}).
  { intros s ts i q s1 q1 s2 Hi Hq Hrest.
    destruct (Hrest (<[ i := q1 ]> ts)) as (p' & Hp' & Hrun).
    { apply list_lookup_insert_eq. eapply lookup_lt_Some; eauto. }
    exists p'. split; [exact Hp'|].
    rewrite list_insert_insert_eq in Hrun.
    eapply rtc_l; [|exact Hrun].
    exact (step_thread {| service := s; threads := ts |} i q q1 s1 Hi Hq). }
  induction p; intros s ts i Hi Hc; simpl in Hc; try contradiction.
  2-4,6-9: now (eapply Hnext; [exact Hi|reflexivity|]; intros ts' Hts'; simpl; eauto).
  - destruct Hc as (-> & -> & Hk). exists p. split; [exact Hk|].
    simpl. rewrite (complete_terminated _ _ Hk).
    apply rtc_once.
    exact (step_thread {| service := s; threads := ts |} i _ _ _ Hi eq_refl).
  - eapply Hnext; [exact Hi|reflexivity|]. intros ts' Hts'. simpl. eauto.
Qed.

(** One of the interleavings: the first handler, then the second. *)
Lemma one_after_the_other (n t : string) (b1 b2 : Prog (option error)) (s0 : Service) :
  critical n t b1 -> critical n t b2 ->
  (n, t) ∉ held s0 ->
  exists S,
    rtc step {| service := s0; threads := [LocksByName n t b1; LocksByName n t b2] |} S
    /\ Forall terminated (threads S).
Proof.
  intros critical_b1 critical_b2 Hfree.
  destruct (critical_runs n t b1 (lock n t s0) [b1; LocksByName n t b2] 0 eq_refl critical_b1)
    as (p1 & Hp1 & Hrun1).
  destruct (critical_runs n t b2 (lock n t (after n t b1 s0)) [p1; b2] 1 eq_refl critical_b2)
    as (p2 & Hp2 & Hrun2).
  simpl in Hrun1, Hrun2.
  exists {| service := after n t b2 (after n t b1 s0); threads := [p1; p2] |}.
  split; [|simpl; auto].
  eapply rtc_l.
  { apply (step_thread {| service := s0; threads := [LocksByName n t b1; LocksByName n t b2] |}
             0 _ b1 (lock n t s0) eq_refl).
    simpl. destruct (decide _); [contradiction|reflexivity]. }
  simpl. etrans; [exact Hrun1|].
  eapply rtc_l; [|exact Hrun2].
  apply (step_thread {| service := after n t b1 s0; threads := [p1; LocksByName n t b2] |}
           1 _ b2 (lock n t (after n t b1 s0)) eq_refl).
  simpl. destruct (decide _) as [Hin|]; [|reflexivity].
  exfalso. exact (held_after n t b1 s0 critical_b1 Hfree Hin).
Qed.


(** C7: two [loadBalancerBackendAddressPoolAssociationCreateUpdate] of the
    same IP configuration of the same network interface, for the pools [A]
    and [B], run at once on a service where the lock is free and the
    interface has the IP configuration: some interleaving brings both to
    their end, and whenever both are over the IP configuration is in both
    pools. *)
Theorem concurrent_creates_keep_both `{D : Deps} (s0 : Service) (dA dB : AssociationData)
    (meta : Meta) (id : NetworkInterfaceId) :
  parse_NetworkInterfaceID (network_interface_id dA) = Ok id ->
  network_interface_id dB = network_interface_id dA ->
  ip_configuration_name dB = ip_configuration_name dA ->
  (nicid_Name id, networkInterfaceResourceName) ∉ held s0 ->
  has_configuration s0 (nicid_ResourceGroup id) (nicid_Name id) (ip_configuration_name dA) ->
  (exists S,
     rtc step
       {| service := s0;
          threads := [ loadBalancerBackendAddressPoolAssociationCreateUpdate dA meta;
                       loadBalancerBackendAddressPoolAssociationCreateUpdate dB meta ] |} S
     /\ Forall terminated (threads S))
  /\ forall S,
       rtc step
         {| service := s0;
            threads := [ loadBalancerBackendAddressPoolAssociationCreateUpdate dA meta;
                         loadBalancerBackendAddressPoolAssociationCreateUpdate dB meta ] |} S ->
       Forall terminated (threads S) ->
       in_pool (service S) (nicid_ResourceGroup id) (nicid_Name id) (ip_configuration_name dA)
         (backend_address_pool_id dA)
       /\ in_pool (service S) (nicid_ResourceGroup id) (nicid_Name id)
            (ip_configuration_name dA) (backend_address_pool_id dB).
Proof.
  intros HparseA HnicB HnameB Hfree Hconf.
  assert (HparseB : parse_NetworkInterfaceID (network_interface_id dB) = Ok id)
    by now rewrite HnicB.
  assert (HA : exists bA, loadBalancerBackendAddressPoolAssociationCreateUpdate dA meta
                          = LocksByName (nicid_Name id) networkInterfaceResourceName bA).
  { unfold loadBalancerBackendAddressPoolAssociationCreateUpdate. rewrite HparseA. eauto. }
  assert (HB : exists bB, loadBalancerBackendAddressPoolAssociationCreateUpdate dB meta
                          = LocksByName (nicid_Name id) networkInterfaceResourceName bB).
  { unfold loadBalancerBackendAddressPoolAssociationCreateUpdate. rewrite HparseB. eauto. }
  destruct HA as [bA HA], HB as [bB HB]. rewrite HA, HB.
  assert (EA := fun s => association_CreateUpdate_effect dA meta id bA s HparseA HA).
  assert (EB := fun s => association_CreateUpdate_effect dB meta id bB s HparseB HB).
  rewrite HnameB in EB.
  destruct (EA s0) as [HcA _]. destruct (EB s0) as [HcB _].
  split; [now apply one_after_the_other|].
  intros S Hsteps Hend.
  destruct (serialized _ _ _ _ HcA HcB s0 S Hfree Hsteps Hend) as [-> | ->].
  - destruct (EA s0) as [_ HeA]. destruct (HeA Hconf) as (Hconf1 & HinA & _).
    destruct (EB (after (nicid_Name id) networkInterfaceResourceName bA s0)) as [_ HeB].
    destruct (HeB Hconf1) as (_ & HinB & Hkeep). auto.
  - destruct (EB s0) as [_ HeB]. destruct (HeB Hconf) as (Hconf1 & HinB & _).
    destruct (EA (after (nicid_Name id) networkInterfaceResourceName bB s0)) as [_ HeA].
    destruct (HeA Hconf1) as (_ & HinA & Hkeep). auto.
Qed.

(** C7 on the sample interface: [cfg1], in no pool, is associated with the
    pools [a] and [b] at once. *)
Lemma concurrent_creates_keep_both_witness :
  let s0 :=
    {| remote := {[ ("rg1", "nic1") := sample_nic [sample_cfg0; sample_config "cfg1" None] ]};
       held := ∅ |} in
  (exists S,
     rtc step
       {| service := s0;
          threads :=
            [ loadBalancerBackendAddressPoolAssociationCreateUpdate (D := sample_deps)
                (sample_association sample_pool_a) sample_meta;
              loadBalancerBackendAddressPoolAssociationCreateUpdate (D := sample_deps)
                (sample_association sample_pool_b) sample_meta ] |} S
     /\ Forall terminated (threads S))
  /\ forall S,
       rtc step
         {| service := s0;
            threads :=
              [ loadBalancerBackendAddressPoolAssociationCreateUpdate (D := sample_deps)
                  (sample_association sample_pool_a) sample_meta;
                loadBalancerBackendAddressPoolAssociationCreateUpdate (D := sample_deps)
                  (sample_association sample_pool_b) sample_meta ] |} S ->
       Forall terminated (threads S) ->
       in_pool (service S) "rg1" "nic1" "cfg1" sample_pool_a
       /\ in_pool (service S) "rg1" "nic1" "cfg1" sample_pool_b.
Proof.
  intros s0.
  apply (concurrent_creates_keep_both (D := sample_deps) s0
           (sample_association sample_pool_a) (sample_association sample_pool_b)
           sample_meta sample_id eq_refl eq_refl eq_refl).
  - apply not_elem_of_empty.
  - exists (sample_nic [sample_cfg0; sample_config "cfg1" None]).
    do 4 eexists. split; [apply lookup_singleton_eq|].
    repeat split; reflexivity.
Defined.

(** ** Runs on the sample interface *)

Example association_CreateUpdate_run :
  map (fun e => match e with
                | EvLock _ _ => "lock" | EvUnlock _ _ => "unlock"
                | EvLockDetails _ => "lock subnets" | EvUnlockDetails _ => "unlock subnets"
                | EvGet _ _ (GetOk _) => "get: found" | EvGet _ _ _ => "get: not found"
                | EvCreateOrUpdate _ _ _ _ => "create or update"
                | EvDelete _ _ _ => "delete" | EvWait _ => "wait"
                | EvSetId _ => "set id" | EvSet key _ _ => key
                end)
    (fst (run (sample_world (Some (sample_nic [sample_cfg0; sample_config "cfg1" None])))
            (loadBalancerBackendAddressPoolAssociationCreateUpdate (D := sample_deps)
               (sample_association sample_pool_a) sample_meta)))
  = [ "lock"; "get: found"; "create or update"; "wait"; "set id"; "get: found";
      "backend_address_pool_id"; "ip_configuration_name"; "network_interface_id"; "unlock" ].
Proof. reflexivity. Qed.

(** While one handler holds the lock of [nic1], another that asks for it
    cannot make its call. *)
Example association_CreateUpdate_waits :
  thread_step
    {| remote := ∅; held := {[ ("nic1", "azurestack_network_interface") ]} |}
    (loadBalancerBackendAddressPoolAssociationCreateUpdate (D := sample_deps)
       (sample_association sample_pool_b) sample_meta)
  = None.
Proof. reflexivity. Qed.

(** * More of the two files *)

(** ** Expanding and flattening *)

Lemma flattenNetworkInterfaceIPConfiguration_expanded (c : IPConfigurationBlock) :
  flattenNetworkInterfaceIPConfiguration (expanded c) = Returned (flattened c).
Proof.
  destruct c as [name subnet ip version allocation pip primary].
  unfold flattenNetworkInterfaceIPConfiguration, expanded, flattened, nonempty_ptr, primary_set.
  cbn.
  destruct (String.eqb subnet "") eqn:Hs, (String.eqb ip "") eqn:Hi,
    (String.eqb version "") eqn:Hv, (String.eqb pip "") eqn:Hp;
    cbn;
    repeat match goal with
           | H : String.eqb _ "" = true |- _ => apply String.eqb_eq in H; subst
           end;
    destruct primary as [[|]|]; reflexivity.
Qed.

Lemma flatten_loop_expanded (input : list IPConfigurationBlock) (acc : list TfValue) :
  flatten_loop (map expanded input) acc = Returned (acc ++ map flattened input).
Proof.
  revert acc. induction input as [|c input IH]; intros acc; cbn [map flatten_loop].
  - now rewrite app_nil_r.
  - rewrite flattenNetworkInterfaceIPConfiguration_expanded. cbn [obind].
    rewrite IH. now rewrite <- app_assoc.
Qed.

Lemma same_block_flattened (c : IPConfigurationBlock) : same_block c (flattened c).
Proof.
  split; [|reflexivity].
  intros k Hk. destruct c as [name subnet ip version allocation pip primary].
  unfold flattened, raw, field. cbn [cfg_name cfg_subnet_id cfg_private_ip_address
    cfg_private_ip_address_version cfg_private_ip_address_allocation
    cfg_public_ip_address_id cfg_primary app map_index].
  destruct (String.eqb k "name") eqn:E1; [apply String.eqb_eq in E1; subst; reflexivity|].
  destruct (String.eqb k "primary") eqn:E2; [apply String.eqb_eq in E2; contradiction|].
  destruct (String.eqb k "private_ip_address") eqn:E3;
    [apply String.eqb_eq in E3; subst; reflexivity|].
  destruct (String.eqb k "private_ip_address_allocation") eqn:E4;
    [apply String.eqb_eq in E4; subst; reflexivity|].
  destruct (String.eqb k "private_ip_address_version") eqn:E5;
    [apply String.eqb_eq in E5; subst; reflexivity|].
  destruct (String.eqb k "public_ip_address_id") eqn:E6;
    [apply String.eqb_eq in E6; subst; reflexivity|].
  destruct (String.eqb k "subnet_id") eqn:E7;
    [apply String.eqb_eq in E7; subst; reflexivity|].
  destruct primary; cbn [map_index]; rewrite ?E2; reflexivity.
Qed.

(** X1: the blocks that [expandNetworkInterfaceIPConfigurations] accepts
    come back from [flattenNetworkInterfaceIPConfigurations]: one map per
    block, in order, with the block's value under every key, and ["primary"]
    as [false] where the block has none. *)
Theorem flatten_expand_IPConfigurations (input : list IPConfigurationBlock) :
  expand_fails input = false ->
  exists ipConfigs flat,
    expandNetworkInterfaceIPConfigurations (map raw input) = Returned (Ok ipConfigs)
    /\ flattenNetworkInterfaceIPConfigurations (Some ipConfigs) = Returned flat
    /\ Forall2 same_block input flat.
Proof.
  intros Hok. unfold expand_fails in Hok.
  apply orb_false_elim in Hok as [Hsub Hprim].
  exists (map expanded input), (map flattened input).
  split; [|split].
  - unfold expandNetworkInterfaceIPConfigurations.
    rewrite expand_loop_raw, Hsub. simpl. rewrite length_map.
    destruct (Nat.ltb 1 (length input)); [|reflexivity].
    simpl in Hprim. apply negb_false_iff in Hprim.
    rewrite hasPrimary_loop_expanded, Hprim. reflexivity.
  - simpl. apply flatten_loop_expanded.
  - clear. induction input; simpl; constructor; auto using same_block_flattened.
Qed.

Lemma flatten_expand_IPConfigurations_witness :
  exists ipConfigs flat,
    expandNetworkInterfaceIPConfigurations (map raw [sample_block]) = Returned (Ok ipConfigs)
    /\ flattenNetworkInterfaceIPConfigurations (Some ipConfigs) = Returned flat
    /\ Forall2 same_block [sample_block] flat.
Proof. exact (flatten_expand_IPConfigurations [sample_block] eq_refl). Defined.

Lemma flattenNetworkInterfaceIPConfiguration_spec (c : IPConfigW) :
  match flattenNetworkInterfaceIPConfiguration c with
  | Returned _ => has_properties c = true
  | Panicked _ => has_properties c = false
  end.
Proof.
  unfold flattenNetworkInterfaceIPConfiguration, has_properties.
  now destruct (ipc_Properties c).
Qed.

Lemma flatten_loop_spec (l : list IPConfigW) (acc : list TfValue) :
  match flatten_loop l acc with
  | Returned flat => forallb has_properties l = true /\ length flat = length acc + length l
  | Panicked _ => forallb has_properties l = false
  end.
Proof.
  revert acc. induction l as [|c l IH]; intros acc; cbn [flatten_loop forallb].
  - split; [reflexivity|simpl; lia].
  - pose proof (flattenNetworkInterfaceIPConfiguration_spec c) as Hc.
    destruct (flattenNetworkInterfaceIPConfiguration c) as [m|msg]; cbn [obind];
      rewrite Hc; [|reflexivity].
    specialize (IH (acc ++ [m])).
    destruct (flatten_loop l (acc ++ [m])); [|exact IH].
    destruct IH as [Hall Hlen]. split; [exact Hall|].
    rewrite Hlen, length_app. simpl. lia.
Qed.

Lemma flattenNetworkInterfaceIPConfiguration_flat_of (c : IPConfigW) (m : TfValue) :
  flattenNetworkInterfaceIPConfiguration c = Returned m -> flat_of c m.
Proof.
  unfold flattenNetworkInterfaceIPConfiguration, flat_of.
  destruct (ipc_Properties c) as [p|]; [|discriminate].
  intros [= <-]. exists p. split; [reflexivity|]. split; [reflexivity|].
  cbn [field map_index String.eqb Ascii.eqb Bool.eqb].
  repeat split.
  do 2 f_equal. destruct (String.eqb (PrivateIPAddressVersion p) "") eqn:Hv; [|reflexivity].
  apply String.eqb_eq in Hv. now rewrite Hv.
Qed.

Lemma flatten_loop_flat_of (l : list IPConfigW) (acc flat : list TfValue) :
  flatten_loop l acc = Returned flat ->
  exists new, flat = acc ++ new /\ Forall2 flat_of l new.
Proof.
  revert acc. induction l as [|c l IH]; intros acc; cbn [flatten_loop].
  - intros [= <-]. exists []. split; [now rewrite app_nil_r|constructor].
  - destruct (flattenNetworkInterfaceIPConfiguration c) as [m|msg] eqn:Hc; cbn [obind];
      [|discriminate].
    intros Hrest. destruct (IH _ Hrest) as (new & -> & Hnew).
    exists (m :: new). split; [now rewrite <- app_assoc|].
    constructor; [now apply flattenNetworkInterfaceIPConfiguration_flat_of|exact Hnew].
Qed.

(** X2: [flattenNetworkInterfaceIPConfigurations] gives the empty list for
    [nil]; on a list it panics (a nil dereference) exactly when some IP
    configuration has no properties, and otherwise gives one map per IP
    configuration, in order: the map of an IP configuration holds the seven
    keys of a block and no other, each with the value of the IP
    configuration, the empty string for a nil pointer and [false] for a nil
    [Primary]. *)
Theorem flattenNetworkInterfaceIPConfigurations_nil_properties :
  flattenNetworkInterfaceIPConfigurations None = Returned []
  /\ forall l : list IPConfigW,
       match flattenNetworkInterfaceIPConfigurations (Some l) with
       | Returned flat => forallb has_properties l = true /\ Forall2 flat_of l flat
       | Panicked _ => forallb has_properties l = false
       end.
Proof.
  split; [reflexivity|]. intros l. cbn [flattenNetworkInterfaceIPConfigurations].
  pose proof (flatten_loop_spec l []) as Hspec.
  pose proof (flatten_loop_flat_of l []) as Hmaps.
  destruct (flatten_loop l []) as [flat|msg]; [|exact Hspec].
  split; [apply Hspec|].
  destruct (Hmaps flat eq_refl) as (new & -> & Hnew). exact Hnew.
Qed.

Lemma expandNetworkInterfaceDnsServers_loop_spec (input : list TfValue) (acc : list string) :
  match expandNetworkInterfaceDnsServers_loop input acc with
  | Returned dns => exists new, dns = acc ++ new /\ input = map VString new
  | Panicked _ => forallb is_string input = false
  end.
Proof.
  revert acc. induction input as [|v input IH]; intros acc; simpl.
  - exists []. now rewrite app_nil_r.
  - destruct v as [s| | | |]; simpl; try reflexivity.
    specialize (IH (acc ++ [s])).
    destruct (expandNetworkInterfaceDnsServers_loop input (acc ++ [s])); [|exact IH].
    destruct IH as (new & -> & ->). exists (s :: new). now rewrite <- app_assoc.
Qed.

(** X3: [expandNetworkInterfaceDnsServers] returns exactly on the inputs all
    of whose elements are strings, and then returns these strings in order;
    on any other input the type assertion panics. *)
Theorem expandNetworkInterfaceDnsServers_strings_only (input : list TfValue) :
  match expandNetworkInterfaceDnsServers input with
  | Returned dns => input = map VString dns
  | Panicked _ => forallb is_string input = false
  end.
Proof.
  unfold expandNetworkInterfaceDnsServers.
  pose proof (expandNetworkInterfaceDnsServers_loop_spec input []) as H.
  destruct (expandNetworkInterfaceDnsServers_loop input []); [|exact H].
  now destruct H as (new & -> & ->).
Qed.

(** X4: a first block that is no map, or a map without one of the keys
    ["subnet_id"], ["private_ip_address_allocation"] and
    ["private_ip_address_version"], makes
    [expandNetworkInterfaceIPConfigurations] panic in its type assertions,
    whatever the other blocks are. *)
Theorem expandNetworkInterfaceIPConfigurations_missing_key (block : TfValue)
    (rest : list TfValue) :
  (forall m, block = VMap m -> exists k, In k asserted_first /\ map_index m k = None) ->
  exists msg, expandNetworkInterfaceIPConfigurations (block :: rest) = Panicked msg.
Proof.
  intros Hblock.
  unfold expandNetworkInterfaceIPConfigurations. cbn [expand_loop].
  unfold expandNetworkInterfaceIPConfiguration.
  destruct block as [s|b|l|m|]; cbn [assert_map obind]; eauto.
  destruct (Hblock m eq_refl) as (k & Hk & Hnone).
  destruct (assert_string (map_index m "subnet_id")) as [subnetId|msg] eqn:H1;
    cbn [obind]; [|eauto].
  destruct (assert_string (map_index m "private_ip_address_allocation"))
    as [allocation|msg] eqn:H2; cbn [obind]; [|eauto].
  destruct (assert_string (map_index m "private_ip_address_version"))
    as [version|msg] eqn:H3; cbn [obind]; [|eauto].
  exfalso. simpl in Hk.
  destruct Hk as [<-|[<-|[<-|[]]]]; rewrite Hnone in *; discriminate.
Qed.

Lemma expandNetworkInterfaceIPConfigurations_missing_key_witness :
  exists msg,
    expandNetworkInterfaceIPConfigurations
      [VMap [("name", VString "cfg1"); ("subnet_id", VString "subnet1")]; raw sample_block]
    = Panicked msg.
Proof.
  apply (expandNetworkInterfaceIPConfigurations_missing_key
           (VMap [("name", VString "cfg1"); ("subnet_id", VString "subnet1")])
           [raw sample_block]).
  intros m [= <-]. exists "private_ip_address_allocation". split; [simpl; auto|reflexivity].
Defined.

(** ** What [networkInterfaceRead] sets *)

Lemma privateIPAddresses_loop_spec (configs : list IPConfigW) (i : nat)
    (primary : string) (acc : list TfValue) :
  privateIPAddresses_loop configs i primary acc
  = (if Nat.eqb i 0 then
       match configs with
       | c :: _ => match private_address c with Some v => v | None => primary end
       | [] => primary
       end
     else primary,
     acc ++ map VString (omap private_address configs)).
Proof.
  revert i primary acc. induction configs as [|c configs IH]; intros i primary acc.
  - simpl. rewrite app_nil_r. now destruct (Nat.eqb i 0).
  - cbn [privateIPAddresses_loop omap list_omap]. unfold private_address at 1 2 3.
    destruct (ipc_Properties c) as [p|]; [destruct (PrivateIPAddress p) as [v|]|];
      rewrite IH; cbn [Nat.eqb map]; rewrite <- ?app_assoc;
      destruct (Nat.eqb i 0); reflexivity.
Qed.

(** ** Runs under a monitor *)

Lemma scan_app {S} (allow : S -> Event -> option S) (st : S) (tr1 tr2 : list Event) :
  scan allow st (tr1 ++ tr2)
  = match scan allow st tr1 with
    | Some st' => scan allow st' tr2
    | None => None
    end.
Proof.
  revert st. induction tr1 as [|e tr1 IH]; intros st; simpl; [reflexivity|].
  destruct (allow st e); auto.
Qed.

Lemma monitored_exec {S A} (allow : S -> Event -> option S) (final : S -> bool)
    (p : Prog A) :
  forall (w : World) (past : list Event) (st : S),
    monitored allow final p st ->
    exists new st',
      fst (exec w past p) = past ++ new
      /\ scan allow st new = Some st' /\ final st' = true.
Proof.
  assert (Hcons : forall (e : Event) (st : S) (k : S -> Prop) (tr past : list Event),
             allow_then allow st e k ->
             (forall st1, k st1 ->
                exists new st', tr = (past ++ [e]) ++ new
                                /\ scan allow st1 new = Some st' /\ final st' = true) ->
             exists new st', tr = past ++ new
                             /\ scan allow st new = Some st' /\ final st' = true).
  { intros e st k tr past Hk Hrest. unfold allow_then in Hk.
    destruct (allow st e) as [st1|] eqn:He; [|contradiction].
    destruct (Hrest st1 Hk) as (new & st' & -> & Hscan & Hend).
    exists (e :: new), st'. rewrite <- app_assoc. simpl. rewrite He. auto. }
  induction p as [a|msg|n t k IH|n t k IH|l k IH|l k IH|rg n k IH|rg n b k IH|rg n k IH
                  |k IH|id k IH|key v k IH];
    intros w past st Hp; simpl in Hp |- *.
  1,2: exists [], st; rewrite app_nil_r; auto.
  all: try (eapply Hcons; [exact Hp|]; intros st1 H1; now apply IH).
  all: eapply Hcons; [apply Hp|]; intros st1 H1; cbv zeta; now apply IH.
Qed.

Lemma monitored_run {S A} (allow : S -> Event -> option S) (final : S -> bool)
    (p : Prog A) (w : World) (st : S) :
  monitored allow final p st -> passes allow final st (fst (run w p)) = true.
Proof.
  intros Hp.
  destruct (monitored_exec allow final p w [] st Hp) as (new & st' & Htr & Hscan & Hend).
  unfold run, passes. rewrite Htr. simpl. now rewrite Hscan.
Qed.

Ltac settle :=
  repeat first
    [ progress cbn [monitored bind defer_ lift reader nested deleter pop
                    andb negb orb existsb is_details no_lock]
    | progress unfold allow_then
    | rewrite String.eqb_refl
    | rewrite decide_True by reflexivity ].

Ltac watch :=
  repeat (settle;
          try reflexivity;
          intros;
          try first [ match goal with
                      | |- context [match ?x with _ => _ end] => is_var x; destruct x
                      end
                    | branch ]).

(** X5: in every world a run of [networkInterfaceRead] or of
    [loadBalancerBackendAddressPoolAssociationRead] makes at most one [Get]
    and calls on [d]; it takes no lock and writes nothing. *)
Theorem Read_only_reads `{D : Deps} (w : World) (d : NetworkInterfaceData)
    (a : AssociationData) (meta : Meta) :
  passes reader (fun _ => true) false (fst (run w (networkInterfaceRead d meta))) = true
  /\ passes reader (fun _ => true) false
       (fst (run w (loadBalancerBackendAddressPoolAssociationRead a meta))) = true.
Proof.
  split; apply monitored_run.
  - unfold networkInterfaceRead. watch.
  - unfold loadBalancerBackendAddressPoolAssociationRead. watch.
Qed.

(** X6: in every world a run of [networkInterfaceDelete] creates and updates
    nothing and sets nothing on [d]; it makes one [Get] at most, and one
    [Delete] at most, of the interface that the [Get] found; it clears the ID
    only when the [Get] found nothing. *)
Theorem networkInterfaceDelete_deletes_what_it_found `{D : Deps} (w : World)
    (d : NetworkInterfaceData) (meta : Meta) :
  passes deleter (fun _ => true) NotRead (fst (run w (networkInterfaceDelete d meta))) = true.
Proof.
  apply monitored_run. unfold networkInterfaceDelete. watch.
Qed.

(** X7: in every world each handler that takes locks releases them in the
    reverse order and holds none when it is over, on an error and on a panic
    too. [networkInterfaceCreate] and [networkInterfaceDelete] write only
    with the locks of the subnets and virtual networks held, and so does
    [networkInterfaceUpdate] when [ip_configuration] has changed. *)
Theorem locks_are_nested `{D : Deps} (w : World) (d : NetworkInterfaceData)
    (a : AssociationData) (meta : Meta) :
  passes (nested true) no_lock [] (fst (run w (networkInterfaceCreate d meta))) = true
  /\ passes (nested (d_HasChange d "ip_configuration")) no_lock []
       (fst (run w (networkInterfaceUpdate d meta))) = true
  /\ passes (nested true) no_lock [] (fst (run w (networkInterfaceDelete d meta))) = true
  /\ passes (nested false) no_lock []
       (fst (run w (loadBalancerBackendAddressPoolAssociationCreateUpdate a meta))) = true
  /\ passes (nested false) no_lock []
       (fst (run w (loadBalancerBackendAddressPoolAssociationDelete a meta))) = true.
Proof.
  repeat split; apply monitored_run.
  - unfold networkInterfaceCreate, networkInterfaceRead. watch.
  - unfold networkInterfaceUpdate. watch.
  - unfold networkInterfaceDelete. watch.
  - unfold loadBalancerBackendAddressPoolAssociationCreateUpdate,
      loadBalancerBackendAddressPoolAssociationRead. watch.
  - unfold loadBalancerBackendAddressPoolAssociationDelete. watch.
Qed.

(** ** One run after another *)

Lemma exec_shift {A} (p : Prog A) (w : World) (pre past : list Event) :
  exec w (pre ++ past) p
  = (pre ++ fst (exec (shift w pre) past p), snd (exec (shift w pre) past p)).
Proof.
  revert past.
  induction p as [a|msg|n t k IH|n t k IH|l k IH|l k IH|rg n k IH|rg n b k IH|rg n k IH
                  |k IH|id k IH|key v k IH];
    intros past; cbn [exec]; try reflexivity.
  all: cbv zeta; rewrite <- app_assoc; apply IH.
Qed.

Lemma exec_run {A} (p : Prog A) (w : World) (pre : list Event) :
  exec w pre p = (pre ++ fst (run (shift w pre) p), snd (run (shift w pre) p)).
Proof.
  unfold run. rewrite <- exec_shift. now rewrite app_nil_r.
Qed.

Lemma exec_bind {A B} (p : Prog A) (f : A -> Prog B) (w : World) (past : list Event) :
  exec w past (bind p f)
  = match snd (exec w past p) with
    | Returned a => exec w (fst (exec w past p)) (f a)
    | Panicked msg => (fst (exec w past p), Panicked msg)
    end.
Proof.
  revert past.
  induction p as [a|msg|n t k IH|n t k IH|l k IH|l k IH|rg n k IH|rg n b k IH|rg n k IH
                  |k IH|id k IH|key v k IH];
    intros past; cbn [exec bind fst snd]; try reflexivity.
  all: cbv zeta; apply IH.
Qed.

(** A deferred call runs after the body, on a return and on a panic. *)
Lemma exec_defer_ {A} (cleanup : Prog unit) (p : Prog A) (w : World) (past : list Event) :
  exec w past (defer_ cleanup p)
  = (fst (exec w (fst (exec w past p)) cleanup),
     match snd (exec w (fst (exec w past p)) cleanup) with
     | Returned _ => snd (exec w past p)
     | Panicked msg => Panicked msg
     end).
Proof.
  revert past.
  induction p as [a|msg|n t k IH|n t k IH|l k IH|l k IH|rg n k IH|rg n b k IH|rg n k IH
                  |k IH|id k IH|key v k IH];
    intros past; cbn [exec defer_ fst snd].
  1,2: rewrite exec_bind; destruct (exec w past cleanup) as [tr [u|m]]; reflexivity.
  all: cbv zeta; apply IH.
Qed.

Lemma stored_after_app (stored : option InterfaceW) (tr1 tr2 : list Event) :
  stored_after stored (tr1 ++ tr2) = stored_after (stored_after stored tr1) tr2.
Proof. unfold stored_after. apply fold_left_app. Qed.

Lemma faithful_shift (stored : option InterfaceW) (w : World) (pre : list Event) :
  faithful stored w -> faithful (stored_after stored pre) (shift w pre).
Proof.
  intros Hw past rg n. specialize (Hw (pre ++ past) rg n). cbn [shift onGet].
  now rewrite stored_after_app in Hw.
Qed.

(** ** The decoded interface, case by case *)

Lemma find_map_none {A B} (f : A -> bool) (g : B -> bool) (l : list A) (l' : list B) :
  map g l' = map f l -> List.find f l = None -> List.find g l' = None.
Proof.
  revert l'. induction l as [|x l IH]; intros [|y l']; simpl; try discriminate; auto.
  intros [= Hy Hl]. rewrite Hy. destruct (f x); [discriminate|]. auto.
Qed.

Lemma decode_find_nil (name : string) (l : list IPConfigW) (c : IPConfigW) :
  List.find (has_name name) l = Some c ->
  ipc_Properties c = None ->
  exists c',
    List.find (has_name name) (snd (decode_IPConfigurations [] l)) = Some c'
    /\ ipc_Properties c' = None.
Proof.
  intros Hfind Hnil.
  destruct (find_split _ _ _ Hfind) as (pre & post & -> & Hc & Hpre).
  rewrite decode_IPConfigurations_app.
  pose proof (decode_IPConfigurations_names name pre []) as Hnames.
  destruct (decode_IPConfigurations [] pre) as [h1 pre']. simpl in Hnames.
  simpl. rewrite Hnil.
  destruct (decode_IPConfigurations h1 post) as [h2 post']. simpl.
  exists (with_Properties c None). split; [|reflexivity].
  apply find_app_first; [|exact Hc].
  rewrite Hnames. clear -Hpre. induction Hpre; simpl; constructor; auto.
Qed.

(** What the association handlers meet after [client.Get]: the decoded
    interface has nil where the interface on the wire has, and where the
    named IP configuration has properties, the store through their address
    and the encoding give the interface with the new pools there. *)
Inductive decoded (name : string) (body : InterfaceW) : Heap -> InterfaceM -> Prop :=
| decoded_no_properties (heap : Heap) (read : InterfaceM) :
    nic_Properties body = None ->
    nic_Properties read = None ->
    decoded name body heap read
| decoded_no_configurations (heap : Heap) (read : InterfaceM) (props : PropertiesM) :
    configs_of body = [] ->
    nic_Properties read = Some props ->
    IPConfigurations props = None ->
    decoded name body heap read
| decoded_not_found (heap : Heap) (read : InterfaceM) (props : PropertiesM)
    (l' : list IPConfigM) :
    List.find (has_name name) (configs_of body) = None ->
    nic_Properties read = Some props ->
    IPConfigurations props = Some l' ->
    List.find (has_name name) l' = None ->
    decoded name body heap read
| decoded_nil (heap : Heap) (read : InterfaceM) (props : PropertiesM)
    (l' : list IPConfigM) (c : IPConfigW) (c' : IPConfigM) :
    List.find (has_name name) (configs_of body) = Some c ->
    ipc_Properties c = None ->
    nic_Properties read = Some props ->
    IPConfigurations props = Some l' ->
    List.find (has_name name) l' = Some c' ->
    ipc_Properties c' = None ->
    decoded name body heap read
| decoded_found (heap : Heap) (read : InterfaceM) (props : PropertiesM)
    (l' : list IPConfigM) (c : IPConfigW) (c' : IPConfigM)
    (pv : InterfaceIPConfigurationPropertiesFormat) (p : nat) :
    List.find (has_name name) (configs_of body) = Some c ->
    ipc_Properties c = Some pv ->
    nic_Properties read = Some props ->
    IPConfigurations props = Some l' ->
    List.find (has_name name) l' = Some c' ->
    ipc_Properties c' = Some p ->
    heap !! p = Some pv ->
    (forall pools,
       encode_Interface
         (store heap p (with_LoadBalancerBackendAddressPools pv (Some pools)))
         (with_InterfacePropertiesFormat read
            (Some (with_IPConfigurations props
                     (updateNetworkInterfaceIPConfiguration c' (Some l')))))
       = with_configs body (replace_named name (set_pools c pools) (configs_of body))) ->
    decoded name body heap read.

Lemma decode_Interface_decoded (name : string) (body : InterfaceW) :
  decoded name body (fst (decode_Interface body)) (snd (decode_Interface body)).
Proof.
  unfold decode_Interface.
  destruct (nic_Properties body) as [props|] eqn:Hprops.
  2:{ now apply decoded_no_properties. }
  destruct (IPConfigurations props) as [l|] eqn:Hl.
  2:{ eapply decoded_no_configurations; [|reflexivity|reflexivity].
      unfold configs_of. now rewrite Hprops, Hl. }
  assert (Hconfigs : configs_of body = l) by (unfold configs_of; now rewrite Hprops, Hl).
  destruct (List.find (has_name name) l) as [c|] eqn:Hfind.
  2:{ pose proof (find_map_none _ (has_name name) _ _
                    (decode_IPConfigurations_names name l []) Hfind) as Hnone.
      destruct (decode_IPConfigurations [] l) as [heap l']. simpl in *.
      eapply decoded_not_found; [now rewrite Hconfigs|reflexivity|reflexivity|exact Hnone]. }
  destruct (ipc_Properties c) as [pv|] eqn:Hpv.
  - destruct (decode_find_store_encode _ _ _ _ Hfind Hpv)
      as (c' & p & Hfind' & Hname' & Hp & Hload & Henc).
    pose proof (fun pools =>
                  encode_after_store body props l c pv name c' p _ _ pools
                    Hprops Hpv Hname' Henc) as Hsend.
    destruct (decode_IPConfigurations [] l) as [heap l']. simpl in *.
    eapply decoded_found; rewrite ?Hconfigs; eauto.
  - destruct (decode_find_nil _ _ _ Hfind Hpv) as (c' & Hfind' & Hp).
    destruct (decode_IPConfigurations [] l) as [heap l']. simpl in *.
    eapply decoded_nil; rewrite ?Hconfigs; eauto.
Qed.

(** ** The association handlers, run by run *)

Lemma found_loop_spec (backendPools : list BackendAddressPool) (backendAddressPoolId : string) :
  found_loop backendPools backendAddressPoolId
  = existsb (is_pool backendAddressPoolId) backendPools.
Proof.
  induction backendPools as [|pool rest IH]; simpl; [reflexivity|].
  unfold is_pool at 1. destruct (bap_ID pool) as [id|]; simpl; [|exact IH].
  destruct (String.eqb id backendAddressPoolId); simpl; [reflexivity|exact IH].
Qed.

Section AssociationRuns.
Context `{D : Deps}.

Lemma association_Read_run (w : World) (d : AssociationData) (meta : Meta)
    (s0 backendAddressPoolId : string) (nicID : NetworkInterfaceIpConfigurationId)
    (nic : InterfaceW) :
  Split (assoc_Id d) pipe = [s0; backendAddressPoolId] ->
  parse_NetworkInterfaceIpConfigurationID s0 = Ok nicID ->
  onGet w [] (ipcid_ResourceGroup nicID) (ipcid_NetworkInterfaceName nicID) = GetOk nic ->
  configs_of nic <> [] ->
  let get := EvGet (ipcid_ResourceGroup nicID) (ipcid_NetworkInterfaceName nicID) (GetOk nic) in
  if associated backendAddressPoolId (ipcid_IpConfigurationName nicID) nic
  then exists a1 a2 a3,
         run w (loadBalancerBackendAddressPoolAssociationRead d meta)
         = ([ get;
              EvSet "backend_address_pool_id" (VString backendAddressPoolId) a1;
              EvSet "ip_configuration_name" (VString (ipcid_IpConfigurationName nicID)) a2;
              EvSet "network_interface_id" (VStringPtr (nic_ID nic)) a3 ],
            Returned None)
  else run w (loadBalancerBackendAddressPoolAssociationRead d meta)
       = ([get; EvSetId ""], Returned None).
Proof.
  intros Hsplit Hparse Hget Hconfigs.
  unfold run, loadBalancerBackendAddressPoolAssociationRead.
  rewrite Hsplit. cbn [length Nat.eqb negb index lookup list_lookup lift bind].
  rewrite Hparse. cbn [exec app]. rewrite Hget. cbv zeta.
  unfold associated. unfold configs_of in *.
  destruct (nic_Properties nic) as [props|]; [|contradiction].
  destruct (IPConfigurations props) as [l|]; [|contradiction].
  cbn [FindNetworkInterfaceIPConfiguration].
  destruct (List.find _ l) as [c|]; [|reflexivity].
  unfold pools_of.
  destruct (ipc_Properties c) as [pv|]; [|reflexivity].
  destruct (LoadBalancerBackendAddressPools pv) as [pools|]; [|reflexivity].
  rewrite found_loop_spec.
  destruct (existsb _ pools); cbn [negb exec app]; eauto.
Qed.

(** X8: [loadBalancerBackendAddressPoolAssociationRead], for an ID of two
    parts and an interface that has IP configurations, returns nil. When the
    first IP configuration of the ID's name has a pool of the ID's pool ID it
    sets the three fields, to the pool ID, the name and the ID of the
    interface, and leaves the resource ID; else it sets no field and clears
    the resource ID. *)
Theorem association_Read_keeps_or_clears (w : World) (d : AssociationData) (meta : Meta)
    (s0 backendAddressPoolId : string) (nicID : NetworkInterfaceIpConfigurationId)
    (nic : InterfaceW) :
  Split (assoc_Id d) pipe = [s0; backendAddressPoolId] ->
  parse_NetworkInterfaceIpConfigurationID s0 = Ok nicID ->
  onGet w [] (ipcid_ResourceGroup nicID) (ipcid_NetworkInterfaceName nicID) = GetOk nic ->
  configs_of nic <> [] ->
  let r := run w (loadBalancerBackendAddressPoolAssociationRead d meta) in
  snd r = Returned None
  /\ if associated backendAddressPoolId (ipcid_IpConfigurationName nicID) nic
     then set_ids (fst r) = []
          /\ sets (fst r)
             = [ ("backend_address_pool_id", VString backendAddressPoolId);
                 ("ip_configuration_name", VString (ipcid_IpConfigurationName nicID));
                 ("network_interface_id", VStringPtr (nic_ID nic)) ]
     else set_ids (fst r) = [""] /\ sets (fst r) = [].
Proof.
  intros Hsplit Hparse Hget Hconfigs.
  pose proof (association_Read_run w d meta _ _ _ _ Hsplit Hparse Hget Hconfigs) as Hrun.
  cbv zeta in *.
  destruct (associated _ _ nic).
  - destruct Hrun as (a1 & a2 & a3 & ->). cbn. auto.
  - rewrite Hrun. cbn. auto.
Qed.

Lemma association_Delete_returns_nil (w : World) (d : AssociationData) (meta : Meta) :
  snd (run w (loadBalancerBackendAddressPoolAssociationDelete d meta)) = Returned None ->
  exists s0 backendAddressPoolId nicID nic c pv,
    Split (assoc_Id d) pipe = [s0; backendAddressPoolId]
    /\ parse_NetworkInterfaceIpConfigurationID s0 = Ok nicID
    /\ onGet w [EvLock (ipcid_NetworkInterfaceName nicID) networkInterfaceResourceName]
         (ipcid_ResourceGroup nicID) (ipcid_NetworkInterfaceName nicID) = GetOk nic
    /\ List.find (has_name (ipcid_IpConfigurationName nicID)) (configs_of nic) = Some c
    /\ ipc_Properties c = Some pv
    /\ fst (run w (loadBalancerBackendAddressPoolAssociationDelete d meta))
       = [ EvLock (ipcid_NetworkInterfaceName nicID) networkInterfaceResourceName;
           EvGet (ipcid_ResourceGroup nicID) (ipcid_NetworkInterfaceName nicID) (GetOk nic);
           EvCreateOrUpdate (ipcid_ResourceGroup nicID) (ipcid_NetworkInterfaceName nicID)
             (without_pool backendAddressPoolId (ipcid_IpConfigurationName nicID) nic c) None;
           EvWait None;
           EvUnlock (ipcid_NetworkInterfaceName nicID) networkInterfaceResourceName ].
Proof.
  unfold run, loadBalancerBackendAddressPoolAssociationDelete.
  destruct (Split (assoc_Id d) pipe) as [|s0 [|pool [|extra rest]]] eqn:Hsplit;
    cbn [length Nat.eqb negb index lookup list_lookup lift bind exec snd];
    try discriminate.
  destruct (parse_NetworkInterfaceIpConfigurationID s0) as [nicID|err] eqn:Hparse;
    cbn [exec defer_ app snd]; [|discriminate].
  destruct (onGet w _ _ _) as [nic|err|err] eqn:Hget; cbv zeta; cbn [exec defer_ app snd];
    try discriminate.
  pose proof (decode_Interface_decoded (ipcid_IpConfigurationName nicID) nic) as Hd.
  destruct (decode_Interface nic) as [heap read]. cbn [fst snd] in Hd.
  destruct Hd as [heap read Hn Hr|heap read props' Hn Hr Hl|heap read props' l' Hn Hr Hl Hf
                  |heap read props' l' c c' Hc Hpv Hr Hl Hf Hp
                  |heap read props' l' c c' pv p Hc Hpv Hr Hl Hf Hp Hload Hsend];
    rewrite Hr; try rewrite Hl; cbn [FindNetworkInterfaceIPConfiguration];
    try rewrite Hf; try rewrite Hp; cbn [exec defer_ app snd]; try discriminate.
  unfold load. rewrite Hload. cbn [lift bind exec defer_ app snd]. cbv zeta.
  rewrite Hsend.
  assert (Hpools : match LoadBalancerBackendAddressPools pv with
                   | Some backendPools => removePool_loop backendPools pool []
                   | None => []
                   end = List.filter (other_pool pool) (pools_of c)).
  { unfold pools_of. rewrite Hpv.
    destruct (LoadBalancerBackendAddressPools pv); [|reflexivity].
    now rewrite removePool_loop_spec. }
  rewrite Hpools.
  destruct (onCreateOrUpdate w _ _ _ _) as [err|] eqn:Hwrite; cbn [exec defer_ app snd];
    [discriminate|].
  cbv zeta. destruct (onWait w _) as [err|] eqn:Hwait; cbn [exec defer_ app snd bind];
    [discriminate|].
  intros _. exists s0, pool, nicID, nic, c, pv. repeat split; auto.
Qed.

Lemma association_CreateUpdate_returns_nil (w : World) (d : AssociationData) (meta : Meta) :
  snd (run w (loadBalancerBackendAddressPoolAssociationCreateUpdate d meta)) = Returned None ->
  exists id nic c pv,
    parse_NetworkInterfaceID (network_interface_id d) = Ok id
    /\ onGet w [EvLock (nicid_Name id) networkInterfaceResourceName]
         (nicid_ResourceGroup id) (nicid_Name id) = GetOk nic
    /\ List.find (has_name (ip_configuration_name d)) (configs_of nic) = Some c
    /\ ipc_Properties c = Some pv
    /\ existsb (is_pool (backend_address_pool_id d)) (pools_of c) = false
    /\ let pre :=
         [ EvLock (nicid_Name id) networkInterfaceResourceName;
           EvGet (nicid_ResourceGroup id) (nicid_Name id) (GetOk nic);
           EvCreateOrUpdate (nicid_ResourceGroup id) (nicid_Name id)
             (with_pool (backend_address_pool_id d) (ip_configuration_name d) nic c) None;
           EvWait None;
           EvSetId (association_ID d) ] in
       let read :=
         run (shift w pre)
           (loadBalancerBackendAddressPoolAssociationRead
              (assoc_SetId d (association_ID d)) meta) in
       fst (run w (loadBalancerBackendAddressPoolAssociationCreateUpdate d meta))
       = pre ++ fst read ++ [EvUnlock (nicid_Name id) networkInterfaceResourceName]
       /\ snd read = Returned None.
Proof.
  unfold run, loadBalancerBackendAddressPoolAssociationCreateUpdate.
  destruct (parse_NetworkInterfaceID (network_interface_id d)) as [id|err] eqn:Hparse;
    cbn [exec defer_ app snd]; [|discriminate].
  destruct (onGet w _ _ _) as [nic|err|err] eqn:Hget; cbv zeta; cbn [exec defer_ app snd];
    try discriminate.
  pose proof (decode_Interface_decoded (ip_configuration_name d) nic) as Hd.
  destruct (decode_Interface nic) as [heap read]. cbn [fst snd] in Hd.
  destruct Hd as [heap read Hn Hr|heap read props' Hn Hr Hl|heap read props' l' Hn Hr Hl Hf
                  |heap read props' l' c c' Hc Hpv Hr Hl Hf Hp
                  |heap read props' l' c c' pv p Hc Hpv Hr Hl Hf Hp Hload Hsend];
    rewrite Hr; try rewrite Hl; cbn [FindNetworkInterfaceIPConfiguration];
    try rewrite Hf; try rewrite Hp; cbn [exec defer_ app snd]; try discriminate.
  unfold load. rewrite Hload. cbn [lift bind]. cbv zeta.
  assert (Hpools :
            match LoadBalancerBackendAddressPools pv with
            | Some existing =>
                existingPools_loop existing (backend_address_pool_id d)
                  (network_interface_id d ++ "/ipConfigurations/" ++ ip_configuration_name d
                   ++ "|" ++ backend_address_pool_id d)%string []
            | None => Ok []
            end
            = if existsb (is_pool (backend_address_pool_id d)) (pools_of c)
              then Err (ImportAsExistsError
                          "azurerm_network_interface_backend_address_pool_association"
                          (association_ID d))
              else Ok (List.filter (other_pool (backend_address_pool_id d)) (pools_of c))).
  { unfold pools_of. rewrite Hpv.
    destruct (LoadBalancerBackendAddressPools pv); [|reflexivity].
    now rewrite existingPools_loop_spec. }
  rewrite Hpools. clear Hpools.
  destruct (existsb _ (pools_of c)) eqn:Hold; cbn [exec defer_ app snd]; [discriminate|].
  rewrite Hsend.
  destruct (onCreateOrUpdate w _ _ _ _) as [err|] eqn:Hwrite; cbn [exec defer_ app snd];
    [discriminate|].
  cbv zeta. destruct (onWait w _) as [err|] eqn:Hwait; cbn [exec defer_ app snd bind];
    [discriminate|].
  rewrite exec_defer_. cbn [exec fst snd].
  rewrite exec_run. cbn [fst snd]. intros Hread.
  exists id, nic, c, pv. repeat split; auto.
Qed.

End AssociationRuns.

(** ** The ID of an association, split again *)

Lemma Split_cons (s : string) (sep : ascii) : exists h t, Split s sep = h :: t.
Proof.
  induction s as [|c s (h & t & IH)]; simpl; [now eauto|].
  destruct (Ascii.eqb c sep); [now eauto|]. rewrite IH. eauto.
Qed.

Lemma Split_app (a b : string) (sep : ascii) :
  Split (a ++ String sep b) sep = Split a sep ++ Split b sep.
Proof.
  induction a as [|c a IH]; simpl.
  - now rewrite Ascii.eqb_refl.
  - rewrite IH. destruct (Ascii.eqb c sep); [reflexivity|].
    destruct (Split_cons a sep) as (h & t & ->). reflexivity.
Qed.

Lemma append_assoc (a b c : string) : ((a ++ b) ++ c = a ++ (b ++ c))%string.
Proof.
  induction a as [|x a IH]; [reflexivity|].
  change (String x ((a ++ b) ++ c) = String x (a ++ b ++ c))%string. now rewrite IH.
Qed.

Lemma contains_byte_app (a b : string) (sep : ascii) :
  contains_byte (a ++ b) sep = contains_byte a sep || contains_byte b sep.
Proof.
  induction a as [|c a IH]; simpl; [reflexivity|]. now rewrite IH, orb_assoc.
Qed.

Lemma Split_parts (s : string) (sep : ascii) :
  if contains_byte s sep then 2 <= length (Split s sep) else Split s sep = [s].
Proof.
  destruct (contains_byte s sep) eqn:Hs.
  - destruct (Split_with_separator _ _ Hs) as (s0 & s1 & rest & ->). simpl. lia.
  - now apply Split_without_separator.
Qed.

Lemma Split_association_ID (d : AssociationData) :
  if contains_byte (network_interface_id d) pipe
     || contains_byte (ip_configuration_name d) pipe
     || contains_byte (backend_address_pool_id d) pipe
  then Nat.eqb (length (Split (association_ID d) pipe)) 2 = false
  else Split (association_ID d) pipe
       = [ (network_interface_id d ++ "/ipConfigurations/" ++ ip_configuration_name d)%string;
           backend_address_pool_id d ].
Proof.
  assert (Hid : association_ID d
                = ((network_interface_id d ++ "/ipConfigurations/" ++ ip_configuration_name d)
                   ++ String pipe (backend_address_pool_id d))%string).
  { unfold association_ID. rewrite !append_assoc. reflexivity. }
  assert (Hleft : contains_byte
                    (network_interface_id d ++ "/ipConfigurations/" ++ ip_configuration_name d)
                    pipe
                  = contains_byte (network_interface_id d) pipe
                    || contains_byte (ip_configuration_name d) pipe).
  { rewrite !contains_byte_app.
    change (contains_byte "/ipConfigurations/" pipe) with false. now rewrite orb_false_l. }
  pose proof (Split_parts
                (network_interface_id d ++ "/ipConfigurations/" ++ ip_configuration_name d)
                pipe) as Ha.
  pose proof (Split_parts (backend_address_pool_id d) pipe) as Hb.
  rewrite Hleft in Ha. rewrite <- Hleft.
  rewrite Hid, Split_app. rewrite Hleft.
  destruct (contains_byte (network_interface_id d) pipe
            || contains_byte (ip_configuration_name d) pipe);
    destruct (contains_byte (backend_address_pool_id d) pipe); cbn [orb].
  4:{ now rewrite Ha, Hb. }
  all: apply Nat.eqb_neq; rewrite ?Ha, ?Hb, length_app; simpl; lia.
Qed.

(** X9: the ID that [loadBalancerBackendAddressPoolAssociationCreateUpdate]
    sets splits at ["|"] into the ID of the IP configuration and the ID of
    the pool when none of the three fields holds a ["|"]. When one does, the
    split has more than two parts: the [Read] that ends [CreateUpdate], and
    [Delete], return the format error and call nothing. *)
Theorem association_ID_splits `{D : Deps} (d : AssociationData) (meta : Meta) :
  if contains_byte (network_interface_id d) pipe
     || contains_byte (ip_configuration_name d) pipe
     || contains_byte (backend_address_pool_id d) pipe
  then loadBalancerBackendAddressPoolAssociationRead (assoc_SetId d (association_ID d)) meta
       = Ret (Some (Errorf expected_id_format))
       /\ loadBalancerBackendAddressPoolAssociationDelete (assoc_SetId d (association_ID d)) meta
          = Ret (Some (Errorf expected_id_format))
  else Split (association_ID d) pipe
       = [ (network_interface_id d ++ "/ipConfigurations/" ++ ip_configuration_name d)%string;
           backend_address_pool_id d ].
Proof.
  pose proof (Split_association_ID d) as Hsplit.
  destruct (_ || _ || _); [|exact Hsplit].
  unfold loadBalancerBackendAddressPoolAssociationRead,
    loadBalancerBackendAddressPoolAssociationDelete.
  cbn [assoc_SetId assoc_Id]. rewrite Hsplit. split; reflexivity.
Qed.

(** ** The association on a service that stores what it is sent *)

Lemma sets_app (tr1 tr2 : list Event) : sets (tr1 ++ tr2) = sets tr1 ++ sets tr2.
Proof.
  induction tr1 as [|e tr1 IH]; simpl; [reflexivity|].
  destruct e; simpl; now rewrite ?IH.
Qed.

Lemma set_ids_app (tr1 tr2 : list Event) : set_ids (tr1 ++ tr2) = set_ids tr1 ++ set_ids tr2.
Proof.
  induction tr1 as [|e tr1 IH]; simpl; [reflexivity|].
  destruct e; simpl; now rewrite ?IH.
Qed.

Lemma read_only_stored {A} (p : Prog A) :
  read_only p -> forall (w : World) (past : list Event) (stored : option InterfaceW),
  stored_after stored (fst (exec w past p)) = stored_after stored past.
Proof.
  induction p as [a|msg|n t k IH|n t k IH|l k IH|l k IH|rg n k IH|rg n b k IH|rg n k IH
                  |k IH|id k IH|key v k IH];
    intros Hp w past stored; simpl in Hp |- *; try reflexivity; try contradiction.
  all: rewrite IH by auto; now rewrite stored_after_app.
Qed.

Lemma sample_world_faithful (stored : option InterfaceW) : faithful stored (sample_world stored).
Proof.
  intros past rg n. cbn [sample_world onGet]. now destruct (stored_after stored past).
Qed.

Lemma has_name_set_pools (name : string) (c : IPConfigW) (pools : list BackendAddressPool) :
  has_name name (set_pools c pools) = has_name name c.
Proof. reflexivity. Qed.

Lemma pools_of_set_pools (c : IPConfigW) (pv : InterfaceIPConfigurationPropertiesFormat)
    (pools : list BackendAddressPool) :
  ipc_Properties c = Some pv -> pools_of (set_pools c pools) = pools.
Proof. intros Hpv. unfold pools_of, set_pools. simpl. now rewrite Hpv. Qed.

Lemma set_pools_set_pools (c : IPConfigW) (a b : list BackendAddressPool) :
  set_pools (set_pools c a) b = set_pools c b.
Proof. unfold set_pools. simpl. now destruct (ipc_Properties c). Qed.

Lemma find_configs_of (name : string) (nic : InterfaceW) (c : IPConfigW) :
  List.find (has_name name) (configs_of nic) = Some c ->
  exists props, nic_Properties nic = Some props
                /\ IPConfigurations props = Some (configs_of nic)
                /\ has_name name c = true.
Proof.
  intros Hfind. pose proof (find_some _ _ Hfind) as [_ Hname].
  unfold configs_of in *.
  destruct (nic_Properties nic) as [props|]; [|discriminate].
  destruct (IPConfigurations props) as [l|] eqn:Hl; [|discriminate]. eauto.
Qed.

Lemma configs_of_with_configs (nic : InterfaceW) (props : PropertiesW) (l : list IPConfigW) :
  nic_Properties nic = Some props -> configs_of (with_configs nic l) = l.
Proof. intros Hprops. unfold configs_of, with_configs. simpl. now rewrite Hprops. Qed.

Lemma with_configs_with_configs (nic : InterfaceW) (l1 l2 : list IPConfigW) :
  with_configs (with_configs nic l1) l2 = with_configs nic l2.
Proof. unfold with_configs. simpl. now destruct (nic_Properties nic). Qed.

Lemma replace_named_replace_named (name : string) (x y : IPConfigW) (l : list IPConfigW) :
  has_name name y = true ->
  replace_named name x (replace_named name y l) = replace_named name x l.
Proof.
  intros Hy. unfold replace_named. rewrite map_map. apply map_ext. intros v.
  destruct (has_name name v) eqn:Hv; [now rewrite Hy|now rewrite Hv].
Qed.

Lemma filter_other_pool_twice (pool : string) (l : list BackendAddressPool) :
  List.filter (other_pool pool) (List.filter (other_pool pool) l)
  = List.filter (other_pool pool) l.
Proof.
  induction l as [|x l IH]; simpl; [reflexivity|].
  destruct (other_pool pool x) eqn:Hx; simpl; [rewrite Hx|]; now rewrite ?IH.
Qed.

Lemma filter_other_pool_new (pool : string) (l : list BackendAddressPool) :
  List.filter (other_pool pool) (List.filter (other_pool pool) l ++ [new_pool pool])
  = List.filter (other_pool pool) l.
Proof.
  rewrite List.filter_app, filter_other_pool_twice. simpl.
  unfold other_pool at 2. simpl. rewrite String.eqb_refl. simpl. apply app_nil_r.
Qed.

Lemma associated_with_pool (pool name : string) (nic : InterfaceW) (c : IPConfigW)
    (pv : InterfaceIPConfigurationPropertiesFormat) :
  List.find (has_name name) (configs_of nic) = Some c ->
  ipc_Properties c = Some pv ->
  associated pool name (with_pool pool name nic c) = true.
Proof.
  intros Hfind Hpv. destruct (find_configs_of _ _ _ Hfind) as (props & Hprops & Hl & Hname).
  unfold associated, with_pool. rewrite (configs_of_with_configs _ _ _ Hprops).
  rewrite (find_replace_named _ _ _ _ Hfind) by exact Hname.
  rewrite (pools_of_set_pools _ _ _ Hpv), existsb_app. simpl.
  unfold is_pool at 2. simpl. rewrite String.eqb_refl. apply orb_true_iff. auto.
Qed.

Lemma find_with_pool (pool name : string) (nic : InterfaceW) (c : IPConfigW) :
  List.find (has_name name) (configs_of nic) = Some c ->
  List.find (has_name name) (configs_of (with_pool pool name nic c))
  = Some (set_pools c (List.filter (other_pool pool) (pools_of c) ++ [new_pool pool])).
Proof.
  intros Hfind. destruct (find_configs_of _ _ _ Hfind) as (props & Hprops & Hl & Hname).
  unfold with_pool. rewrite (configs_of_with_configs _ _ _ Hprops).
  now rewrite (find_replace_named _ _ _ _ Hfind).
Qed.

Lemma find_without_pool (pool name : string) (nic : InterfaceW) (c : IPConfigW) :
  List.find (has_name name) (configs_of nic) = Some c ->
  List.find (has_name name) (configs_of (without_pool pool name nic c))
  = Some (set_pools c (List.filter (other_pool pool) (pools_of c))).
Proof.
  intros Hfind. destruct (find_configs_of _ _ _ Hfind) as (props & Hprops & Hl & Hname).
  unfold without_pool. rewrite (configs_of_with_configs _ _ _ Hprops).
  now rewrite (find_replace_named _ _ _ _ Hfind).
Qed.

Lemma without_pool_with_pool (pool name : string) (nic : InterfaceW) (c : IPConfigW)
    (pv : InterfaceIPConfigurationPropertiesFormat) :
  List.find (has_name name) (configs_of nic) = Some c ->
  ipc_Properties c = Some pv ->
  without_pool pool name (with_pool pool name nic c)
    (set_pools c (List.filter (other_pool pool) (pools_of c) ++ [new_pool pool]))
  = without_pool pool name nic c.
Proof.
  intros Hfind Hpv. destruct (find_configs_of _ _ _ Hfind) as (props & Hprops & Hl & Hname).
  unfold without_pool at 1. unfold with_pool.
  rewrite (configs_of_with_configs _ _ _ Hprops), with_configs_with_configs.
  rewrite replace_named_replace_named by exact Hname.
  rewrite set_pools_set_pools, (pools_of_set_pools _ _ _ Hpv), filter_other_pool_new.
  reflexivity.
Qed.

Lemma without_pool_without_pool (pool name : string) (nic : InterfaceW) (c : IPConfigW)
    (pv : InterfaceIPConfigurationPropertiesFormat) :
  List.find (has_name name) (configs_of nic) = Some c ->
  ipc_Properties c = Some pv ->
  without_pool pool name (without_pool pool name nic c)
    (set_pools c (List.filter (other_pool pool) (pools_of c)))
  = without_pool pool name nic c.
Proof.
  intros Hfind Hpv. destruct (find_configs_of _ _ _ Hfind) as (props & Hprops & Hl & Hname).
  unfold without_pool.
  rewrite (configs_of_with_configs _ _ _ Hprops), with_configs_with_configs.
  rewrite replace_named_replace_named by exact Hname.
  rewrite set_pools_set_pools, (pools_of_set_pools _ _ _ Hpv), filter_other_pool_twice.
  reflexivity.
Qed.

Section AssociationService.
Context `{D : Deps}.

Lemma association_Read_is_read_only (d : AssociationData) (meta : Meta) :
  read_only (loadBalancerBackendAddressPoolAssociationRead d meta).
Proof. unfold loadBalancerBackendAddressPoolAssociationRead. walk_read_only. Qed.

Lemma existsb_is_pool_other (pool : string) (l : list BackendAddressPool) :
  existsb (is_pool pool) (List.filter (other_pool pool) l) = false.
Proof.
  induction l as [|x l IH]; simpl; [reflexivity|].
  unfold other_pool at 1. destruct (bap_ID x) as [id|] eqn:Hid; simpl; [|exact IH].
  destruct (String.eqb id pool) eqn:Heq; simpl; [exact IH|].
  unfold is_pool at 1. now rewrite Hid, Heq.
Qed.

Lemma existsb_is_pool_new (pool : string) (l : list BackendAddressPool) :
  existsb (is_pool pool) (l ++ [new_pool pool]) = true.
Proof.
  rewrite existsb_app. simpl. unfold is_pool at 2. simpl.
  rewrite String.eqb_refl. apply orb_true_iff. auto.
Qed.

Lemma associated_without_pool (pool name : string) (nic : InterfaceW) (c : IPConfigW)
    (pv : InterfaceIPConfigurationPropertiesFormat) :
  List.find (has_name name) (configs_of nic) = Some c ->
  ipc_Properties c = Some pv ->
  associated pool name (without_pool pool name nic c) = false.
Proof.
  intros Hfind Hpv. unfold associated. rewrite (find_without_pool _ _ _ _ Hfind).
  rewrite (pools_of_set_pools _ _ _ Hpv). apply existsb_is_pool_other.
Qed.

(** A [Read] that returns nil: it kept the association that it found, or
    cleared the ID. *)
Lemma association_Read_returns_nil (w : World) (d : AssociationData) (meta : Meta) :
  snd (run w (loadBalancerBackendAddressPoolAssociationRead d meta)) = Returned None ->
  exists s0 backendAddressPoolId nicID,
    Split (assoc_Id d) pipe = [s0; backendAddressPoolId]
    /\ parse_NetworkInterfaceIpConfigurationID s0 = Ok nicID
    /\ match onGet w [] (ipcid_ResourceGroup nicID) (ipcid_NetworkInterfaceName nicID) with
       | GetOk nic =>
           if associated backendAddressPoolId (ipcid_IpConfigurationName nicID) nic
           then set_ids (fst (run w (loadBalancerBackendAddressPoolAssociationRead d meta)))
                = []
                /\ sets (fst (run w (loadBalancerBackendAddressPoolAssociationRead d meta)))
                   = [ ("backend_address_pool_id", VString backendAddressPoolId);
                       ("ip_configuration_name", VString (ipcid_IpConfigurationName nicID));
                       ("network_interface_id", VStringPtr (nic_ID nic)) ]
           else set_ids (fst (run w (loadBalancerBackendAddressPoolAssociationRead d meta)))
                = [""]
       | GetNotFound _ =>
           set_ids (fst (run w (loadBalancerBackendAddressPoolAssociationRead d meta))) = [""]
       | GetFailed _ => False
       end.
Proof.
  unfold run, loadBalancerBackendAddressPoolAssociationRead.
  destruct (Split (assoc_Id d) pipe) as [|s0 [|pool [|extra rest]]] eqn:Hsplit;
    cbn [length Nat.eqb negb index lookup list_lookup lift bind exec snd];
    try discriminate.
  destruct (parse_NetworkInterfaceIpConfigurationID s0) as [nicID|err] eqn:Hparse;
    cbn [exec app snd]; [|discriminate].
  intros Hnil. exists s0, pool, nicID. split; [reflexivity|]. split; [exact Hparse|].
  revert Hnil. cbv zeta.
  destruct (onGet w _ _ _) as [nic|err|err] eqn:Hget; cbn [exec app snd fst set_ids];
    try discriminate; [|reflexivity].
  unfold associated, configs_of.
  destruct (nic_Properties nic) as [props|]; [|discriminate].
  destruct (IPConfigurations props) as [l|]; [|discriminate].
  cbn [FindNetworkInterfaceIPConfiguration].
  destruct (List.find _ l) as [c|]; [|reflexivity].
  unfold pools_of.
  destruct (ipc_Properties c) as [pv|]; [|reflexivity].
  destruct (LoadBalancerBackendAddressPools pv) as [pools|]; [|reflexivity].
  rewrite found_loop_spec.
  destruct (existsb _ pools); cbn [negb exec app fst sets set_ids]; auto.
Qed.

Lemma association_CreateUpdate_on_faithful (stored : option InterfaceW) (w : World)
    (d : AssociationData) (meta : Meta) :
  faithful stored w ->
  snd (run w (loadBalancerBackendAddressPoolAssociationCreateUpdate d meta)) = Returned None ->
  exists id nic c pv,
    parse_NetworkInterfaceID (network_interface_id d) = Ok id
    /\ stored = Some nic
    /\ List.find (has_name (ip_configuration_name d)) (configs_of nic) = Some c
    /\ ipc_Properties c = Some pv
    /\ existsb (is_pool (backend_address_pool_id d)) (pools_of c) = false
    /\ stored_after stored
         (fst (run w (loadBalancerBackendAddressPoolAssociationCreateUpdate d meta)))
       = Some (with_pool (backend_address_pool_id d) (ip_configuration_name d) nic c)
    /\ exists pre,
         stored_after stored pre
         = Some (with_pool (backend_address_pool_id d) (ip_configuration_name d) nic c)
         /\ set_ids pre = [association_ID d]
         /\ sets pre = []
         /\ fst (run w (loadBalancerBackendAddressPoolAssociationCreateUpdate d meta))
            = pre
              ++ fst (run (shift w pre)
                        (loadBalancerBackendAddressPoolAssociationRead
                           (assoc_SetId d (association_ID d)) meta))
              ++ [EvUnlock (nicid_Name id) networkInterfaceResourceName]
         /\ snd (run (shift w pre)
                   (loadBalancerBackendAddressPoolAssociationRead
                      (assoc_SetId d (association_ID d)) meta)) = Returned None.
Proof.
  intros Hw Hnil.
  destruct (association_CreateUpdate_returns_nil w d meta Hnil)
    as (id & nic & c & pv & Hparse & Hget & Hfind & Hpv & Hold & Htr & Hread).
  cbv zeta in Htr, Hread.
  pose proof (Hw [EvLock (nicid_Name id) networkInterfaceResourceName]
                (nicid_ResourceGroup id) (nicid_Name id)) as Hstored.
  rewrite Hget in Hstored. cbn in Hstored.
  exists id, nic, c, pv. repeat (split; [assumption|]).
  split.
  - rewrite Htr, !stored_after_app.
    unfold run. rewrite read_only_stored by apply association_Read_is_read_only.
    reflexivity.
  - eexists. split; [|split; [|split; [|split; [exact Htr|exact Hread]]]]; reflexivity.
Qed.

Lemma association_Delete_on_faithful (stored : option InterfaceW) (w : World)
    (d : AssociationData) (meta : Meta) :
  faithful stored w ->
  snd (run w (loadBalancerBackendAddressPoolAssociationDelete d meta)) = Returned None ->
  exists s0 backendAddressPoolId nicID nic c pv,
    Split (assoc_Id d) pipe = [s0; backendAddressPoolId]
    /\ parse_NetworkInterfaceIpConfigurationID s0 = Ok nicID
    /\ stored = Some nic
    /\ List.find (has_name (ipcid_IpConfigurationName nicID)) (configs_of nic) = Some c
    /\ ipc_Properties c = Some pv
    /\ set_ids (fst (run w (loadBalancerBackendAddressPoolAssociationDelete d meta))) = []
    /\ stored_after stored
         (fst (run w (loadBalancerBackendAddressPoolAssociationDelete d meta)))
       = Some (without_pool backendAddressPoolId (ipcid_IpConfigurationName nicID) nic c).
Proof.
  intros Hw Hnil.
  destruct (association_Delete_returns_nil w d meta Hnil)
    as (s0 & pool & nicID & nic & c & pv & Hsplit & Hparse & Hget & Hfind & Hpv & Htr).
  pose proof (Hw [EvLock (ipcid_NetworkInterfaceName nicID) networkInterfaceResourceName]
                (ipcid_ResourceGroup nicID) (ipcid_NetworkInterfaceName nicID)) as Hstored.
  rewrite Hget in Hstored. cbn in Hstored.
  exists s0, pool, nicID, nic, c, pv. repeat (split; [assumption|]).
  rewrite Htr. split; reflexivity.
Qed.

(** What a [Read] after the ID of [CreateUpdate] looks for. *)
Lemma association_Read_of_ID (w : World) (d : AssociationData) (meta : Meta) :
  parses_name d ->
  snd (run w (loadBalancerBackendAddressPoolAssociationRead
                (assoc_SetId d (association_ID d)) meta)) = Returned None ->
  exists nicID,
    match onGet w [] (ipcid_ResourceGroup nicID) (ipcid_NetworkInterfaceName nicID) with
    | GetOk nic =>
        if associated (backend_address_pool_id d) (ip_configuration_name d) nic
        then set_ids (fst (run w (loadBalancerBackendAddressPoolAssociationRead
                                    (assoc_SetId d (association_ID d)) meta))) = []
             /\ sets (fst (run w (loadBalancerBackendAddressPoolAssociationRead
                                    (assoc_SetId d (association_ID d)) meta)))
                = [ ("backend_address_pool_id", VString (backend_address_pool_id d));
                    ("ip_configuration_name", VString (ip_configuration_name d));
                    ("network_interface_id", VStringPtr (nic_ID nic)) ]
        else set_ids (fst (run w (loadBalancerBackendAddressPoolAssociationRead
                                    (assoc_SetId d (association_ID d)) meta))) = [""]
    | GetNotFound _ =>
        set_ids (fst (run w (loadBalancerBackendAddressPoolAssociationRead
                               (assoc_SetId d (association_ID d)) meta))) = [""]
    | GetFailed _ => False
    end.
Proof.
  intros Hname Hnil.
  destruct (association_Read_returns_nil w _ meta Hnil)
    as (s0 & pool & nicID & Hsplit & Hparse & Hget).
  cbn [assoc_SetId assoc_Id] in Hsplit.
  pose proof (Split_association_ID d) as Hid. rewrite Hsplit in Hid.
  destruct (_ || _ || _); [discriminate|]. injection Hid as -> ->.
  rewrite (Hname _ Hparse) in Hget. eauto.
Qed.

(** X10: when [loadBalancerBackendAddressPoolAssociationCreateUpdate] returns
    nil against a service that stores what it is sent, the resource has the
    ID of the association, the three fields are set to the requested pool,
    the requested name and the ID of the interface, and in the interface
    that the service stores the named IP configuration is in the pool. *)
Theorem association_CreateUpdate_reads_back (stored : option InterfaceW) (w : World)
    (d : AssociationData) (meta : Meta) :
  faithful stored w ->
  parses_name d ->
  snd (run w (loadBalancerBackendAddressPoolAssociationCreateUpdate d meta)) = Returned None ->
  let tr := fst (run w (loadBalancerBackendAddressPoolAssociationCreateUpdate d meta)) in
  id_set tr = Some (association_ID d)
  /\ value_set "backend_address_pool_id" tr = Some (VString (backend_address_pool_id d))
  /\ value_set "ip_configuration_name" tr = Some (VString (ip_configuration_name d))
  /\ exists nic,
       stored_after stored tr = Some nic
       /\ associated (backend_address_pool_id d) (ip_configuration_name d) nic = true
       /\ value_set "network_interface_id" tr = Some (VStringPtr (nic_ID nic)).
Proof.
  intros Hw Hname Hnil.
  destruct (association_CreateUpdate_on_faithful stored w d meta Hw Hnil)
    as (id & nic & c & pv & Hparse & Hstored & Hfind & Hpv & Hold & Hafter
        & pre & Hpre & Hids & Hsets & Htr & Hread).
  destruct (association_Read_of_ID _ d meta Hname Hread) as (nicID & Hget).
  pose proof (faithful_shift stored w pre Hw [] (ipcid_ResourceGroup nicID)
                (ipcid_NetworkInterfaceName nicID)) as Hthen.
  rewrite Hpre in Hthen.
  destruct (onGet (shift w pre) [] _ _) as [nic'|err|err]; cbn in Hthen;
    [|discriminate|contradiction].
  injection Hthen as <-.
  rewrite (associated_with_pool _ _ _ _ _ Hfind Hpv) in Hget. destruct Hget as [Hids' Hsets'].
  cbv zeta. unfold id_set, value_set.
  rewrite Htr, !set_ids_app, !sets_app, Hids, Hsets, Hids', Hsets'.
  repeat split.
  exists (with_pool (backend_address_pool_id d) (ip_configuration_name d) nic c).
  rewrite <- Htr.
  split; [exact Hafter|]. split; [exact (associated_with_pool _ _ _ _ _ Hfind Hpv)|].
  reflexivity.
Qed.

(** X11: after a [loadBalancerBackendAddressPoolAssociationCreateUpdate] that
    returned nil against a service that stores what it is sent, a second one
    for the same association writes nothing and returns an error: the
    import-as-exists error, or the error of a [Get] that failed. *)
Theorem association_CreateUpdate_twice (stored : option InterfaceW) (w : World)
    (d : AssociationData) (meta : Meta) :
  faithful stored w ->
  snd (run w (loadBalancerBackendAddressPoolAssociationCreateUpdate d meta)) = Returned None ->
  let again :=
    after_run w (loadBalancerBackendAddressPoolAssociationCreateUpdate d meta)
      (loadBalancerBackendAddressPoolAssociationCreateUpdate d meta) in
  writes (fst again)
  = writes (fst (run w (loadBalancerBackendAddressPoolAssociationCreateUpdate d meta)))
  /\ (snd again
      = Returned (Some (ImportAsExistsError
                          "azurerm_network_interface_backend_address_pool_association"
                          (association_ID d)))
      \/ snd again = Returned (Some (Errorf "retrieving %s: %+v"))).
Proof.
  intros Hw Hnil.
  destruct (association_CreateUpdate_on_faithful stored w d meta Hw Hnil)
    as (id & nic & c & pv & Hparse & Hstored & Hfind & Hpv & Hold & Hafter & _).
  cbv zeta. unfold after_run. set (tr := fst (run w _)) in *.
  rewrite exec_run. cbn [fst snd]. rewrite writes_app.
  pose proof (faithful_shift stored w tr Hw
                [EvLock (nicid_Name id) networkInterfaceResourceName]
                (nicid_ResourceGroup id) (nicid_Name id)) as Hthen.
  unfold run, loadBalancerBackendAddressPoolAssociationCreateUpdate.
  rewrite Hparse. cbn [exec defer_ app].
  destruct (onGet (shift w tr) _ _ _) as [nic'|err|err]; cbv zeta.
  2:{ cbn in Hthen. congruence. }
  2:{ cbn [exec defer_ bind app fst snd writes]. rewrite app_nil_r. auto. }
  cbn [stored_after fold_left] in Hthen. fold (stored_after stored tr) in Hthen.
  rewrite Hafter in Hthen. injection Hthen as <-.
  pose proof (decode_Interface_decoded (ip_configuration_name d)
                (with_pool (backend_address_pool_id d) (ip_configuration_name d) nic c)) as Hd.
  destruct (decode_Interface _) as [heap read]. cbn [fst snd] in Hd.
  destruct Hd as [heap read Hn Hr|heap read props' Hn Hr Hl|heap read props' l' Hn Hr Hl Hf
                  |heap read props' l' c2 c' Hc Hnil2 Hr Hl Hf Hp
                  |heap read props' l' c2 c' pv2 p Hc Hpv2 Hr Hl Hf Hp Hload Hsend].
  1,2,3: exfalso.
  - destruct (find_configs_of _ _ _ Hfind) as (props & Hprops & _).
    unfold with_pool, with_configs in Hn. simpl in Hn. rewrite Hprops in Hn. discriminate.
  - pose proof (find_with_pool (backend_address_pool_id d) _ _ _ Hfind) as Hf2.
    rewrite Hn in Hf2. discriminate.
  - rewrite (find_with_pool _ _ _ _ Hfind) in Hn. discriminate.
  - rewrite (find_with_pool _ _ _ _ Hfind) in Hc.
    injection Hc as <-. unfold set_pools in Hnil2. simpl in Hnil2. rewrite Hpv in Hnil2.
    discriminate.
  - rewrite (find_with_pool _ _ _ _ Hfind) in Hc. injection Hc as <-.
    rewrite Hr, Hl. cbn [FindNetworkInterfaceIPConfiguration]. rewrite Hf, Hp.
    unfold load. rewrite Hload. cbn [lift bind].
    assert (Hpools : LoadBalancerBackendAddressPools pv2
                     = Some (List.filter (other_pool (backend_address_pool_id d)) (pools_of c)
                             ++ [new_pool (backend_address_pool_id d)])).
    { unfold set_pools in Hpv2. simpl in Hpv2. rewrite Hpv in Hpv2.
      injection Hpv2 as <-. reflexivity. }
    rewrite Hpools, existingPools_loop_spec, existsb_is_pool_new.
    cbn [exec defer_ bind app fst snd writes]. rewrite app_nil_r. auto.
Qed.

(** X12: against a service that stores what it is sent, a
    [loadBalancerBackendAddressPoolAssociationCreateUpdate] and then a
    [loadBalancerBackendAddressPoolAssociationDelete] of the ID it set, both
    returning nil, leave the interface as it was but for the pools of the
    named IP configuration: those are the pools it had that have an ID other
    than the pool of the association. *)
Theorem association_CreateUpdate_then_Delete (stored : option InterfaceW) (w : World)
    (d : AssociationData) (meta : Meta) :
  faithful stored w ->
  parses_name d ->
  snd (run w (loadBalancerBackendAddressPoolAssociationCreateUpdate d meta)) = Returned None ->
  snd (after_run w (loadBalancerBackendAddressPoolAssociationCreateUpdate d meta)
         (loadBalancerBackendAddressPoolAssociationDelete
            (assoc_SetId d (association_ID d)) meta)) = Returned None ->
  exists nic c,
    stored = Some nic
    /\ List.find (has_name (ip_configuration_name d)) (configs_of nic) = Some c
    /\ stored_after stored
         (fst (after_run w (loadBalancerBackendAddressPoolAssociationCreateUpdate d meta)
                 (loadBalancerBackendAddressPoolAssociationDelete
                    (assoc_SetId d (association_ID d)) meta)))
       = Some (without_pool (backend_address_pool_id d) (ip_configuration_name d) nic c).
Proof.
  intros Hw Hname Hnil.
  destruct (association_CreateUpdate_on_faithful stored w d meta Hw Hnil)
    as (id & nic & c & pv & Hparse & Hstored & Hfind & Hpv & Hold & Hafter & _).
  unfold after_run. set (tr := fst (run w _)) in *.
  rewrite exec_run. cbn [fst snd]. intros Hundo.
  destruct (association_Delete_on_faithful _ _ _ meta (faithful_shift stored w tr Hw) Hundo)
    as (s0 & pool & nicID & nic2 & c2 & pv2 & Hsplit & Hparse2 & Hstored2 & Hfind2 & Hpv2
        & _ & Hafter2).
  cbn [assoc_SetId assoc_Id] in Hsplit.
  pose proof (Split_association_ID d) as Hid. rewrite Hsplit in Hid.
  destruct (_ || _ || _); [discriminate|]. injection Hid as -> ->.
  rewrite (Hname _ Hparse2) in *.
  rewrite Hafter in Hstored2. injection Hstored2 as <-.
  rewrite (find_with_pool _ _ _ _ Hfind) in Hfind2. injection Hfind2 as <-.
  rewrite (without_pool_with_pool _ _ _ _ _ Hfind Hpv) in Hafter2.
  exists nic, c. repeat split; auto.
  now rewrite stored_after_app.
Qed.

(** X13: against a service that stores what it is sent, after a
    [loadBalancerBackendAddressPoolAssociationDelete] that returned nil, a
    [loadBalancerBackendAddressPoolAssociationRead] of the same resource
    that returns nil has cleared the ID. *)
Theorem association_Delete_then_Read (stored : option InterfaceW) (w : World)
    (d : AssociationData) (meta : Meta) :
  faithful stored w ->
  snd (run w (loadBalancerBackendAddressPoolAssociationDelete d meta)) = Returned None ->
  snd (after_run w (loadBalancerBackendAddressPoolAssociationDelete d meta)
         (loadBalancerBackendAddressPoolAssociationRead d meta)) = Returned None ->
  id_set (fst (after_run w (loadBalancerBackendAddressPoolAssociationDelete d meta)
                 (loadBalancerBackendAddressPoolAssociationRead d meta))) = Some "".
Proof.
  intros Hw Hnil.
  destruct (association_Delete_on_faithful stored w d meta Hw Hnil)
    as (s0 & pool & nicID & nic & c & pv & Hsplit & Hparse & Hstored & Hfind & Hpv
        & Hids & Hafter).
  unfold after_run, id_set. set (tr := fst (run w _)) in *.
  rewrite exec_run. cbn [fst snd]. intros Hread.
  destruct (association_Read_returns_nil _ d meta Hread)
    as (s0' & pool' & nicID' & Hsplit' & Hparse' & Hget).
  rewrite Hsplit in Hsplit'. injection Hsplit' as <- <-.
  rewrite Hparse in Hparse'. injection Hparse' as <-.
  pose proof (faithful_shift stored w tr Hw [] (ipcid_ResourceGroup nicID)
                (ipcid_NetworkInterfaceName nicID)) as Hthen.
  rewrite Hafter in Hthen.
  rewrite set_ids_app, Hids.
  destruct (onGet (shift w tr) [] _ _) as [nic'|err|err]; cbn in Hthen;
    [|discriminate|contradiction].
  injection Hthen as <-.
  rewrite (associated_without_pool _ _ _ _ _ Hfind Hpv) in Hget. now rewrite Hget.
Qed.

(** X14: against a service that stores what it is sent, a second
    [loadBalancerBackendAddressPoolAssociationDelete] of the same resource,
    when it returns nil as the first did, leaves the interface as the first
    left it. *)
Theorem association_Delete_twice (stored : option InterfaceW) (w : World)
    (d : AssociationData) (meta : Meta) :
  faithful stored w ->
  snd (run w (loadBalancerBackendAddressPoolAssociationDelete d meta)) = Returned None ->
  snd (after_run w (loadBalancerBackendAddressPoolAssociationDelete d meta)
         (loadBalancerBackendAddressPoolAssociationDelete d meta)) = Returned None ->
  stored_after stored
    (fst (after_run w (loadBalancerBackendAddressPoolAssociationDelete d meta)
            (loadBalancerBackendAddressPoolAssociationDelete d meta)))
  = stored_after stored (fst (run w (loadBalancerBackendAddressPoolAssociationDelete d meta))).
Proof.
  intros Hw Hnil.
  destruct (association_Delete_on_faithful stored w d meta Hw Hnil)
    as (s0 & pool & nicID & nic & c & pv & Hsplit & Hparse & Hstored & Hfind & Hpv
        & Hids & Hafter).
  unfold after_run. set (tr := fst (run w _)) in *.
  rewrite exec_run. cbn [fst snd]. intros Hagain.
  destruct (association_Delete_on_faithful _ _ _ meta (faithful_shift stored w tr Hw) Hagain)
    as (s0' & pool' & nicID' & nic2 & c2 & pv2 & Hsplit' & Hparse' & Hstored2 & Hfind2 & Hpv2
        & _ & Hafter2).
  rewrite Hsplit in Hsplit'. injection Hsplit' as <- <-.
  rewrite Hparse in Hparse'. injection Hparse' as <-.
  rewrite Hafter in Hstored2. injection Hstored2 as <-.
  rewrite (find_without_pool _ _ _ _ Hfind) in Hfind2. injection Hfind2 as <-.
  rewrite (without_pool_without_pool _ _ _ _ _ Hfind Hpv) in Hafter2.
  rewrite stored_after_app, Hafter2. now rewrite Hafter.
Qed.

End AssociationService.

(** The theorems above on the sample interface, whose [cfg1] is in the pool
    [b]: it is associated with the pool [a], and the association deleted. *)

Lemma sample_parses_name (pool : string) :
  parses_name (D := sample_deps) (sample_association pool).
Proof. intros nicID H. vm_compute in H. now injection H as <-. Qed.

Lemma association_Read_keeps_or_clears_witness :
  snd (run (sample_world (Some (sample_nic
              [sample_cfg0; sample_config "cfg1" (Some [sample_pool (Some sample_pool_a)])])))
         (loadBalancerBackendAddressPoolAssociationRead (D := sample_deps)
            (sample_association sample_pool_a) sample_meta))
  = Returned None.
Proof.
  refine (proj1 (association_Read_keeps_or_clears (D := sample_deps)
                   (sample_world (Some (sample_nic
                      [sample_cfg0;
                       sample_config "cfg1" (Some [sample_pool (Some sample_pool_a)])])))
                   (sample_association sample_pool_a) sample_meta _ _ sample_ipc_id _
                   eq_refl eq_refl eq_refl _)).
  discriminate.
Defined.

Lemma association_CreateUpdate_reads_back_witness :
  id_set (fst (run (sample_world (Some (sample_nic
                      [sample_cfg0;
                       sample_config "cfg1" (Some [sample_pool (Some sample_pool_b)])])))
                 (loadBalancerBackendAddressPoolAssociationCreateUpdate (D := sample_deps)
                    (sample_association sample_pool_a) sample_meta)))
  = Some (sample_nic_id ++ "/ipConfigurations/cfg1|" ++ sample_pool_a)%string.
Proof.
  refine (proj1 (association_CreateUpdate_reads_back (D := sample_deps) _
                   (sample_world (Some (sample_nic
                      [sample_cfg0;
                       sample_config "cfg1" (Some [sample_pool (Some sample_pool_b)])])))
                   (sample_association sample_pool_a) sample_meta _ _ eq_refl)).
  - apply sample_world_faithful.
  - apply sample_parses_name.
Defined.

Lemma association_CreateUpdate_twice_witness :
  snd (after_run
         (sample_world (Some (sample_nic
            [sample_cfg0; sample_config "cfg1" (Some [sample_pool (Some sample_pool_b)])])))
         (loadBalancerBackendAddressPoolAssociationCreateUpdate (D := sample_deps)
            (sample_association sample_pool_a) sample_meta)
         (loadBalancerBackendAddressPoolAssociationCreateUpdate (D := sample_deps)
            (sample_association sample_pool_a) sample_meta))
  = Returned (Some (ImportAsExistsError
                      "azurerm_network_interface_backend_address_pool_association"
                      (sample_nic_id ++ "/ipConfigurations/cfg1|" ++ sample_pool_a)%string))
  \/ snd (after_run
            (sample_world (Some (sample_nic
               [sample_cfg0; sample_config "cfg1" (Some [sample_pool (Some sample_pool_b)])])))
            (loadBalancerBackendAddressPoolAssociationCreateUpdate (D := sample_deps)
               (sample_association sample_pool_a) sample_meta)
            (loadBalancerBackendAddressPoolAssociationCreateUpdate (D := sample_deps)
               (sample_association sample_pool_a) sample_meta))
     = Returned (Some (Errorf "retrieving %s: %+v")).
Proof.
  refine (proj2 (association_CreateUpdate_twice (D := sample_deps) _
                   (sample_world (Some (sample_nic
                      [sample_cfg0;
                       sample_config "cfg1" (Some [sample_pool (Some sample_pool_b)])])))
                   (sample_association sample_pool_a) sample_meta _ eq_refl)).
  apply sample_world_faithful.
Defined.

Lemma association_CreateUpdate_then_Delete_witness :
  exists nic c,
    Some (sample_nic
            [sample_cfg0;
             sample_config "cfg1" (Some [sample_pool (Some sample_pool_b); sample_pool None])])
    = Some nic
    /\ List.find (has_name "cfg1") (configs_of nic) = Some c
    /\ stored_after
         (Some (sample_nic
                  [sample_cfg0;
                   sample_config "cfg1"
                     (Some [sample_pool (Some sample_pool_b); sample_pool None])]))
         (fst (after_run
                 (sample_world (Some (sample_nic
                    [sample_cfg0;
                     sample_config "cfg1"
                       (Some [sample_pool (Some sample_pool_b); sample_pool None])])))
                 (loadBalancerBackendAddressPoolAssociationCreateUpdate (D := sample_deps)
                    (sample_association sample_pool_a) sample_meta)
                 (loadBalancerBackendAddressPoolAssociationDelete (D := sample_deps)
                    (assoc_SetId (sample_association sample_pool_a)
                       (association_ID (sample_association sample_pool_a)))
                    sample_meta)))
       = Some (without_pool sample_pool_a "cfg1" nic c).
Proof.
  refine (association_CreateUpdate_then_Delete (D := sample_deps) _
            (sample_world (Some (sample_nic
               [sample_cfg0;
                sample_config "cfg1"
                  (Some [sample_pool (Some sample_pool_b); sample_pool None])])))
            (sample_association sample_pool_a) sample_meta _ _ eq_refl eq_refl).
  - apply sample_world_faithful.
  - apply sample_parses_name.
Defined.

Lemma association_Delete_then_Read_witness :
  id_set (fst (after_run
                 (sample_world (Some (sample_nic
                    [sample_cfg0;
                     sample_config "cfg1" (Some [sample_pool (Some sample_pool_a)])])))
                 (loadBalancerBackendAddressPoolAssociationDelete (D := sample_deps)
                    (sample_association sample_pool_a) sample_meta)
                 (loadBalancerBackendAddressPoolAssociationRead (D := sample_deps)
                    (sample_association sample_pool_a) sample_meta)))
  = Some "".
Proof.
  refine (association_Delete_then_Read (D := sample_deps) _
            (sample_world (Some (sample_nic
               [sample_cfg0; sample_config "cfg1" (Some [sample_pool (Some sample_pool_a)])])))
            (sample_association sample_pool_a) sample_meta _ eq_refl eq_refl).
  apply sample_world_faithful.
Defined.

Lemma association_Delete_twice_witness :
  stored_after
    (Some (sample_nic
             [sample_cfg0; sample_config "cfg1" (Some [sample_pool (Some sample_pool_a)])]))
    (fst (after_run
            (sample_world (Some (sample_nic
               [sample_cfg0; sample_config "cfg1" (Some [sample_pool (Some sample_pool_a)])])))
            (loadBalancerBackendAddressPoolAssociationDelete (D := sample_deps)
               (sample_association sample_pool_a) sample_meta)
            (loadBalancerBackendAddressPoolAssociationDelete (D := sample_deps)
               (sample_association sample_pool_a) sample_meta)))
  = stored_after
      (Some (sample_nic
               [sample_cfg0; sample_config "cfg1" (Some [sample_pool (Some sample_pool_a)])]))
      (fst (run
              (sample_world (Some (sample_nic
                 [sample_cfg0;
                  sample_config "cfg1" (Some [sample_pool (Some sample_pool_a)])])))
              (loadBalancerBackendAddressPoolAssociationDelete (D := sample_deps)
                 (sample_association sample_pool_a) sample_meta))).
Proof.
  refine (association_Delete_twice (D := sample_deps) _
            (sample_world (Some (sample_nic
               [sample_cfg0; sample_config "cfg1" (Some [sample_pool (Some sample_pool_a)])])))
            (sample_association sample_pool_a) sample_meta _ eq_refl eq_refl).
  apply sample_world_faithful.
Defined.

(** ** The handlers of the network interface, run by run *)

Ltac answer :=
  repeat (cbn [exec bind lift app snd fst]; cbv zeta;
          try match goal with
              | |- context [match onSet ?w ?p ?k ?v with _ => _ end] =>
                  destruct (onSet w p k v) eqn:?
              | |- context [match onCreateOrUpdate ?w ?p ?rg ?n ?b with _ => _ end] =>
                  destruct (onCreateOrUpdate w p rg n b) eqn:?
              | |- context [match onDelete ?w ?p ?rg ?n with _ => _ end] =>
                  destruct (onDelete w p rg n) eqn:?
              | |- context [match onWait ?w ?p with _ => _ end] =>
                  destruct (onWait w p) eqn:?
              end;
          try discriminate).

Ltac create_rest w d id Hids Hsets :=
  let ipConfigs := fresh "ipConfigs" in
  let lockingDetails := fresh "lockingDetails" in
  let Hread := fresh "Hread" in
  destruct (expandNetworkInterfaceIPConfigurations (d_ip_configuration d))
    as [[ipConfigs|?]|?]; cbn [lift bind exec defer_ snd]; try discriminate;
  destruct (determineResourcesToLockFromIPConfiguration (Some ipConfigs))
    as [lockingDetails|?]; cbn [lift bind exec defer_ snd]; try discriminate;
  cbv zeta;
  match goal with
  | |- context [onCreateOrUpdate w ?p ?rg ?n ?b] => destruct (onCreateOrUpdate w p rg n b)
  end;
  cbn [lift bind exec defer_ snd]; try discriminate;
  cbv zeta;
  match goal with
  | |- context [onWait w ?p] => destruct (onWait w p)
  end;
  cbn [lift bind exec defer_ snd]; try discriminate;
  rewrite !exec_defer_; cbn [exec fst snd]; rewrite exec_run; cbn [fst snd];
  intros Hread; exists ipConfigs;
  match goal with
  | |- context [shift w (?pre ++ [EvSetId ?i])] =>
      match pre with
      | context [EvCreateOrUpdate _ _ ?payload None] =>
          exists payload; eexists; exists (pre ++ [EvSetId i]);
          exists [EvUnlockDetails lockingDetails;
                  EvUnlock (nicid_Name id) networkInterfaceResourceName]
      end
  end;
  (split; [reflexivity|]); (split; [reflexivity|]); (split; [reflexivity|]);
  (split; [reflexivity|]);
  (split; [first [reflexivity | eexists; split; reflexivity]|]);
  (split; [intros ?; rewrite !stored_after_app; reflexivity|]);
  rewrite !set_ids_app, !sets_app, Hids, Hsets;
  (split; [reflexivity|]); (split; [reflexivity|]); (split; [reflexivity|]);
  (split; [reflexivity|]); (split; [|exact Hread]);
  rewrite <- !app_assoc; reflexivity.

Section InterfaceRuns.
Context `{D : Deps}.

Lemma networkInterfaceRead_is_read_only (d : NetworkInterfaceData) (meta : Meta) :
  read_only (networkInterfaceRead d meta).
Proof. unfold networkInterfaceRead. walk_read_only. Qed.

(** A [networkInterfaceRead] that returns nil: what it has set. *)
Lemma networkInterfaceRead_returns_nil (w : World) (d : NetworkInterfaceData) (meta : Meta) :
  snd (run w (networkInterfaceRead d meta)) = Returned None ->
  exists id,
    parse_NetworkInterfaceID (d_Id d) = Ok id
    /\ match onGet w [] (nicid_ResourceGroup id) (nicid_Name id) with
       | GetOk resp =>
           set_ids (fst (run w (networkInterfaceRead d meta))) = []
           /\ match nic_Properties resp with
              | None => True
              | Some props =>
                  exists flat applied suffix vm,
                    flattenNetworkInterfaceIPConfigurations (IPConfigurations props)
                    = Returned flat
                    /\ sets (fst (run w (networkInterfaceRead d meta)))
                       = [ ("name", VString (nicid_Name id));
                           ("resource_group_name", VString (nicid_ResourceGroup id));
                           ("location",
                            VString (location_NormalizeNilable (nic_Location resp)));
                           ("applied_dns_servers", applied);
                           ("dns_servers",
                            VStrings
                              match DNSSettings props with
                              | Some dnsSettings =>
                                  flattenNetworkInterfaceDnsServers (DNSServers dnsSettings)
                              | None => []
                              end);
                           ("enable_ip_forwarding", VBoolPtr (EnableIPForwarding props));
                           ("internal_domain_name_suffix", suffix);
                           ("mac_address", VStringPtr (MacAddress props));
                           ("private_ip_address",
                            VString (first_private_address (IPConfigurations props)));
                           ("virtual_machine_id", vm);
                           ("ip_configuration", VList flat);
                           ("private_ip_addresses",
                            VList (private_addresses (IPConfigurations props)));
                           ("tags", tags_Flatten (nic_Tags resp)) ]
              end
       | GetNotFound _ =>
           set_ids (fst (run w (networkInterfaceRead d meta))) = [""]
           /\ sets (fst (run w (networkInterfaceRead d meta))) = []
       | GetFailed _ => False
       end.
Proof.
  unfold run, networkInterfaceRead.
  destruct (parse_NetworkInterfaceID (d_Id d)) as [id|err] eqn:Hparse;
    cbn [exec app snd]; [|discriminate].
  intros Hnil. exists id. split; [reflexivity|]. revert Hnil. cbv zeta.
  destruct (onGet w [] _ _) as [resp|err|err]; cbn [exec app snd fst set_ids sets];
    try discriminate; [|auto].
  destruct (nic_Properties resp) as [props|].
  2:{ answer. intros _. split; [reflexivity|exact I]. }
  assert (Hloop : match IPConfigurations props with
                  | Some configs => privateIPAddresses_loop configs 0 "" []
                  | None => ("", [])
                  end
                  = (first_private_address (IPConfigurations props),
                     private_addresses (IPConfigurations props))).
  { destruct (IPConfigurations props) as [configs|]; [|reflexivity].
    rewrite privateIPAddresses_loop_spec. cbn [Nat.eqb app].
    unfold first_private_address, private_addresses.
    destruct configs as [|c configs]; [reflexivity|]. now destruct (private_address c). }
  rewrite Hloop. clear Hloop.
  destruct (flattenNetworkInterfaceIPConfigurations (IPConfigurations props)) as [flat|msg];
    answer.
  intros _. split; [reflexivity|]. do 4 eexists. split; reflexivity.
Qed.

(** X15: a [networkInterfaceRead] that returns nil after a [Get] that found
    the interface with properties has set ["private_ip_address"] to the
    address of the first IP configuration (empty when that has none),
    ["private_ip_addresses"] to the addresses of the IP configurations that
    have one, in order, and ["ip_configuration"] to the flattened IP
    configurations, all of which have properties. *)
Theorem networkInterfaceRead_sets_addresses (w : World) (d : NetworkInterfaceData)
    (meta : Meta) (id : NetworkInterfaceId) (resp : InterfaceW) (props : PropertiesW) :
  parse_NetworkInterfaceID (d_Id d) = Ok id ->
  onGet w [] (nicid_ResourceGroup id) (nicid_Name id) = GetOk resp ->
  nic_Properties resp = Some props ->
  snd (run w (networkInterfaceRead d meta)) = Returned None ->
  value_set "private_ip_address" (fst (run w (networkInterfaceRead d meta)))
  = Some (VString (first_private_address (IPConfigurations props)))
  /\ value_set "private_ip_addresses" (fst (run w (networkInterfaceRead d meta)))
     = Some (VList (private_addresses (IPConfigurations props)))
  /\ (exists flat,
        flattenNetworkInterfaceIPConfigurations (IPConfigurations props) = Returned flat
        /\ value_set "ip_configuration" (fst (run w (networkInterfaceRead d meta)))
           = Some (VList flat))
  /\ forallb has_properties
       (match IPConfigurations props with Some l => l | None => [] end) = true.
Proof.
  intros Hparse Hget Hprops Hnil.
  destruct (networkInterfaceRead_returns_nil w d meta Hnil) as (id' & Hparse' & Hread).
  rewrite Hparse in Hparse'. injection Hparse' as <-.
  rewrite Hget, Hprops in Hread.
  destruct Hread as (_ & flat & applied & suffix & vm & Hflat & Hsets).
  unfold value_set. rewrite Hsets. repeat split.
  - exists flat. split; [exact Hflat|reflexivity].
  - destruct (IPConfigurations props) as [l|]; [|reflexivity].
    simpl in Hflat. pose proof (flatten_loop_spec l []) as Hl.
    rewrite Hflat in Hl. apply Hl.
Qed.

Lemma networkInterfaceDelete_returns_nil (w : World) (d : NetworkInterfaceData)
    (meta : Meta) :
  snd (run w (networkInterfaceDelete d meta)) = Returned None ->
  exists id,
    parse_NetworkInterfaceID (d_Id d) = Ok id
    /\ match onGet w [EvLock (nicid_Name id) networkInterfaceResourceName]
               (nicid_ResourceGroup id) (nicid_Name id) with
       | GetOk existing =>
           exists lockingDetails,
             fst (run w (networkInterfaceDelete d meta))
             = [ EvLock (nicid_Name id) networkInterfaceResourceName;
                 EvGet (nicid_ResourceGroup id) (nicid_Name id) (GetOk existing);
                 EvLockDetails lockingDetails;
                 EvDelete (nicid_ResourceGroup id) (nicid_Name id) None;
                 EvWait None;
                 EvUnlockDetails lockingDetails;
                 EvUnlock (nicid_Name id) networkInterfaceResourceName ]
       | GetNotFound err =>
           fst (run w (networkInterfaceDelete d meta))
           = [ EvLock (nicid_Name id) networkInterfaceResourceName;
               EvGet (nicid_ResourceGroup id) (nicid_Name id) (GetNotFound err);
               EvSetId "";
               EvUnlock (nicid_Name id) networkInterfaceResourceName ]
       | GetFailed _ => False
       end.
Proof.
  unfold run, networkInterfaceDelete.
  destruct (parse_NetworkInterfaceID (d_Id d)) as [id|err] eqn:Hparse;
    cbn [exec defer_ app snd]; [|discriminate].
  intros Hnil. exists id. split; [reflexivity|]. revert Hnil. cbv zeta.
  destruct (onGet w _ _ _) as [existing|err|err]; cbn [exec defer_ bind app snd fst];
    try discriminate; [|reflexivity].
  destruct (nic_Properties existing) as [props|]; cbn [exec defer_ bind app snd fst];
    [|discriminate].
  destruct (determineResourcesToLockFromIPConfiguration _) as [lockingDetails|err];
    cbn [exec defer_ bind app snd fst]; [|discriminate].
  cbv zeta. destruct (onDelete w _ _ _); cbn [exec defer_ bind app snd fst]; [discriminate|].
  cbv zeta. destruct (onWait w _); cbn [exec defer_ bind app snd fst]; [discriminate|].
  eauto.
Qed.

(** X16: against a service that stores what it is sent, after a
    [networkInterfaceDelete] that returned nil the service stores no
    interface, and a [networkInterfaceRead] or a second
    [networkInterfaceDelete] that then returns nil has cleared the ID. *)
Theorem networkInterfaceDelete_then (stored : option InterfaceW) (w : World)
    (d : NetworkInterfaceData) (meta : Meta) :
  faithful stored w ->
  snd (run w (networkInterfaceDelete d meta)) = Returned None ->
  stored_after stored (fst (run w (networkInterfaceDelete d meta))) = None
  /\ (snd (after_run w (networkInterfaceDelete d meta) (networkInterfaceRead d meta))
      = Returned None ->
      id_set (fst (after_run w (networkInterfaceDelete d meta) (networkInterfaceRead d meta)))
      = Some "")
  /\ (snd (after_run w (networkInterfaceDelete d meta) (networkInterfaceDelete d meta))
      = Returned None ->
      id_set (fst (after_run w (networkInterfaceDelete d meta)
                     (networkInterfaceDelete d meta)))
      = Some "").
Proof.
  intros Hw Hnil.
  destruct (networkInterfaceDelete_returns_nil w d meta Hnil) as (id & Hparse & Hrun).
  pose proof (Hw [EvLock (nicid_Name id) networkInterfaceResourceName]
                (nicid_ResourceGroup id) (nicid_Name id)) as Hstored.
  assert (Hgone : stored_after stored (fst (run w (networkInterfaceDelete d meta))) = None).
  { destruct (onGet w _ _ _) as [existing|err|err]; [| |contradiction].
    - destruct Hrun as [lockingDetails ->]. reflexivity.
    - rewrite Hrun. exact Hstored. }
  split; [exact Hgone|].
  unfold after_run, id_set. set (tr := fst (run w _)) in *.
  split.
  - rewrite exec_run. cbn [fst snd]. intros Hread.
    destruct (networkInterfaceRead_returns_nil _ d meta Hread) as (id' & Hparse' & Hget).
    pose proof (faithful_shift stored w tr Hw [] (nicid_ResourceGroup id') (nicid_Name id'))
      as Hthen.
    rewrite Hgone in Hthen.
    destruct (onGet (shift w tr) [] _ _) as [resp|err|err]; cbn in Hthen;
      [discriminate| |contradiction].
    rewrite set_ids_app. destruct Hget as [-> _].
    now rewrite last_snoc.
  - rewrite exec_run. cbn [fst snd]. intros Hagain.
    destruct (networkInterfaceDelete_returns_nil _ d meta Hagain) as (id' & Hparse' & Hget).
    rewrite Hparse in Hparse'. injection Hparse' as <-.
    pose proof (faithful_shift stored w tr Hw
                  [EvLock (nicid_Name id) networkInterfaceResourceName]
                  (nicid_ResourceGroup id) (nicid_Name id)) as Hthen.
    rewrite Hgone in Hthen.
    destruct (onGet (shift w tr) _ _ _) as [resp|err|err]; cbn in Hthen;
      [discriminate| |contradiction].
    rewrite Hget, set_ids_app. cbn [set_ids]. now rewrite last_snoc.
Qed.

Lemma networkInterfaceCreate_returns_nil (w : World) (d : NetworkInterfaceData)
    (meta : Meta) :
  snd (run w (networkInterfaceCreate d meta)) = Returned None ->
  let id :=
    parse_NewNetworkInterfaceID (SubscriptionId meta) (d_resource_group_name d) (d_name d) in
  exists ipConfigs payload props pre post,
    expandNetworkInterfaceIPConfigurations (d_ip_configuration d) = Returned (Ok ipConfigs)
    /\ nic_Properties payload = Some props
    /\ IPConfigurations props
       = (if Nat.ltb 0 (length ipConfigs) then Some ipConfigs else None)
    /\ EnableIPForwarding props = Some (d_enable_ip_forwarding d)
    /\ (if d_dns_servers_ok d
        then exists dns,
            expandNetworkInterfaceDnsServers (d_dns_servers d) = Returned dns
            /\ dns_servers_of props = Some dns
        else DNSSettings props = None)
    /\ (forall stored, stored_after stored pre = Some payload)
    /\ set_ids pre = [NetworkInterfaceId_ID id]
    /\ sets pre = []
    /\ set_ids post = []
    /\ sets post = []
    /\ fst (run w (networkInterfaceCreate d meta))
       = pre
         ++ fst (run (shift w pre)
                   (networkInterfaceRead (d_SetId d (NetworkInterfaceId_ID id)) meta))
         ++ post
    /\ snd (run (shift w pre)
              (networkInterfaceRead (d_SetId d (NetworkInterfaceId_ID id)) meta))
       = Returned None.
Proof.
  unfold run, networkInterfaceCreate. cbv zeta.
  set (id := parse_NewNetworkInterfaceID _ _ _).
  match goal with |- context [bind _ ?K] => set (k := K) end.
  assert (Hbody : forall past : list Event,
             set_ids past = [] -> sets past = [] ->
             snd (exec w past (k None)) = Returned None ->
             exists ipConfigs payload props pre post,
               expandNetworkInterfaceIPConfigurations (d_ip_configuration d)
               = Returned (Ok ipConfigs)
               /\ nic_Properties payload = Some props
               /\ IPConfigurations props
                  = (if Nat.ltb 0 (length ipConfigs) then Some ipConfigs else None)
               /\ EnableIPForwarding props = Some (d_enable_ip_forwarding d)
               /\ (if d_dns_servers_ok d
                   then exists dns,
                       expandNetworkInterfaceDnsServers (d_dns_servers d) = Returned dns
                       /\ dns_servers_of props = Some dns
                   else DNSSettings props = None)
               /\ (forall stored, stored_after stored pre = Some payload)
               /\ set_ids pre = [NetworkInterfaceId_ID id]
               /\ sets pre = []
               /\ set_ids post = []
               /\ sets post = []
               /\ fst (exec w past (k None))
                  = pre
                    ++ fst (run (shift w pre)
                              (networkInterfaceRead (d_SetId d (NetworkInterfaceId_ID id))
                                 meta))
                    ++ post
               /\ snd (run (shift w pre)
                         (networkInterfaceRead (d_SetId d (NetworkInterfaceId_ID id)) meta))
                  = Returned None).
  2:{ destruct (d_IsNewResource d); cbn [bind exec]; cbv zeta.
      - destruct (onGet w [] _ _) as [existing|err|err] eqn:Hcheck; cbn [bind exec snd].
        1,3: subst k; cbn [exec snd]; discriminate.
        apply Hbody; reflexivity.
      - apply Hbody; reflexivity. }
  subst k. cbv beta iota.
  intros past Hids Hsets.
  cbn [exec defer_ bind app].
  destruct (d_dns_servers_ok d) eqn:Hok;
    [destruct (expandNetworkInterfaceDnsServers (d_dns_servers d)) as [dns|msg] eqn:Hdns|];
    cbn [lift bind exec defer_ snd]; try discriminate.
  all: create_rest w d id Hids Hsets.
Qed.

(** X17: when [networkInterfaceCreate] returns nil against a service that
    stores what it is sent, the resource has the ID of the interface and the
    [Read] that ends the create has set the configuration back:
    ["ip_configuration"] to one map per configured block, in order, with the
    block's value under every key (["primary"] as [false] where the block
    has none), ["dns_servers"] to the configured list (empty when there is
    none) and ["enable_ip_forwarding"] to the configured flag. *)
Theorem networkInterfaceCreate_reads_back (stored : option InterfaceW) (w : World)
    (d : NetworkInterfaceData) (meta : Meta) (input : list IPConfigurationBlock) :
  faithful stored w ->
  d_ip_configuration d = map raw input ->
  snd (run w (networkInterfaceCreate d meta)) = Returned None ->
  id_set (fst (run w (networkInterfaceCreate d meta)))
  = Some (NetworkInterfaceId_ID
            (parse_NewNetworkInterfaceID (SubscriptionId meta) (d_resource_group_name d)
               (d_name d)))
  /\ value_set "enable_ip_forwarding" (fst (run w (networkInterfaceCreate d meta)))
     = Some (VBool (d_enable_ip_forwarding d))
  /\ value_set "dns_servers" (fst (run w (networkInterfaceCreate d meta)))
     = Some (VList (if d_dns_servers_ok d then d_dns_servers d else []))
  /\ exists flat,
       value_set "ip_configuration" (fst (run w (networkInterfaceCreate d meta)))
       = Some (VList flat)
       /\ Forall2 same_block input flat.
Proof.
  intros Hw Hinput Hnil.
  destruct (networkInterfaceCreate_returns_nil w d meta Hnil)
    as (ipConfigs & payload & props & pre & post & Hexp & Hprops & Hconfigs & Hforward
        & Hdns & Hpre & Hids & Hsets & Hids' & Hsets' & Htr & Hread).
  destruct (networkInterfaceRead_returns_nil _ _ meta Hread) as (id' & Hparse & Hget).
  pose proof (faithful_shift stored w pre Hw [] (nicid_ResourceGroup id') (nicid_Name id'))
    as Hthen.
  rewrite Hpre in Hthen.
  destruct (onGet (shift w pre) [] _ _) as [resp|err|err]; cbn in Hthen;
    [|discriminate|contradiction].
  injection Hthen as <-. rewrite Hprops in Hget.
  destruct Hget as (Hids2 & flat & applied & suffix & vm & Hflat & Hsets2).
  unfold id_set, value_set.
  rewrite Htr, !set_ids_app, !sets_app, Hids, Hsets, Hids', Hsets', Hids2, Hsets2.
  cbn [app rev List.find fst snd String.eqb Ascii.eqb Bool.eqb last].
  rewrite Hforward.
  split; [reflexivity|]. split; [reflexivity|]. split.
  - do 2 f_equal. unfold VStrings. f_equal.
    destruct (d_dns_servers_ok d).
    + destruct Hdns as (dns & Hdns & Hservers). unfold dns_servers_of in Hservers.
      destruct (DNSSettings props) as [dnsSettings|]; [|discriminate].
      rewrite Hservers. cbn [flattenNetworkInterfaceDnsServers].
      unfold expandNetworkInterfaceDnsServers in Hdns.
      pose proof (expandNetworkInterfaceDnsServers_loop_spec (d_dns_servers d) []) as Hloop.
      rewrite Hdns in Hloop. now destruct Hloop as (new & -> & ->).
    + now rewrite Hdns.
  - exists flat. split; [reflexivity|].
    rewrite Hinput in Hexp. unfold expandNetworkInterfaceIPConfigurations in Hexp.
    rewrite expand_loop_raw in Hexp.
    assert (Hexpanded : ipConfigs = map expanded input).
    { revert Hexp. destruct (existsb lacks_subnet input); cbn [obind app]; [discriminate|].
      destruct (Nat.ltb 1 (length (map expanded input))); [|now intros [= <-]].
      rewrite hasPrimary_loop_expanded. cbn [obind].
      destruct (negb _); [discriminate|now intros [= <-]]. }
    subst ipConfigs. rewrite Hconfigs, length_map in Hflat.
    assert (Hmaps : flat = map flattened input).
    { destruct input as [|c input]; cbn in Hflat; [now injection Hflat as <-|].
      change (flatten_loop (map expanded (c :: input)) [] = Returned flat) in Hflat.
      rewrite flatten_loop_expanded in Hflat. now injection Hflat as <-. }
    subst flat. clear.
    induction input; simpl; constructor; auto using same_block_flattened.
Qed.

End InterfaceRuns.

(** ** What [networkInterfaceUpdate] takes from the configuration *)

(** X18: every interface that [networkInterfaceUpdate] sends follows a [Get]
    of the same name and has, for each of [dns_servers],
    [enable_ip_forwarding], [ip_configuration] and [tags] of which [d]
    reports a change, the configured value, the IP configurations mapped
    onto those of the interface read; it has the configured location, no
    virtual machine and no MAC address, and its DNS settings hold servers
    only: the internal DNS name label of the interface read is not sent. *)
Theorem networkInterfaceUpdate_takes_configured `{D : Deps} (w : World)
    (d : NetworkInterfaceData) (meta : Meta) :
  Forall (fun '(rg, n, update) =>
            exists existing,
              In (EvGet rg n (GetOk existing)) (fst (run w (networkInterfaceUpdate d meta)))
              /\ configured d existing update)
    (writes (fst (run w (networkInterfaceUpdate d meta)))).
Proof.
  unfold run, networkInterfaceUpdate.
  crawl.
  all: try solve [constructor].
  all: constructor; [|constructor]; eexists; split; [simpl; eauto|].
  all: unfold configured; do 2 eexists.
  all: repeat match goal with |- _ /\ _ => split end.
  all: try eassumption; try reflexivity; intros; try congruence.
  all: try (eexists; split; [eassumption|reflexivity]).
  all: try (eexists; repeat split; reflexivity).
Qed.

(** ** The fields a handler sets, and its one write *)

Ltac settle_more :=
  repeat first
    [ progress cbn [monitored bind defer_ lift declared one_write answered silent
                    existsb String.eqb Ascii.eqb Bool.eqb orb andb map fst Schema_
                    networkInterface loadBalancerBackendAddressPoolAssociation]
    | progress unfold allow_then
    | rewrite String.eqb_refl ].

Ltac watch_more :=
  repeat (settle_more;
          try reflexivity;
          intros;
          try first [ match goal with
                      | |- context [match ?x with _ => _ end] => is_var x; destruct x
                      end
                    | branch ]).

(** X19: in every world the handlers set only fields that the schema of
    their resource declares: those of the network interface for the
    handlers of the network interface, the three fields of the association
    for the handlers of the association. *)
Theorem handlers_set_declared_fields `{D : Deps} (w : World) (d : NetworkInterfaceData)
    (a : AssociationData) (meta : Meta) :
  Forall (fun handler =>
            passes (declared (map fst (Schema_ networkInterface))) (fun _ => true) tt
              (fst (run w (handler d meta))) = true)
    [networkInterfaceCreate; networkInterfaceRead; networkInterfaceUpdate;
     networkInterfaceDelete]
  /\ Forall (fun handler =>
               passes (declared (map fst (Schema_ loadBalancerBackendAddressPoolAssociation)))
                 (fun _ => true) tt (fst (run w (handler a meta))) = true)
       [loadBalancerBackendAddressPoolAssociationCreateUpdate;
        loadBalancerBackendAddressPoolAssociationRead;
        loadBalancerBackendAddressPoolAssociationDelete].
Proof.
  split; repeat constructor; apply monitored_run.
  - unfold networkInterfaceCreate, networkInterfaceRead. watch_more.
  - unfold networkInterfaceRead. watch_more.
  - unfold networkInterfaceUpdate. watch_more.
  - unfold networkInterfaceDelete. watch_more.
  - unfold loadBalancerBackendAddressPoolAssociationCreateUpdate,
      loadBalancerBackendAddressPoolAssociationRead. watch_more.
  - unfold loadBalancerBackendAddressPoolAssociationRead. watch_more.
  - unfold loadBalancerBackendAddressPoolAssociationDelete. watch_more.
Qed.

(** X20: in every world each handler makes one write at most, a
    [CreateOrUpdate] or a [Delete], after it took its locks, and waits only
    on the future of a write that the service accepted; after a write that
    was refused or a wait that failed it only releases its locks; it reads
    and sets nothing between the write and the end of the wait, and sets an
    ID that is not empty only when the write is complete. *)
Theorem handlers_write_once `{D : Deps} (w : World) (d : NetworkInterfaceData)
    (a : AssociationData) (meta : Meta) :
  Forall (fun handler =>
            passes one_write (fun _ => true) NoWrite (fst (run w (handler d meta))) = true)
    [networkInterfaceCreate; networkInterfaceRead; networkInterfaceUpdate;
     networkInterfaceDelete]
  /\ Forall (fun handler =>
               passes one_write (fun _ => true) NoWrite (fst (run w (handler a meta))) = true)
       [loadBalancerBackendAddressPoolAssociationCreateUpdate;
        loadBalancerBackendAddressPoolAssociationRead;
        loadBalancerBackendAddressPoolAssociationDelete].
Proof.
  split; repeat constructor; apply monitored_run.
  - unfold networkInterfaceCreate, networkInterfaceRead. watch_more.
  - unfold networkInterfaceRead. watch_more.
  - unfold networkInterfaceUpdate. watch_more.
  - unfold networkInterfaceDelete. watch_more.
  - unfold loadBalancerBackendAddressPoolAssociationCreateUpdate,
      loadBalancerBackendAddressPoolAssociationRead. watch_more.
  - unfold loadBalancerBackendAddressPoolAssociationRead. watch_more.
  - unfold loadBalancerBackendAddressPoolAssociationDelete. watch_more.
Qed.

(** X21: in every world [networkInterfaceUpdate] and
    [loadBalancerBackendAddressPoolAssociationDelete] leave [d] as it is:
    they set no field and no ID. *)
Theorem Update_and_Delete_set_nothing `{D : Deps} (w : World) (d : NetworkInterfaceData)
    (a : AssociationData) (meta : Meta) :
  passes silent (fun _ => true) tt (fst (run w (networkInterfaceUpdate d meta))) = true
  /\ passes silent (fun _ => true) tt
       (fst (run w (loadBalancerBackendAddressPoolAssociationDelete a meta))) = true.
Proof.
  split; apply monitored_run.
  - unfold networkInterfaceUpdate. watch_more.
  - unfold loadBalancerBackendAddressPoolAssociationDelete. watch_more.
Qed.

(** The theorems on the handlers of the network interface, on the sample
    service: the sample interface is read and deleted; the sample
    configuration is created on a service that stores nothing. *)

Lemma networkInterfaceRead_sets_addresses_witness :
  value_set "private_ip_address"
    (fst (run (sample_world (Some (sample_nic [sample_cfg0])))
            (networkInterfaceRead (D := sample_deps)
               (d_SetId sample_data sample_nic_id) sample_meta)))
  = Some (VString "10.0.0.4").
Proof.
  exact (proj1 (networkInterfaceRead_sets_addresses (D := sample_deps)
                  (sample_world (Some (sample_nic [sample_cfg0])))
                  (d_SetId sample_data sample_nic_id) sample_meta sample_id _ _
                  eq_refl eq_refl eq_refl eq_refl)).
Defined.

Lemma networkInterfaceDelete_then_witness :
  stored_after (Some (sample_nic [sample_cfg0]))
    (fst (run (sample_world (Some (sample_nic [sample_cfg0])))
            (networkInterfaceDelete (D := sample_deps)
               (d_SetId sample_data sample_nic_id) sample_meta)))
  = None
  /\ id_set (fst (after_run (sample_world (Some (sample_nic [sample_cfg0])))
                    (networkInterfaceDelete (D := sample_deps)
                       (d_SetId sample_data sample_nic_id) sample_meta)
                    (networkInterfaceRead (D := sample_deps)
                       (d_SetId sample_data sample_nic_id) sample_meta)))
     = Some ""
  /\ id_set (fst (after_run (sample_world (Some (sample_nic [sample_cfg0])))
                    (networkInterfaceDelete (D := sample_deps)
                       (d_SetId sample_data sample_nic_id) sample_meta)
                    (networkInterfaceDelete (D := sample_deps)
                       (d_SetId sample_data sample_nic_id) sample_meta)))
     = Some "".
Proof.
  destruct (networkInterfaceDelete_then (D := sample_deps) _
              (sample_world (Some (sample_nic [sample_cfg0])))
              (d_SetId sample_data sample_nic_id) sample_meta
              (sample_world_faithful _) eq_refl) as (Hgone & Hread & Hagain).
  split; [exact Hgone|]. split; [exact (Hread eq_refl)|exact (Hagain eq_refl)].
Defined.

Lemma networkInterfaceCreate_reads_back_witness :
  exists flat,
    value_set "ip_configuration"
      (fst (run (sample_world None)
              (networkInterfaceCreate (D := sample_deps) sample_data sample_meta)))
    = Some (VList flat)
    /\ Forall2 same_block [sample_block] flat.
Proof.
  exact (proj2 (proj2 (proj2
           (networkInterfaceCreate_reads_back (D := sample_deps) None (sample_world None)
              sample_data sample_meta [sample_block]
              (sample_world_faithful _) eq_refl eq_refl)))).
Defined.
